(** * Golden-Cross: the decision engine and the order-execution client

    A shallow embedding of [src/services/aiService.ts] (indicator, strategy,
    position management, sizing, aggregation) and of [executeOrder] with its
    helpers from the OKX service, followed by the properties the
    specification states about them.

    Numbers.  The TypeScript code computes on JavaScript numbers.  They are
    modelled by [JS.number]: exact rationals together with [NaN] and the two
    infinities.  Arithmetic is therefore exact (no binary64 rounding, no
    overflow, no signed zero); [NaN] and the infinities propagate as in
    JavaScript, and every comparison with [NaN] is false.

    Where a property turns on rounding, the function is embedded a second
    time on binary64 numbers, the numbers of the engine: module [F64]
    holds [calcEMA] on Rocq's primitive floats, every operation rounded
    to nearest even.

    Strings.  Record fields keep the types of [src/types.ts]: prices and
    sizes are strings, read through [JS.parseFloat] and written through
    [JS.toFixed] and [JS.toString]. *)

From Stdlib Require Import QArith Qcanon Qround ZArith List String Ascii Bool.
From Stdlib Require Import Lia DecimalString DecimalPos DecimalN Sorted.
From Stdlib Require PrimFloat.
Import ListNotations.

Set Implicit Arguments.

(* ------------------------------------------------------------------ *)
(** * The JavaScript built-ins the program uses *)
(* ------------------------------------------------------------------ *)

Module JS.

Inductive number : Type :=
| NaN
| NegInf
| Fin (q : Qc)
| PosInf.

(** [num 0.9995] is the literal [0.9995]. *)
Definition num (q : Q) : number := Fin (Q2Qc q).
Arguments num q%_Q.

Definition zeroQc : Qc := Q2Qc 0.

(** Sign of a rational: [Lt] negative, [Eq] zero, [Gt] positive. *)
Definition sgn (q : Qc) : comparison := Qccompare q zeroQc.

Definition neg (x : number) : number :=
  match x with
  | NaN => NaN
  | NegInf => PosInf
  | PosInf => NegInf
  | Fin q => Fin (- q)%Qc
  end.

Definition add (x y : number) : number :=
  match x, y with
  | NaN, _ | _, NaN => NaN
  | PosInf, NegInf | NegInf, PosInf => NaN
  | PosInf, _ | _, PosInf => PosInf
  | NegInf, _ | _, NegInf => NegInf
  | Fin a, Fin b => Fin (a + b)%Qc
  end.

Definition sub (x y : number) : number := add x (neg y).

(** An infinity of the sign of [s], [NaN] when [s] is zero. *)
Definition inf_of (s : comparison) (flip : bool) : number :=
  match s with
  | Eq => NaN
  | Gt => if flip then NegInf else PosInf
  | Lt => if flip then PosInf else NegInf
  end.

Definition mul (x y : number) : number :=
  match x, y with
  | NaN, _ | _, NaN => NaN
  | Fin a, Fin b => Fin (a * b)%Qc
  | PosInf, PosInf | NegInf, NegInf => PosInf
  | PosInf, NegInf | NegInf, PosInf => NegInf
  | PosInf, Fin a | Fin a, PosInf => inf_of (sgn a) false
  | NegInf, Fin a | Fin a, NegInf => inf_of (sgn a) true
  end.

(** Division.  A finite non-zero number divided by zero is an infinity of
    the dividend's sign (the divisor is taken as +0); 0/0 is [NaN]. *)
Definition div (x y : number) : number :=
  match x, y with
  | NaN, _ | _, NaN => NaN
  | Fin a, Fin b =>
      match sgn b with
      | Eq => inf_of (sgn a) false
      | _ => Fin (a / b)%Qc
      end
  | Fin _, (PosInf | NegInf) => Fin zeroQc
  | (PosInf | NegInf), (PosInf | NegInf) => NaN
  | PosInf, Fin b => match sgn b with Lt => NegInf | _ => PosInf end
  | NegInf, Fin b => match sgn b with Lt => PosInf | _ => NegInf end
  end.

(** The relational operators [<], [>], [<=], [>=] and [===] on numbers. *)
Definition lt (x y : number) : bool :=
  match x, y with
  | NaN, _ | _, NaN => false
  | NegInf, NegInf => false
  | NegInf, _ => true
  | _, NegInf => false
  | PosInf, _ => false
  | Fin _, PosInf => true
  | Fin a, Fin b => match Qccompare a b with Lt => true | _ => false end
  end.

Definition gt (x y : number) : bool := lt y x.

Definition eq (x y : number) : bool :=
  match x, y with
  | NegInf, NegInf | PosInf, PosInf => true
  | Fin a, Fin b => match Qccompare a b with Eq => true | _ => false end
  | _, _ => false
  end.

Definition le (x y : number) : bool := lt x y || eq x y.
Definition ge (x y : number) : bool := le y x.

Definition isNaN (x : number) : bool :=
  match x with NaN => true | _ => false end.

Definition Math_abs (x : number) : number :=
  match x with
  | NaN => NaN
  | NegInf | PosInf => PosInf
  | Fin q => match sgn q with Lt => Fin (- q)%Qc | _ => Fin q end
  end.

Definition Z2Qc (z : Z) : Qc := Q2Qc (inject_Z z).

Definition Math_floor (x : number) : number :=
  match x with
  | Fin q => Fin (Z2Qc (Qfloor q))
  | _ => x
  end.

(** [Math.min(a, b)] and [Math.max(a, b)], then the variadic forms:
    [Math.min()] is [Infinity], [Math.max()] is [-Infinity], and a [NaN]
    argument makes the result [NaN]. *)
Definition min2 (x y : number) : number :=
  match x, y with
  | NaN, _ | _, NaN => NaN
  | _, _ => if lt y x then y else x
  end.

Definition max2 (x y : number) : number :=
  match x, y with
  | NaN, _ | _, NaN => NaN
  | _, _ => if lt x y then y else x
  end.

Definition Math_min (xs : list number) : number := fold_left min2 xs PosInf.
Definition Math_max (xs : list number) : number := fold_left max2 xs NegInf.

(** [Number.MAX_VALUE] = (2^53 - 1) * 2^971 and [Number.MIN_VALUE] = 2^-1074. *)
Definition MAX_VALUE_Qc : Qc := Z2Qc ((2 ^ 53 - 1) * 2 ^ 971).
Definition Number_MAX_VALUE : number := Fin MAX_VALUE_Qc.
Definition Number_MIN_VALUE : number :=
  Fin (Q2Qc (1 # Pos.pow 2 1074)).

(** ** Strings and numbers *)

Local Open Scope string_scope.

Definition isWhite (c : ascii) : bool :=
  match nat_of_ascii c with
  | 9 | 10 | 11 | 12 | 13 | 32 => true
  | _ => false
  end%nat.

Fixpoint trimStart (s : string) : string :=
  match s with
  | String c r => if isWhite c then trimStart r else s
  | EmptyString => s
  end.

(** The decimal digit a character stands for, as a constructor of
    [Decimal.uint]. *)
Definition digit_of (c : ascii) : option (Decimal.uint -> Decimal.uint) :=
  match c with
  | "0"%char => Some Decimal.D0 | "1"%char => Some Decimal.D1
  | "2"%char => Some Decimal.D2 | "3"%char => Some Decimal.D3
  | "4"%char => Some Decimal.D4 | "5"%char => Some Decimal.D5
  | "6"%char => Some Decimal.D6 | "7"%char => Some Decimal.D7
  | "8"%char => Some Decimal.D8 | "9"%char => Some Decimal.D9
  | _ => None
  end.

(** Longest prefix of decimal digits, and the rest of the string. *)
Fixpoint scan_digits (s : string) : Decimal.uint * string :=
  match s with
  | String c r =>
      match digit_of c with
      | Some d => let (u, rest) := scan_digits r in (d u, rest)
      | None => (Decimal.Nil, s)
      end
  | EmptyString => (Decimal.Nil, s)
  end.

Definition scan_sign (s : string) : bool * string :=
  match s with
  | String "-"%char r => (true, r)
  | String "+"%char r => (false, r)
  | _ => (false, s)
  end.

Definition pow10 (e : Z) : Qc :=
  match e with
  | Z0 => 1%Qc
  | Zpos p => Qcpower (Z2Qc 10) (Pos.to_nat p)
  | Zneg p => (/ Qcpower (Z2Qc 10) (Pos.to_nat p))%Qc
  end.

(** Exponent part [e±ddd]; it counts only when a digit follows. *)
Definition scan_exponent (s : string) : Z :=
  match s with
  | String ("e" | "E")%char r =>
      let (eneg, r') := scan_sign r in
      match fst (scan_digits r') with
      | Decimal.Nil => 0%Z
      | u => let e := Z.of_N (N.of_uint u) in if eneg then (- e)%Z else e
      end
  | _ => 0%Z
  end.

(** [parseFloat]: leading white space, a sign, then [Infinity] or the
    longest decimal literal that prefixes the rest; [NaN] when there is
    none. *)
Definition parseFloat (s : string) : number :=
  let (isNeg, s1) := scan_sign (trimStart s) in
  if String.prefix "Infinity" s1 then (if isNeg then NegInf else PosInf)
  else
    let (ip, s2) := scan_digits s1 in
    let (fp, s3) :=
      match s2 with
      | String "."%char r => scan_digits r
      | _ => (Decimal.Nil, s2)
      end in
    match ip, fp with
    | Decimal.Nil, Decimal.Nil => NaN
    | _, _ =>
        let m := (Z2Qc (Z.of_N (N.of_uint ip))
                  + Z2Qc (Z.of_N (N.of_uint fp))
                    * pow10 (- Z.of_nat (Decimal.nb_digits fp)))%Qc in
        let v := (m * pow10 (scan_exponent s3))%Qc in
        Fin (if isNeg then (- v)%Qc else v)
    end.

Definition string_of_N (n : N) : string :=
  NilZero.string_of_uint (N.to_uint n).

Fixpoint zeros (k : nat) : string :=
  match k with O => "" | S k' => String "0"%char (zeros k') end.

(** [n] written with at least [w] digits. *)
Definition pad_left (w : nat) (n : N) : string :=
  let s := string_of_N n in
  zeros (w - String.length s) ++ s.

(** [x.toFixed(d)]: the decimal with [d] fractional digits nearest to [x],
    ties away from zero.  (JavaScript switches to exponent notation from
    10^21 on; the model keeps plain digits.) *)
Definition toFixed (x : number) (d : nat) : string :=
  match x with
  | NaN => "NaN"
  | PosInf => "Infinity"
  | NegInf => "-Infinity"
  | Fin q =>
      let isNeg := match sgn q with Lt => true | _ => false end in
      let a := if isNeg then (- q)%Qc else q in
      let scale := Z.pow 10 (Z.of_nat d) in
      let n := Qfloor (a * Z2Qc scale + Q2Qc (1 # 2))%Qc in
      let ip := Z.to_N (n / scale) in
      let fp := Z.to_N (n mod scale) in
      (if isNeg then "-" else "")
        ++ string_of_N ip
        ++ match d with
           | O => ""
           | _ => "." ++ pad_left d fp
           end
  end.

(** Fractional digits of [r] (with 0 <= r < 1), at most [fuel] of them. *)
Fixpoint frac_digits (fuel : nat) (r : Qc) : string :=
  match fuel with
  | O => ""
  | S f =>
      match sgn r with
      | Eq => ""
      | _ =>
          let t := (r * Z2Qc 10)%Qc in
          let d := Qfloor t in
          string_of_N (Z.to_N d) ++ frac_digits f (t - Z2Qc d)%Qc
      end
  end.

(** [x.toString()]: an integer prints as its digits; a number with a
    fractional part prints its decimal expansion (to 20 places).
    (JavaScript switches to exponent notation from 10^21 on; the model
    keeps plain digits.) *)
Definition toString (x : number) : string :=
  match x with
  | NaN => "NaN"
  | PosInf => "Infinity"
  | NegInf => "-Infinity"
  | Fin q =>
      let isNeg := match sgn q with Lt => true | _ => false end in
      let a := if isNeg then (- q)%Qc else q in
      let ip := Qfloor a in
      let r := (a - Z2Qc ip)%Qc in
      (if isNeg then "-" else "")
        ++ string_of_N (Z.to_N ip)
        ++ match sgn r with
           | Eq => ""
           | _ => "." ++ frac_digits 20 r
           end
  end.

End JS.

Declare Scope js_scope.
Delimit Scope js_scope with js.
Bind Scope js_scope with JS.number.
Infix "+" := JS.add : js_scope.
Infix "-" := JS.sub : js_scope.
Infix "*" := JS.mul : js_scope.
Infix "/" := JS.div : js_scope.
Infix "<?" := JS.lt : js_scope.
Infix ">?" := JS.gt (at level 70) : js_scope.
Infix "<=?" := JS.le : js_scope.
Infix ">=?" := JS.ge (at level 70) : js_scope.
Infix "===" := JS.eq (at level 70) : js_scope.

Local Open Scope string_scope.

(** [a || d] for a string that may be undefined: the empty string and
    [undefined] are falsy. *)
Definition or_default (a : option string) (d : string) : string :=
  match a with
  | Some "" | None => d
  | Some s => s
  end.

(** [arr[i]] for an array of numbers; reading past the end gives
    [undefined], which every comparison treats like [NaN]. *)
Definition at_index (arr : list JS.number) (i : nat) : JS.number :=
  nth i arr JS.NaN.

(* ------------------------------------------------------------------ *)
(** * Data types ([src/types.ts]) *)
(* ------------------------------------------------------------------ *)

Module TickerData.
Record t : Type := mk {
  instId : string; last : string; lastSz : string; askPx : string;
  bidPx : string; open24h : string; high24h : string; low24h : string;
  volCcy24h : string; ts : string }.
End TickerData.

Module CandleData.
Record t : Type := mk {
  ts : string; o : string; h : string; l : string; c : string;
  vol : string }.
End CandleData.

Module AccountBalance.
Record t : Type := mk { totalEq : string; availEq : string; uTime : string }.
End AccountBalance.

Inductive PosSide : Type := long | short | net.

Module PositionData.
Record t : Type := mk {
  instId : string; posSide : PosSide; pos : string; avgPx : string;
  upl : string; uplRatio : string; mgnMode : string; margin : string;
  liqPx : string; cTime : string;
  slTriggerPx : option string; tpTriggerPx : option string }.
End PositionData.

Module AccountContext.
Record t : Type := mk {
  balance : AccountBalance.t;
  positions : list PositionData.t }.
End AccountContext.

(** [orderbook] and [trades] (of type [any]) are never read and are left
    out. *)
Module MarketDataCollection.
Record t : Type := mk {
  ticker : option TickerData.t;
  candles1H : list CandleData.t;
  candles3m : list CandleData.t;
  fundingRate : string;
  openInterest : string }.
End MarketDataCollection.

Inductive Action : Type := BUY | SELL | HOLD | CLOSE | UPDATE_TPSL.

Definition Action_eqb (a b : Action) : bool :=
  match a, b with
  | BUY, BUY | SELL, SELL | HOLD, HOLD | CLOSE, CLOSE
  | UPDATE_TPSL, UPDATE_TPSL => true
  | _, _ => false
  end.

Module TradingDecision.
Record t : Type := mk {
  action : Action; confidence : string; position_size : string;
  leverage : string; profit_target : string; stop_loss : string;
  invalidation_condition : string }.
End TradingDecision.

(** The optional [timestamp], which the engine does not set, is left out. *)
Module AIDecision.
Record t : Type := mk {
  stage_analysis : string; market_assessment : string;
  hot_events_overview : string; eth_analysis : string;
  trading_decision : TradingDecision.t;
  reasoning : string;
  action : Action; size : string; leverage : string }.
End AIDecision.

(** Modelled from the spec: the per-contract underlying value
    [CONTRACT_VAL_ETH], declared in [src/constants] which is not among the
    sources; the specification's sizing example takes "contract value=0.1"
    and the comment next to its use reads "1 contract = 0.1 ETH". *)
Definition CONTRACT_VAL_ETH : JS.number := JS.num 0.1.

(* ------------------------------------------------------------------ *)
(** * The decision engine ([src/services/aiService.ts]) *)
(* ------------------------------------------------------------------ *)

Local Open Scope js_scope.

(** ** Technical-analysis helper *)

(** The body of the loop of [calcEMA], from index 1 on: [prevEma] is the
    value pushed last. *)
Fixpoint calcEMA_loop (k prevEma : JS.number) (prices : list JS.number)
  : list JS.number :=
  match prices with
  | [] => []
  | p :: rest =>
      let val := p * k + prevEma * (JS.num 1 - k) in
      val :: calcEMA_loop k val rest
  end.

Definition calcEMA (prices : list JS.number) (period : JS.number)
  : list JS.number :=
  let k := JS.num 2 / (period + JS.num 1) in
  match prices with
  | [] => []
  | p0 :: rest => p0 :: calcEMA_loop k p0 rest
  end.

(** ** Strategy core *)

Inductive CrossType : Type := GOLDEN | DEAD.

Module CrossEvent.
Record t : Type := mk {
  index : nat; type : CrossType; price : JS.number; ts : string }.
End CrossEvent.

Definition CrossType_text (t : CrossType) : string :=
  match t with GOLDEN => "GOLDEN" | DEAD => "DEAD" end.

Module Analysis.
Record t : Type := mk {
  action : Action; reason : string; sl : JS.number; isUpTrend : bool }.
End Analysis.

Definition closes (cs : list CandleData.t) : list JS.number :=
  map (fun c => JS.parseFloat (CandleData.c c)) cs.
Definition highs (cs : list CandleData.t) : list JS.number :=
  map (fun c => JS.parseFloat (CandleData.h c)) cs.
Definition lows (cs : list CandleData.t) : list JS.number :=
  map (fun c => JS.parseFloat (CandleData.l c)) cs.

(** [c3m[i].ts] (always read with [i] inside the array). *)
Definition ts_at (cs : list CandleData.t) (i : nat) : string :=
  match nth_error cs i with
  | Some c => CandleData.ts c
  | None => ""
  end.

(** Step 2, the trend on the 1H chart:
    [ema15_1h[idx1h] > ema60_1h[idx1h]] at [idx1h = closes1h.length - 1]. *)
Definition trend1H (c1h : list CandleData.t) : bool :=
  let closes1h := closes c1h in
  let ema15_1h := calcEMA closes1h (JS.num 15) in
  let ema60_1h := calcEMA closes1h (JS.num 60) in
  let idx1h := (List.length closes1h - 1)%nat in
  at_index ema15_1h idx1h >? at_index ema60_1h idx1h.

(** One iteration of the scan of step 3 at index [i]. *)
Definition scan_step (c3m : list CandleData.t)
    (closes3m ema15_3m ema60_3m : list JS.number)
    (crosses : list CrossEvent.t) (i : nat) : list CrossEvent.t :=
  let prev15 := at_index ema15_3m (i - 1) in
  let prev60 := at_index ema60_3m (i - 1) in
  let curr15 := at_index ema15_3m i in
  let curr60 := at_index ema60_3m i in
  if (prev15 <=? prev60) && (curr15 >? curr60) then
    crosses ++ [CrossEvent.mk i GOLDEN (at_index closes3m i) (ts_at c3m i)]
  else if (prev15 >=? prev60) && (curr15 <? curr60) then
    crosses ++ [CrossEvent.mk i DEAD (at_index closes3m i) (ts_at c3m i)]
  else crosses.

(** Step 3, the crossings among the last 50 candles of the 3m chart:
    [for (i = scanStart; i < c3m.length; i++)] with
    [scanStart = Math.max(1, c3m.length - 50)]. *)
Definition scanCrosses (c3m : list CandleData.t) : list CrossEvent.t :=
  let closes3m := closes c3m in
  let ema15_3m := calcEMA closes3m (JS.num 15) in
  let ema60_3m := calcEMA closes3m (JS.num 60) in
  let scanStart := Nat.max 1 (List.length c3m - 50) in
  fold_left (scan_step c3m closes3m ema15_3m ema60_3m)
            (seq scanStart (List.length c3m - scanStart)) [].

(** [for (i = from; i <= to; i++) if (lows3m[i] < minLow) minLow = lows3m[i]]
    started at [Number.MAX_VALUE]. *)
Definition minLow_between (lows3m : list JS.number) (from to : nat)
  : JS.number :=
  fold_left (fun minLow i =>
               if at_index lows3m i <? minLow then at_index lows3m i
               else minLow)
            (seq from (to + 1 - from)) JS.Number_MAX_VALUE.

(** [for (i = from; i <= to; i++) if (highs3m[i] > maxHigh) maxHigh = highs3m[i]]
    started at [Number.MIN_VALUE]. *)
Definition maxHigh_between (highs3m : list JS.number) (from to : nat)
  : JS.number :=
  fold_left (fun maxHigh i =>
               if at_index highs3m i >? maxHigh then at_index highs3m i
               else maxHigh)
            (seq from (to + 1 - from)) JS.Number_MIN_VALUE.

(** The last element of [crosses] and the one before it,
    [crosses[crosses.length - 1]] and [crosses[crosses.length - 2]]. *)
Definition last_two (crosses : list CrossEvent.t)
  : option (CrossEvent.t * CrossEvent.t) :=
  match rev crosses with
  | lastCross :: prevCross :: _ => Some (prevCross, lastCross)
  | _ => None
  end.

Definition string_of_nat (n : nat) : string := JS.string_of_N (N.of_nat n).

(** The proposal of the position manager. *)
Module Management.
Record t : Type := mk { sl : string; reason : string }.
End Management.

Section Engine.

(** The identifier of the tracked instrument, [INSTRUMENT_ID] of
    [src/constants]; that file is not among the sources, so the identifier
    is a parameter of the development. *)
Variable INSTRUMENT_ID : string.

(** [accountData.positions.find(p => p.instId === INSTRUMENT_ID)] *)
Definition primaryPosition (accountData : AccountContext.t)
  : option PositionData.t :=
  find (fun p => String.eqb (PositionData.instId p) INSTRUMENT_ID)
       (AccountContext.positions accountData).

Definition trendDesc (isUpTrend : bool) : string :=
  if isUpTrend then "📈 1H 上涨趋势 (EMA15 > EMA60)"
  else "📉 1H 下跌趋势 (EMA15 < EMA60)".

(** The rationale of a [HOLD] result. *)
Definition holdReason (isUpTrend : bool) (c3m : list CandleData.t)
    (crosses : list CrossEvent.t) : string :=
  "监控中... " ++ trendDesc isUpTrend ++ " | 3m最新信号: "
  ++ match rev crosses with
     | lastCross :: _ => CrossType_text (CrossEvent.type lastCross)
     | [] => "无"
     end
  ++ " (Ago: "
  ++ match rev crosses with
     | lastCross :: _ =>
         JS.toString
           (JS.Fin (JS.Z2Qc (Z.of_nat (List.length c3m)
                             - Z.of_nat (CrossEvent.index lastCross))))
     | [] => "-"
     end
  ++ ")".

Definition analyzeStrategy (marketData : MarketDataCollection.t)
    (accountData : AccountContext.t) : Analysis.t :=
  (* 1. data *)
  let c1h := MarketDataCollection.candles1H marketData in
  let c3m := MarketDataCollection.candles3m marketData in
  if (List.length c1h <? 60)%nat || (List.length c3m <? 60)%nat then
    Analysis.mk HOLD "数据不足，正在积累K线..." (JS.num 0) false
  else
    (* 2. trend (1H chart) *)
    let isUpTrend := trend1H c1h in
    (* 3. entry-signal scan (3m chart) *)
    let highs3m := highs c3m in
    let lows3m := lows c3m in
    let crosses := scanCrosses c3m in
    (* 4. state machine *)
    let primaryPos := primaryPosition accountData in
    (* 4.1 trend-reversal exit *)
    let reversal :=
      match primaryPos with
      | Some p =>
          match isUpTrend, PositionData.posSide p with
          | true, short =>
              Some (Analysis.mk CLOSE "🚨 1H 趋势反转为多头，空单止损离场"
                                (JS.num 0) isUpTrend)
          | false, long =>
              Some (Analysis.mk CLOSE "🚨 1H 趋势反转为空头，多单止损离场"
                                (JS.num 0) isUpTrend)
          | _, _ => None
          end
      | None => None
      end in
    match reversal with
    | Some r => r
    | None =>
        (* 4.2 entry logic *)
        let hold :=
          Analysis.mk HOLD (holdReason isUpTrend c3m crosses) (JS.num 0)
                      isUpTrend in
        match primaryPos, last_two crosses with
        | None, Some (prevCross, lastCross) =>
            let candlesAgo :=
              (Z.of_nat (List.length c3m) - 1
               - Z.of_nat (CrossEvent.index lastCross))%Z in
            let isFresh := (candlesAgo <=? 2)%Z in
            if isFresh then
              if isUpTrend then
                match CrossEvent.type prevCross, CrossEvent.type lastCross with
                | DEAD, GOLDEN =>
                    let minLow :=
                      minLow_between lows3m (CrossEvent.index prevCross)
                                     (CrossEvent.index lastCross) in
                    Analysis.mk BUY
                      ("⚡ 信号触发: 1H看涨 + 3m完成回调(死叉转金叉)。区间最低价 "
                       ++ JS.toString minLow)
                      (minLow * JS.num 0.9995) isUpTrend
                | _, _ => hold
                end
              else
                match CrossEvent.type prevCross, CrossEvent.type lastCross with
                | GOLDEN, DEAD =>
                    let maxHigh :=
                      maxHigh_between highs3m (CrossEvent.index prevCross)
                                      (CrossEvent.index lastCross) in
                    Analysis.mk SELL
                      ("⚡ 信号触发: 1H看跌 + 3m完成反弹(金叉转死叉)。区间最高价 "
                       ++ JS.toString maxHigh)
                      (maxHigh * JS.num 1.0005) isUpTrend
                | _, _ => hold
                end
            else hold
        | _, _ => hold
        end
    end.

(** ** Position management: breakeven and trailing stop *)

(** The three readings [calculateManagement] takes from the position:
    [entryPx], the estimated [markPx] and [currentSL]. *)
Definition entryPx (pos : PositionData.t) : JS.number :=
  JS.parseFloat (PositionData.avgPx pos).

Definition markPx (pos : PositionData.t) : JS.number :=
  JS.parseFloat (PositionData.avgPx pos)
  + JS.parseFloat (PositionData.upl pos)
    / (JS.parseFloat (PositionData.pos pos) * CONTRACT_VAL_ETH).

Definition currentSL (pos : PositionData.t) : JS.number :=
  JS.parseFloat (or_default (PositionData.slTriggerPx pos) "0").

(** [c3m.slice(-lookback)] *)
Definition slice_last (A : Type) (lookback : nat) (xs : list A) : list A :=
  skipn (List.length xs - lookback) xs.

Definition recentLow (c3m : list CandleData.t) : JS.number :=
  JS.Math_min (lows (slice_last 5 c3m)).

Definition recentHigh (c3m : list CandleData.t) : JS.number :=
  JS.Math_max (highs (slice_last 5 c3m)).

Definition breakevenReason : string := "💰 触发保本止损设置".
Definition trailLowReason : string := "🚀 移动止盈跟随 (近5根低点)".
Definition trailHighReason : string := "🚀 移动止盈跟随 (近5根高点)".

Definition calculateManagement (pos : option PositionData.t)
    (c3m : list CandleData.t) : option Management.t :=
  match pos with
  | None => None
  | Some pos =>
      let entryPx := entryPx pos in
      let markPx := markPx pos in
      let currentSL := currentSL pos in
      let '(newSL, reason) :=
        match PositionData.posSide pos with
        | long =>
            let dist := entryPx * JS.num 0.005 in
            if (markPx >? entryPx + dist) && (currentSL <? entryPx) then
              (entryPx, breakevenReason)
            else
              let trailSL := recentLow c3m * JS.num 0.9995 in
              if (trailSL >? currentSL) && (trailSL >? entryPx)
                 && (trailSL <? markPx)
              then (trailSL, trailLowReason)
              else (JS.num 0, "")
        | short =>
            let dist := entryPx * JS.num 0.005 in
            if (markPx <? entryPx - dist)
               && ((currentSL >? entryPx) || (currentSL === JS.num 0))
            then (entryPx, breakevenReason)
            else
              let trailSL := recentHigh c3m * JS.num 1.0005 in
              if ((trailSL <? currentSL) || (currentSL === JS.num 0))
                 && (trailSL <? entryPx) && (trailSL >? markPx)
              then (trailSL, trailHighReason)
              else (JS.num 0, "")
        | net => (JS.num 0, "")
        end in
      if (newSL >? JS.num 0)
         && (JS.Math_abs (newSL - currentSL) >? entryPx * JS.num 0.0005)
      then Some (Management.mk (JS.toFixed newSL 2) reason)
      else None
  end.

(** ** Sizing and aggregation *)

(** [marketData.ticker?.last || "0"] *)
Definition tickerLast (marketData : MarketDataCollection.t) : string :=
  or_default
    (option_map TickerData.last (MarketDataCollection.ticker marketData)) "0".

(** Step 4 of [getTradingDecision], the risk-based size of a [BUY] or
    [SELL] whose stop is [finalSL]. *)
Definition entrySize (marketData : MarketDataCollection.t)
    (accountData : AccountContext.t) (finalSL : string) : string :=
  let avail :=
    JS.parseFloat
      (AccountBalance.availEq (AccountContext.balance accountData)) in
  let riskPerTrade := avail * JS.num 0.05 in
  let entry := JS.parseFloat (tickerLast marketData) in
  let stopDist := JS.Math_abs (entry - JS.parseFloat finalSL) in
  let size :=
    if stopDist >? JS.num 0 then
      let coinSize := riskPerTrade / stopDist in
      let contracts := coinSize / CONTRACT_VAL_ETH in
      let size := JS.toString (JS.Math_floor contracts) in
      if JS.parseFloat size <? JS.num 1 then "1" else size
    else "1" in
  let maxNotional := avail * JS.num 20 in
  let currentNotional := JS.parseFloat size * CONTRACT_VAL_ETH * entry in
  if currentNotional >? maxNotional then
    JS.toString (JS.Math_floor (maxNotional / (CONTRACT_VAL_ETH * entry)))
  else size.

Definition getTradingDecision (apiKey : string)
    (marketData : MarketDataCollection.t) (accountData : AccountContext.t)
  : AIDecision.t :=
  (* 1. the strategy *)
  let analysis := analyzeStrategy marketData accountData in
  (* 2. position management, when a position is held and the strategy holds *)
  let primaryPos := primaryPosition accountData in
  let mgmtAction :=
    match primaryPos with
    | Some p =>
        if Action_eqb (Analysis.action analysis) HOLD then
          calculateManagement (Some p)
                              (MarketDataCollection.candles3m marketData)
        else None
    | None => None
    end in
  (* 3. merge *)
  let '(finalAction, finalSL, finalReason) :=
    match mgmtAction with
    | Some m => (UPDATE_TPSL, Management.sl m, Management.reason m)
    | None =>
        (Analysis.action analysis,
         if Analysis.sl analysis >? JS.num 0
         then JS.toFixed (Analysis.sl analysis) 2 else "0",
         Analysis.reason analysis)
    end in
  (* 4. size *)
  let size :=
    match finalAction with
    | BUY | SELL => entrySize marketData accountData finalSL
    | _ => "0"
    end in
  AIDecision.mk
    (if Analysis.isUpTrend analysis then "📈 上涨趋势 (1H)"
     else "📉 下跌趋势 (1H)")
    "策略监控运行中..."
    "Algo Mode"
    "基于 1H EMA15/60 趋势 & 3m K线形态"
    (TradingDecision.mk finalAction "100%" size "10" "0" finalSL "趋势反转")
    finalReason
    finalAction
    size
    "10".

End Engine.

(* ------------------------------------------------------------------ *)
(** * The execution client ([executeOrder] and its helpers) *)
(* ------------------------------------------------------------------ *)

(** ** Requests, replies and the exchange *)

(** The JSON bodies the client sends, one constructor per shape. *)
Inductive Body : Type :=
| SetLeverageBody (instId lever mgnMode posSide : string)
| SetPositionModeBody (posMode : string)
| ClosePositionBody (instId posSide mgnMode : string)
| OrderBody (instId tdMode side posSide ordType sz : string)
            (attachAlgoOrds : option (string * string)).

(** A request is its method, its path and its body.  The signed headers
    (time stamp and HMAC signature) play no part in the control flow and
    are left out. *)
Inductive Request : Type :=
| GET (path : string)
| POST (path : string) (body : Body).

Module DataItem.
Record t : Type := mk { posMode : option string; ordId : option string }.
End DataItem.

(** The reply envelope [{code, msg, data}]. *)
Module Json.
Record t : Type := mk {
  code : string; msg : string; data : list DataItem.t }.
End Json.

(** [await fetch(...)] followed by [await res.json()] either yields the
    envelope or throws (transport failure, body that is not JSON). *)
Inductive FetchResult : Type :=
| Rejected (message : string)
| Resolved (json : Json.t).

(** The world outside the client: the exchange answers a request knowing
    the requests it has received before (oldest first); [now] is the text
    of [Date.now()]. *)
Module World.
Record t : Type := mk {
  exchange : list Request -> Request -> FetchResult;
  now : string }.
End World.

(** ** Asynchronous code that may throw

    A computation runs against the world, extends the trace of the
    requests issued so far, and either returns or throws an [Error] with
    a message.  The trace survives a throw: a request that was sent stays
    sent. *)

Inductive Outcome (A : Type) : Type :=
| Returned (a : A)
| Thrown (message : string).
Arguments Thrown {A} message.

Definition Async (A : Type) : Type :=
  World.t -> list Request -> Outcome A * list Request.

Definition ret (A : Type) (a : A) : Async A :=
  fun _ trace => (Returned a, trace).

Definition throw (A : Type) (message : string) : Async A :=
  fun _ trace => (Thrown message, trace).
Arguments throw {A} message.

Definition bind (A B : Type) (m : Async A) (f : A -> Async B) : Async B :=
  fun w trace =>
    match m w trace with
    | (Returned a, trace') => f a w trace'
    | (Thrown e, trace') => (Thrown e, trace')
    end.

(** [try { m } catch (e) { handler(e.message) }] *)
Definition try_catch (A : Type) (m : Async A) (handler : string -> Async A)
  : Async A :=
  fun w trace =>
    match m w trace with
    | (Returned a, trace') => (Returned a, trace')
    | (Thrown e, trace') => handler e w trace'
    end.

Definition fetch (req : Request) : Async Json.t :=
  fun w trace =>
    match World.exchange w trace req with
    | Resolved json => (Returned json, (trace ++ [req])%list)
    | Rejected e => (Thrown e, (trace ++ [req])%list)
    end.

Definition Date_now : Async string :=
  fun w trace => (Returned (World.now w), trace).

Declare Scope async_scope.
Delimit Scope async_scope with async.
Notation "x <- m ;; k" := (bind m (fun x => k))
  (at level 61, m at next level, right associativity) : async_scope.
Notation "m ;;; k" := (bind m (fun _ => k))
  (at level 61, right associativity) : async_scope.

Module AppConfig.
Record t : Type := mk {
  okxApiKey : string; okxSecretKey : string; okxPassphrase : string;
  deepseekApiKey : string; isSimulation : bool }.
End AppConfig.

Local Open Scope async_scope.

Definition is_ok (json : Json.t) : bool := String.eqb (Json.code json) "0".

Definition setLeveragePath : string := "/api/v5/account/set-leverage".
Definition configPath : string := "/api/v5/account/config".
Definition setPositionModePath : string := "/api/v5/account/set-position-mode".
Definition closePath : string := "/api/v5/trade/close-position".
Definition orderPath : string := "/api/v5/trade/order".

Definition setLeverage (instId lever posSide : string) (config : AppConfig.t)
  : Async (option Json.t) :=
  if AppConfig.isSimulation config then ret None
  else
    json <- fetch (POST setLeveragePath
                        (SetLeverageBody instId lever "isolated" posSide)) ;;
    if negb (is_ok json) then
      throw ("设置杠杆失败 (" ++ lever ++ "x): " ++ Json.msg json
             ++ " (Code: " ++ Json.code json ++ ")")
    else ret (Some json).

Definition ensureLongShortMode (config : AppConfig.t) : Async unit :=
  if AppConfig.isSimulation config then ret tt
  else
    json <- fetch (GET configPath) ;;
    match is_ok json, Json.data json with
    | true, d0 :: _ =>
        if negb (match DataItem.posMode d0 with
                 | Some m => String.eqb m "long_short_mode"
                 | None => false
                 end)
        then
          setJson <- fetch (POST setPositionModePath
                                 (SetPositionModeBody "long_short_mode")) ;;
          if negb (is_ok setJson) then
            throw ("无法切换持仓模式为双向持仓: " ++ Json.msg setJson)
          else ret tt
        else ret tt
    | _, _ => ret tt
    end.

(** [cleanPrice]: the price when it is a non-empty string that parses to
    a number above zero, [null] otherwise. *)
Definition cleanPrice (p : string) : option string :=
  match p with
  | "" => None
  | _ =>
      if negb (JS.isNaN (JS.parseFloat p))
         && (JS.parseFloat p >? JS.num 0)%js
      then Some p else None
  end.

Section Client.

Variable INSTRUMENT_ID : string.

Definition simulatedReply (now : string) : Json.t :=
  Json.mk "0" "模拟下单成功" [DataItem.mk None (Some ("sim_" ++ now))].

(** The [CLOSE] branch of [executeOrder]. *)
Definition closeBothSides : Async Json.t :=
  (* try closing the long side *)
  jsonLong <- fetch (POST closePath
                          (ClosePositionBody INSTRUMENT_ID "long" "isolated")) ;;
  if is_ok jsonLong then ret jsonLong
  else
    (* try closing the short side *)
    jsonShort <- fetch (POST closePath
                             (ClosePositionBody INSTRUMENT_ID "short"
                                                "isolated")) ;;
    if is_ok jsonShort then ret jsonShort
    else
      throw ("平仓失败 (多: " ++ Json.msg jsonLong ++ ", 空: "
             ++ Json.msg jsonShort ++ ")").

(** The buy/sell branch of [executeOrder]. *)
Definition placeEntry (order : AIDecision.t) (config : AppConfig.t)
  : Async Json.t :=
  let posSide :=
    if Action_eqb (AIDecision.action order) BUY then "long" else "short" in
  let side :=
    if Action_eqb (AIDecision.action order) BUY then "buy" else "sell" in
  try_catch
    (setLeverage INSTRUMENT_ID
                 (or_default (Some (AIDecision.leverage order)) "50")
                 posSide config)
    (fun e => throw ("无法设置杠杆: " ++ e)) ;;;
  let sizeFloat := JS.parseFloat (AIDecision.size order) in
  try_catch
    (if (sizeFloat <? JS.num 0.01)%js then throw "数量过小 (<0.01张)"
     else ret tt)
    (fun _ => throw ("无效数量: " ++ AIDecision.size order)) ;;;
  let sizeStr := JS.toFixed sizeFloat 2 in
  let slPrice :=
    TradingDecision.stop_loss (AIDecision.trading_decision order) in
  let validSl := cleanPrice slPrice in
  let attachAlgoOrds :=
    match validSl with
    | Some sl => Some (sl, "-1")
    | None => None
    end in
  json <- fetch (POST orderPath
                      (OrderBody INSTRUMENT_ID "isolated" side posSide
                                 "market" sizeStr attachAlgoOrds)) ;;
  if negb (is_ok json) then
    throw ("下单失败: " ++ Json.msg json ++ " (Code: " ++ Json.code json
           ++ ")")
  else ret json.

Definition executeOrder (order : AIDecision.t) (config : AppConfig.t)
  : Async Json.t :=
  if AppConfig.isSimulation config then
    now <- Date_now ;;
    ret (simulatedReply now)
  else
    try_catch
      (try_catch (ensureLongShortMode config) (fun _ => ret tt) ;;;
       if Action_eqb (AIDecision.action order) CLOSE then closeBothSides
       else placeEntry order config)
      (fun error => throw error).

End Client.

(* ------------------------------------------------------------------ *)
(** * Notions used to state the properties *)
(* ------------------------------------------------------------------ *)

(** Events are listed by strictly increasing index, all below [bound]. *)
Definition increasing_below (bound : nat) (crosses : list CrossEvent.t)
  : Prop :=
  Forall (fun e => (CrossEvent.index e < bound)%nat) crosses
  /\ forall front x y,
       crosses = (front ++ [x; y])%list ->
       (CrossEvent.index x < CrossEvent.index y)%nat.

(** The comparison the loop of [minLow_between] makes at each index. *)
Definition keep_lower (minLow x : JS.number) : JS.number :=
  if (x <? minLow)%js then x else minLow.

(** [xs.slice(from, to)] *)
Definition slice (A : Type) (xs : list A) (from to : nat) : list A :=
  firstn (to - from) (skipn from xs).

(** A number a binary64 value can hold: finite and at most
    [Number.MAX_VALUE] in magnitude.  Every number [parseFloat] returns
    from a candle is one, unless the text is not a number or overflows. *)
Definition finite_double (x : JS.number) : bool :=
  match x with
  | JS.Fin _ =>
      (x <=? JS.Number_MAX_VALUE)%js && (JS.neg JS.Number_MAX_VALUE <=? x)%js
  | _ => false
  end.

(** The trace once the position-mode pre-step of [executeOrder] is over. *)
Definition after_pre_step (config : AppConfig.t) (w : World.t)
    (trace : list Request) : list Request :=
  snd (try_catch (ensureLongShortMode config) (fun _ => ret tt) w trace).

(** The requests of [executeOrder], by name. *)
Definition closeRequest (INSTRUMENT_ID posSide : string) : Request :=
  POST closePath (ClosePositionBody INSTRUMENT_ID posSide "isolated").

Definition leverageRequest (INSTRUMENT_ID : string) (order : AIDecision.t)
  : Request :=
  POST setLeveragePath
       (SetLeverageBody INSTRUMENT_ID
          (or_default (Some (AIDecision.leverage order)) "50") "isolated"
          (if Action_eqb (AIDecision.action order) BUY then "long"
           else "short")).

Definition is_order_request (r : Request) : bool :=
  match r with
  | POST _ (OrderBody _ _ _ _ _ _ _) => true
  | _ => false
  end.

(** [needle] occurs in [hay]. *)
Definition contains (hay needle : string) : Prop :=
  exists before after, hay = (before ++ needle ++ after)%string.

(* ------------------------------------------------------------------ *)
(** * Sample data *)
(* ------------------------------------------------------------------ *)

Module Samples.

Definition instrument : string := "ETH-USDT-SWAP".

(** A candle that closes at [close] with its low at [low]. *)
Definition candle (close low : string) : CandleData.t :=
  CandleData.mk "0" close close low close "1".

(** 1H series: flat at 100, the last candle closes at 200 (up-trend) or at
    50 (down-trend). *)
Definition rising_c1h : list CandleData.t :=
  (repeat (candle "100" "100") 59 ++ [candle "200" "100"])%list.
Definition falling_c1h : list CandleData.t :=
  (repeat (candle "100" "100") 59 ++ [candle "50" "50"])%list.

(** 3m series: flat at 100, a dip to 99 at index 57 (DEAD cross), a
    recovery to 110 at index 58 (GOLDEN cross), one more candle. *)
Definition pullback_c3m : list CandleData.t :=
  (repeat (candle "100" "100") 57
   ++ [candle "99" "98"; candle "110" "99.5"; candle "110" "105"])%list.

Definition ticker (last : string) : TickerData.t :=
  TickerData.mk instrument last "1" last last last last last "1" "0".

Definition market (c1h c3m : list CandleData.t) : MarketDataCollection.t :=
  MarketDataCollection.mk (Some (ticker "110")) c1h c3m "0.0001" "50000".

Definition balance : AccountBalance.t :=
  AccountBalance.mk "1000.00" "1000.00" "0".

Definition flat_account : AccountContext.t := AccountContext.mk balance [].

(** A position of 10 contracts entered at [avgPx] with unrealised profit
    [upl] and stop [sl]. *)
Definition position (side : PosSide) (avgPx upl : string)
    (sl : option string) : PositionData.t :=
  PositionData.mk instrument side "10" avgPx upl "0" "isolated" "0" "0" "0"
                  sl None.

Definition account_with (p : PositionData.t) : AccountContext.t :=
  AccountContext.mk balance [p].

Definition dead_at_57 : CrossEvent.t :=
  CrossEvent.mk 57 DEAD (JS.parseFloat "99") "0".
Definition golden_at_58 : CrossEvent.t :=
  CrossEvent.mk 58 GOLDEN (JS.parseFloat "110") "0".

End Samples.

Module ManagementSamples.

(** Six 3m candles; the lowest low of the last five is [low] (for a
    [low] of at most 101), the first candle is out of the look-back. *)
Definition recent (low : string) : list CandleData.t :=
  [Samples.candle "100" "50"; Samples.candle "100" "104";
   Samples.candle "100" low; Samples.candle "100" "101";
   Samples.candle "100" "102"; Samples.candle "100" "103"].

(** Long from 100.123 with 1 of unrealised profit on 10 contracts (mark
    101.123), stop at 90. *)
Definition long_in_profit : PositionData.t :=
  Samples.position long "100.123" "1" (Some "90").

(** Long from 100 with 0.1 of unrealised profit on 10 contracts (mark
    100.1), stop at 90. *)
Definition long_small_gain : PositionData.t :=
  Samples.position long "100" "0.1" (Some "90").

End ManagementSamples.

Module ClientSamples.

Definition live : AppConfig.t := AppConfig.mk "k" "s" "p" "d" false.

(** An exchange that accepts every request; the account is already in
    long/short mode. *)
Definition accepting : World.t :=
  World.mk
    (fun _ _ =>
       Resolved (Json.mk "0" "" [DataItem.mk (Some "long_short_mode") None]))
    "0".

Definition decision (action : Action) (size : string) : AIDecision.t :=
  AIDecision.mk "" "" "" ""
    (TradingDecision.mk action "100%" size "10" "0" "97.95" "")
    "" action size "10".

End ClientSamples.

(* ------------------------------------------------------------------ *)
(** * The rest of the OKX service: candles, positions, algo orders *)
(* ------------------------------------------------------------------ *)

(** ** [formatCandles] *)

(** [c[i]] for a row of the candle endpoint; a missing cell is
    [undefined], which [parseFloat] reads like the empty text. *)
Definition cell (row : list string) (i : nat) : string := nth i row "".

(** [formatCandles]: the API lists candles newest first; each row becomes
    a candle and the order is reversed.  [None] stands for a payload that
    is missing or not an array. *)
Definition formatCandles (apiCandles : option (list (list string)))
  : list CandleData.t :=
  match apiCandles with
  | None => []
  | Some rows =>
      rev (map (fun c => CandleData.mk (cell c 0) (cell c 1) (cell c 2)
                                       (cell c 3) (cell c 4) (cell c 5))
               rows)
  end.

(** ** Positions and their protective orders ([fetchAccountData]) *)

Definition PosSide_eqb (a b : PosSide) : bool :=
  match a, b with
  | long, long | short, short | net, net => true
  | _, _ => false
  end.

Definition PosSide_text (s : PosSide) : string :=
  match s with long => "long" | short => "short" | net => "net" end.

(** A pending algo order as the exchange lists it. *)
Module AlgoOrder.
Record t : Type := mk {
  algoId : string; instId : string; posSide : PosSide;
  slTriggerPx : option string; tpTriggerPx : option string }.
End AlgoOrder.

(** [p && parseFloat(p) > 0] for a price that may be missing. *)
Definition positive_price (p : option string) : bool :=
  match p with
  | Some "" | None => false
  | Some s => (JS.parseFloat s >? JS.num 0)%js
  end.

(** The callback of [posJson.data.map] in [fetchAccountData]: the fields
    of the raw position are copied, and the triggers of the first pending
    algo order of the same instrument and side that has a positive stop
    (resp. take-profit) trigger are attached.  The raw position is given
    as a [PositionData.t] whose two trigger fields are not read. *)
Definition toPosition (algoOrders : list AlgoOrder.t)
    (rawPos : PositionData.t) : PositionData.t :=
  let same (o : AlgoOrder.t) :=
    String.eqb (AlgoOrder.instId o) (PositionData.instId rawPos)
    && PosSide_eqb (AlgoOrder.posSide o) (PositionData.posSide rawPos) in
  let slOrder :=
    find (fun o => same o && positive_price (AlgoOrder.slTriggerPx o))
         algoOrders in
  let tpOrder :=
    find (fun o => same o && positive_price (AlgoOrder.tpTriggerPx o))
         algoOrders in
  PositionData.mk
    (PositionData.instId rawPos) (PositionData.posSide rawPos)
    (PositionData.pos rawPos) (PositionData.avgPx rawPos)
    (PositionData.upl rawPos) (PositionData.uplRatio rawPos)
    (PositionData.mgnMode rawPos) (PositionData.margin rawPos)
    (PositionData.liqPx rawPos) (PositionData.cTime rawPos)
    (match slOrder with
     | Some o => AlgoOrder.slTriggerPx o
     | None => None
     end)
    (match tpOrder with
     | Some o => AlgoOrder.tpTriggerPx o
     | None => None
     end).

(** ** The algo-order endpoints

    [fetchAlgoOrders], [updatePositionTPSL] and [addMargin] talk to
    endpoints whose payloads differ from those of [executeOrder]; they get
    their own requests, replies and venue, and the same kind of
    computation: a trace of requests that survives a throw. *)

Module AlgoBody.
Record t : Type := mk {
  instId : string; posSide : string; tdMode : string; side : string;
  ordType : string; sz : string; reduceOnly : bool;
  slTriggerPx : option string; slOrdPx : option string;
  tpTriggerPx : option string; tpOrdPx : option string }.
End AlgoBody.

Inductive AlgoRequest : Type :=
| GetPendingAlgos (path : string)
| CancelAlgos (toCancel : list (string * string))
| PlaceAlgo (body : AlgoBody.t)
| MarginBalance (instId posSide type amt : string).

(** A reply is a transport failure or an envelope [{code, msg, data}];
    [data] lists algo orders (only the pending-orders endpoint fills it). *)
Inductive AlgoReply : Type :=
| Failed (message : string)
| Answered (code msg : string) (data : list AlgoOrder.t).

Module Venue.
Record t : Type := mk {
  answer : list AlgoRequest -> AlgoRequest -> AlgoReply }.
End Venue.

Definition Algo (A : Type) : Type :=
  Venue.t -> list AlgoRequest -> Outcome A * list AlgoRequest.

Definition aret (A : Type) (a : A) : Algo A :=
  fun _ trace => (Returned a, trace).

Definition athrow (A : Type) (message : string) : Algo A :=
  fun _ trace => (Thrown message, trace).
Arguments athrow {A} message.

Definition abind (A B : Type) (m : Algo A) (f : A -> Algo B) : Algo B :=
  fun v trace =>
    match m v trace with
    | (Returned a, trace') => f a v trace'
    | (Thrown e, trace') => (Thrown e, trace')
    end.

Definition acatch (A : Type) (m : Algo A) (handler : string -> Algo A)
  : Algo A :=
  fun v trace =>
    match m v trace with
    | (Returned a, trace') => (Returned a, trace')
    | (Thrown e, trace') => handler e v trace'
    end.

(** [await fetch(...)] and [await res.json()]: the envelope, or a throw. *)
Definition afetch (req : AlgoRequest)
  : Algo (string * string * list AlgoOrder.t) :=
  fun v trace =>
    match Venue.answer v trace req with
    | Answered code msg data =>
        (Returned (code, msg, data), (trace ++ [req])%list)
    | Failed e => (Thrown e, (trace ++ [req])%list)
    end.

Declare Scope algo_scope.
Delimit Scope algo_scope with algo.
Notation "x <- m ;; k" := (abind m (fun x => k))
  (at level 61, m at next level, right associativity) : algo_scope.
Notation "m ;;; k" := (abind m (fun _ => k))
  (at level 61, right associativity) : algo_scope.

(** The acknowledgement [{code, msg}] that [updatePositionTPSL] returns. *)
Module Ack.
Record t : Type := mk { code : string; msg : string }.
End Ack.

(** [!p] for a price that may be missing: [undefined] and the empty text
    are falsy. *)
Definition supplied (p : option string) : bool :=
  match p with
  | Some "" | None => false
  | Some _ => true
  end.

Section AlgoClient.

Variable INSTRUMENT_ID : string.

Local Open Scope algo_scope.

Definition pendingAlgosPath : string :=
  "/api/v5/trade/orders-algo-pending?instId=" ++ INSTRUMENT_ID
  ++ "&ordType=conditional,oco".

Definition fetchAlgoOrders (config : AppConfig.t) : Algo (list AlgoOrder.t) :=
  if AppConfig.isSimulation config then aret []
  else
    acatch
      (json <- afetch (GetPendingAlgos pendingAlgosPath) ;;
       let '(code, _, data) := json in
       aret (if String.eqb code "0" then data else []))
      (fun _ => aret []).

Definition updatePositionTPSL (instId : string) (posSide : PosSide)
    (size : string) (slPrice tpPrice : option string) (config : AppConfig.t)
  : Algo Ack.t :=
  if AppConfig.isSimulation config then aret (Ack.mk "0" "模拟更新成功")
  else
    acatch
      (pendingAlgos <- fetchAlgoOrders config ;;
       let toCancel :=
         map (fun o => (AlgoOrder.algoId o, instId))
             (filter (fun o => String.eqb (AlgoOrder.instId o) instId
                               && PosSide_eqb (AlgoOrder.posSide o) posSide)
                     pendingAlgos) in
       (if (0 <? List.length toCancel)%nat
        then afetch (CancelAlgos toCancel) ;;; aret tt
        else aret tt) ;;;
       if negb (supplied slPrice) && negb (supplied tpPrice) then
         aret (Ack.mk "0" "无新的止盈止损")
       else
         let bodyObj :=
           AlgoBody.mk instId (PosSide_text posSide) "isolated"
             (match posSide with long => "sell" | _ => "buy" end)
             "conditional" size true
             (if supplied slPrice then slPrice else None)
             (if supplied slPrice then Some "-1" else None)
             (if supplied tpPrice then tpPrice else None)
             (if supplied tpPrice then Some "-1" else None) in
         json <- afetch (PlaceAlgo bodyObj) ;;
         let '(code, msg, _) := json in
         if negb (String.eqb code "0") then athrow ("更新TPSL失败: " ++ msg)
         else aret (Ack.mk "0" "止盈止损更新成功"))
      (fun e => athrow ("更新失败: " ++ e)).

Definition addMargin (instId posSide type amt : string)
    (config : AppConfig.t) : Algo Ack.t :=
  if AppConfig.isSimulation config then aret (Ack.mk "0" "模拟追加成功")
  else
    acatch
      (json <- afetch (MarginBalance instId posSide type amt) ;;
       let '(code, msg, _) := json in
       if negb (String.eqb code "0") then athrow ("追加失败: " ++ msg)
       else aret (Ack.mk code msg))
      (fun error => athrow ("追加保证金错误: " ++ error)).

End AlgoClient.

(* ------------------------------------------------------------------ *)
(** * Further notions used to state properties *)
(* ------------------------------------------------------------------ *)

(** The smoothing factor [k = 2 / (period + 1)]. *)
Definition smoothing (period : JS.number) : JS.number :=
  (JS.num 2 / (period + JS.num 1))%js.

(** The two EMAs of the 3m closes that the scan compares. *)
Definition fast3m (c3m : list CandleData.t) : list JS.number :=
  calcEMA (closes c3m) (JS.num 15).
Definition slow3m (c3m : list CandleData.t) : list JS.number :=
  calcEMA (closes c3m) (JS.num 60).

(** The fast average crosses above (golden) or below (dead) the slow one
    at index [i]. *)
Definition golden_at (fast slow : list JS.number) (i : nat) : bool :=
  (at_index fast (i - 1) <=? at_index slow (i - 1))%js
  && (at_index fast i >? at_index slow i)%js.

Definition dead_at (fast slow : list JS.number) (i : nat) : bool :=
  (at_index fast (i - 1) >=? at_index slow (i - 1))%js
  && (at_index fast i <? at_index slow i)%js.

(** First index the scan looks at. *)
Definition scanStart (c3m : list CandleData.t) : nat :=
  Nat.max 1 (List.length c3m - 50).

(** The comparison the loop of [maxHigh_between] makes at each index. *)
Definition keep_higher (maxHigh x : JS.number) : JS.number :=
  if (x >? maxHigh)%js then x else maxHigh.

(** A positive number a binary64 value can hold: at least
    [Number.MIN_VALUE], the smallest positive double. *)
Definition positive_double (x : JS.number) : bool :=
  finite_double x && (JS.Number_MIN_VALUE <=? x)%js.

(** The last event is at most 2 candles before the end of the series. *)
Definition fresh (c3m : list CandleData.t) (lastCross : CrossEvent.t) : Prop :=
  (Z.of_nat (List.length c3m) - 1 - Z.of_nat (CrossEvent.index lastCross)
   <= 2)%Z.

(** The side of a position contradicts the trend. *)
Definition contradicts (side : PosSide) (isUpTrend : bool) : Prop :=
  (side = short /\ isUpTrend = true) \/ (side = long /\ isUpTrend = false).

Module MoreSamples.

(** 3m series: flat at 100, a rebound to 101 at index 57 (GOLDEN cross),
    a fall to 90 at index 58 (DEAD cross), one more candle. *)
Definition rebound_c3m : list CandleData.t :=
  (repeat (Samples.candle "100" "100") 57
   ++ [Samples.candle "101" "100"; Samples.candle "90" "89";
       Samples.candle "90" "89"])%list.

Definition golden_at_57 : CrossEvent.t :=
  CrossEvent.mk 57 GOLDEN (JS.parseFloat "101") "0".
Definition dead_at_58 : CrossEvent.t :=
  CrossEvent.mk 58 DEAD (JS.parseFloat "90") "0".

(** An account with available equity [availEq] and no position. *)
Definition account_of (availEq : string) : AccountContext.t :=
  AccountContext.mk (AccountBalance.mk availEq availEq "0") [].

End MoreSamples.


(** ** The requests and errors of [executeOrder], by name *)

(** The order of the buy/sell branch: a market order in isolated mode,
    buy/long for [BUY] and sell/short otherwise, the size with two
    decimals, the stop attached when it parses to a number above zero. *)
Definition entryOrderRequest (INSTRUMENT_ID : string) (order : AIDecision.t)
  : Request :=
  let isBuy := Action_eqb (AIDecision.action order) BUY in
  let sl := TradingDecision.stop_loss (AIDecision.trading_decision order) in
  POST orderPath
       (OrderBody INSTRUMENT_ID "isolated"
          (if isBuy then "buy" else "sell")
          (if isBuy then "long" else "short")
          "market"
          (JS.toFixed (JS.parseFloat (AIDecision.size order)) 2)
          (if (JS.parseFloat sl >? JS.num 0)%js then Some (sl, "-1")
           else None)).

Definition is_close_request (r : Request) : bool :=
  match r with
  | POST _ (ClosePositionBody _ _ _) => true
  | _ => false
  end.

Definition is_leverage_request (r : Request) : bool :=
  match r with
  | POST _ (SetLeverageBody _ _ _ _) => true
  | _ => false
  end.

(** What the failure of a request says: the transport error, or the
    text [refusal] makes of a reply whose code is not "0". *)
Definition failure_text (refusal : Json.t -> string) (reply : FetchResult)
  : string :=
  match reply with
  | Rejected e => e
  | Resolved json => refusal json
  end.

(** The request failed: no reply, or a reply whose code is not "0". *)
Definition failed (reply : FetchResult) : bool :=
  match reply with
  | Rejected _ => true
  | Resolved json => negb (is_ok json)
  end.

Definition leverageRefusal (order : AIDecision.t) (json : Json.t) : string :=
  "设置杠杆失败 ("
  ++ or_default (Some (AIDecision.leverage order)) "50" ++ "x): "
  ++ Json.msg json ++ " (Code: " ++ Json.code json ++ ")".

Definition orderRefusal (json : Json.t) : string :=
  "下单失败: " ++ Json.msg json ++ " (Code: " ++ Json.code json ++ ")".

Module MoreClientSamples.

Definition ok : Json.t :=
  Json.mk "0" "" [DataItem.mk (Some "long_short_mode") None].

(** An exchange that refuses to set the leverage and accepts the rest. *)
Definition refusing_leverage : World.t :=
  World.mk
    (fun _ req =>
       match req with
       | POST _ (SetLeverageBody _ _ _ _) =>
           Resolved (Json.mk "59000" "Setting failed" [])
       | _ => Resolved ok
       end)
    "0".

(** An account in net mode on an exchange that refuses to switch it. *)
Definition refusing_mode : World.t :=
  World.mk
    (fun _ req =>
       match req with
       | GET _ => Resolved (Json.mk "0" "" [DataItem.mk (Some "net_mode") None])
       | POST _ (SetPositionModeBody _) =>
           Resolved (Json.mk "59000" "Positions are open" [])
       | _ => Resolved ok
       end)
    "0".

(** The connection drops on every request to close a position. *)
Definition dropping_close : World.t :=
  World.mk
    (fun _ req =>
       match req with
       | POST _ (ClosePositionBody _ _ _) => Rejected "Failed to fetch"
       | _ => Resolved ok
       end)
    "0".

End MoreClientSamples.

(** ** The requests of [updatePositionTPSL], by name *)

(** The pending orders of the instrument and side, as the cancellation
    lists them. *)
Definition cancelList (instId : string) (posSide : PosSide)
    (pendingAlgos : list AlgoOrder.t) : list (string * string) :=
  map (fun o => (AlgoOrder.algoId o, instId))
      (filter (fun o => String.eqb (AlgoOrder.instId o) instId
                        && PosSide_eqb (AlgoOrder.posSide o) posSide)
              pendingAlgos).

(** The cancellation, when there is something to cancel. *)
Definition cancellation (instId : string) (posSide : PosSide)
    (pendingAlgos : list AlgoOrder.t) : list AlgoRequest :=
  match cancelList instId posSide pendingAlgos with
  | [] => []
  | toCancel => [CancelAlgos toCancel]
  end.

(** The conditional order that protects a position: it reduces the
    position, on the side opposite to it, and carries the prices that
    were supplied, each at market. *)
Definition protection (instId : string) (posSide : PosSide) (size : string)
    (slPrice tpPrice : option string) : AlgoBody.t :=
  AlgoBody.mk instId (PosSide_text posSide) "isolated"
    (match posSide with long => "sell" | _ => "buy" end)
    "conditional" size true
    (if supplied slPrice then slPrice else None)
    (if supplied slPrice then Some "-1" else None)
    (if supplied tpPrice then tpPrice else None)
    (if supplied tpPrice then Some "-1" else None).

(** The transport error of the cancellation, if it was sent and got no
    reply.  The reply itself is not read. *)
Definition cancelFailure (v : Venue.t) (trace : list AlgoRequest)
    (cancel : list AlgoRequest) : option string :=
  match cancel with
  | c :: _ =>
      match Venue.answer v trace c with
      | Failed e => Some e
      | Answered _ _ _ => None
      end
  | [] => None
  end.

(** [text] starts with [prefix]. *)
Definition starts_with (prefix text : string) : Prop :=
  exists rest, text = (prefix ++ rest)%string.

Module AlgoSamples.

(** A pending stop at 95 on the long side of the tracked instrument. *)
Definition stop_95 : AlgoOrder.t :=
  AlgoOrder.mk "algo-1" Samples.instrument long (Some "95") None.

(** A pending take-profit at 150 on the same side. *)
Definition target_150 : AlgoOrder.t :=
  AlgoOrder.mk "algo-2" Samples.instrument long None (Some "150").

(** A pending stop on the short side. *)
Definition short_stop : AlgoOrder.t :=
  AlgoOrder.mk "algo-3" Samples.instrument short (Some "120") None.

(** A venue with the three orders pending that accepts every request. *)
Definition accepting : Venue.t :=
  Venue.mk (fun _ req =>
              match req with
              | GetPendingAlgos _ =>
                  Answered "0" "" [stop_95; short_stop; target_150]
              | _ => Answered "0" "" []
              end).

(** The same venue, refusing every new conditional order. *)
Definition refusing_placement : Venue.t :=
  Venue.mk (fun _ req =>
              match req with
              | GetPendingAlgos _ =>
                  Answered "0" "" [stop_95; short_stop; target_150]
              | PlaceAlgo _ => Answered "51000" "Parameter error" []
              | _ => Answered "0" "" []
              end).

(** A long position as the positions endpoint lists it: no triggers. *)
Definition raw_long : PositionData.t :=
  Samples.position long "100" "1" None.

End AlgoSamples.

(* ------------------------------------------------------------------ *)
(** * The indicator on binary64 numbers *)
(* ------------------------------------------------------------------ *)

(** [calcEMA] once more, on the numbers the engine computes with: a
    JavaScript number is a binary64 value and [+], [-], [*] and [/] round
    to nearest, ties to even.  The code is the same as above. *)
Module F64.

Import PrimFloat.
Local Open Scope float_scope.

Definition number : Set := float.

(** The body of the loop of [calcEMA], from index 1 on: [prevEma] is the
    value pushed last. *)
Fixpoint calcEMA_loop (k prevEma : number) (prices : list number)
  : list number :=
  match prices with
  | [] => []
  | p :: rest =>
      let val := p * k + prevEma * (1 - k) in
      val :: calcEMA_loop k val rest
  end.

Definition calcEMA (prices : list number) (period : number) : list number :=
  let k := 2 / (period + 1) in
  match prices with
  | [] => []
  | p0 :: rest => p0 :: calcEMA_loop k p0 rest
  end.

(** One step of the recurrence from [v] on the input [v], as the loop
    computes it for the period [period]. *)
Definition step_from (period v : number) : number :=
  let k := 2 / (period + 1) in
  v * k + v * (1 - k).

End F64.

(* ------------------------------------------------------------------ *)
(** * What a size can be *)
(* ------------------------------------------------------------------ *)

(** A number that is not below zero: [NaN] passes, as every comparison
    with it is false. *)
Definition not_negative (x : JS.number) : Prop :=
  (x <? JS.num 0)%js = false.

(** A number without a fractional part: a whole number, an infinity or
    [NaN]. *)
Definition no_fraction (x : JS.number) : Prop :=
  match x with
  | JS.Fin q => exists z : Z, q = JS.Z2Qc z
  | _ => True
  end.

(** The two quantities that step 4 of [getTradingDecision] floors: the
    contracts that the risk budget pays for, and the contracts that the
    leverage cap leaves. *)
Definition riskContracts (avail entry stop : JS.number) : JS.number :=
  (avail * JS.num 0.05 / JS.Math_abs (entry - stop) / CONTRACT_VAL_ETH)%js.

Definition capContracts (avail entry : JS.number) : JS.number :=
  (avail * JS.num 20 / (CONTRACT_VAL_ETH * entry))%js.
(* ------------------------------------------------------------------ *)
(** * Facts about the number model *)
(* ------------------------------------------------------------------ *)

Module JSFacts.
Import JS.

Lemma lt_Fin (a b : Qc) : lt (Fin a) (Fin b) = true <-> (a < b)%Qc.
Proof.
  unfold lt. rewrite Qclt_alt.
  destruct (Qccompare a b); split; congruence.
Qed.

Lemma lt_Fin_false (a b : Qc) : lt (Fin a) (Fin b) = false <-> (b <= a)%Qc.
Proof.
  split; intros H.
  - apply Qcnot_lt_le. intros L. apply lt_Fin in L. congruence.
  - destruct (lt (Fin a) (Fin b)) eqn:E; [|reflexivity].
    apply lt_Fin in E. now apply Qcle_not_lt in H.
Qed.

Lemma gt_Fin (a b : Qc) : gt (Fin a) (Fin b) = true <-> (b < a)%Qc.
Proof. unfold gt. apply lt_Fin. Qed.

Lemma eq_Fin (a b : Qc) : eq (Fin a) (Fin b) = true <-> a = b.
Proof.
  unfold eq. rewrite Qceq_alt.
  destruct (Qccompare a b); split; congruence.
Qed.

Lemma sgn_Gt (q : Qc) : sgn q = Gt <-> (zeroQc < q)%Qc.
Proof.
  unfold sgn. rewrite <- (Qcgt_alt q zeroQc). reflexivity.
Qed.

Lemma sgn_Lt (q : Qc) : sgn q = Lt <-> (q < zeroQc)%Qc.
Proof. unfold sgn. now rewrite Qclt_alt. Qed.

Lemma sgn_Eq (q : Qc) : sgn q = Eq <-> q = zeroQc.
Proof. unfold sgn. now rewrite Qceq_alt. Qed.

(** Division by a non-zero finite number is the rational quotient. *)
Lemma div_Fin (a b : Qc) : b <> zeroQc -> div (Fin a) (Fin b) = Fin (a / b)%Qc.
Proof.
  intros Hb. unfold div. destruct (sgn b) eqn:E; try reflexivity.
  apply sgn_Eq in E. contradiction.
Qed.

Lemma abs_Fin (q : Qc) :
  Math_abs (Fin q) = Fin (if Qclt_le_dec q zeroQc then - q else q)%Qc.
Proof.
  unfold Math_abs. destruct (Qclt_le_dec q zeroQc) as [L | L].
  - apply sgn_Lt in L. now rewrite L.
  - destruct (sgn q) eqn:E; try reflexivity.
    apply sgn_Lt in E. now apply Qcle_not_lt in L.
Qed.

Lemma lt_trans (x y z : number) :
  lt x y = true -> lt y z = true -> lt x z = true.
Proof.
  destruct x, y, z; simpl; try congruence; intros H1 H2.
  apply (proj1 (lt_Fin _ _)) in H1. apply (proj1 (lt_Fin _ _)) in H2.
  apply (proj2 (lt_Fin _ _)). eapply Qclt_trans; eassumption.
Qed.

End JSFacts.

(** Two finite numbers are equal when their rationals are. *)
Lemma Fin_eq (a b : Qc) : (this a == this b)%Q -> JS.Fin a = JS.Fin b.
Proof. intros H. f_equal. now apply Qc_is_canon. Qed.

Ltac js_eq := vm_compute; apply Fin_eq; vm_compute; reflexivity.

(* ------------------------------------------------------------------ *)
(** * The indicator *)
(* ------------------------------------------------------------------ *)

Section Indicator.

Lemma calcEMA_loop_length (k prev : JS.number) (prices : list JS.number) :
  List.length (calcEMA_loop k prev prices) = List.length prices.
Proof.
  revert prev. induction prices as [| p rest IH]; intros prev; simpl.
  - reflexivity.
  - now rewrite IH.
Qed.

Lemma calcEMA_length (prices : list JS.number) (period : JS.number) :
  List.length (calcEMA prices period) = List.length prices.
Proof.
  unfold calcEMA. destruct prices as [| p0 rest]; simpl.
  - reflexivity.
  - now rewrite calcEMA_loop_length.
Qed.

End Indicator.

Section IndicatorF64.

Import PrimFloat.
Local Open Scope float_scope.

Lemma calcEMA64_loop_length (k prev : F64.number)
    (prices : list F64.number) :
  List.length (F64.calcEMA_loop k prev prices) = List.length prices.
Proof.
  revert prev. induction prices as [| p rest IH]; intros prev; simpl.
  - reflexivity.
  - now rewrite IH.
Qed.

(** When one step from [v] on the input [v] gives [v] again, the loop
    leaves a series of [v]s where it is. *)
Lemma calcEMA64_loop_fixed (period v : F64.number)
    (prices : list F64.number) :
  F64.step_from period v = v ->
  Forall (fun x => x = v) prices ->
  F64.calcEMA_loop (2 / (period + 1)) v prices
  = prices.
Proof.
  intros Hstep. induction 1 as [| x rest Hx _ IH]; simpl.
  - reflexivity.
  - subst x. unfold F64.step_from in Hstep. rewrite Hstep. now rewrite IH.
Qed.

(** C9, as the code has it.  For every period and every non-empty series
    whose elements all equal the same value v, [calcEMA] returns a series
    of the same length whose first element is v; and every element is v
    when one step of the recurrence, [v * k + v * (1 - k)] with
    [k = 2 / (period + 1)], evaluates to v on binary64 numbers. *)
Theorem constant_series_kept_by_exact_step (period v : F64.number)
    (prices : list F64.number) :
  prices <> [] ->
  Forall (fun x => x = v) prices ->
  List.length (F64.calcEMA prices period) = List.length prices
  /\ hd_error (F64.calcEMA prices period) = Some v
  /\ (F64.step_from period v = v ->
      Forall (fun x => x = v) (F64.calcEMA prices period)).
Proof.
  intros Hne Hall.
  destruct prices as [| p0 rest]; [contradiction |].
  inversion Hall as [| x xs Hx Hrest]; subst.
  unfold F64.calcEMA. repeat split.
  - simpl. now rewrite calcEMA64_loop_length.
  - intros Hstep. now rewrite (@calcEMA64_loop_fixed period v rest Hstep Hrest).
Qed.

End IndicatorF64.

Section IndicatorSamples.

Import PrimFloat.
Local Open Scope float_scope.

Lemma constant_series_kept_by_exact_step_witness :
  List.length (F64.calcEMA [100; 100; 100] 3) = 3%nat
  /\ hd_error (F64.calcEMA [100; 100; 100] 3) = Some 100
  /\ (F64.step_from 3 100 = 100 ->
      Forall (fun x => x = 100) (F64.calcEMA [100; 100; 100] 3)).
Proof.
  apply (@constant_series_kept_by_exact_step 3 100 [100; 100; 100]).
  - discriminate.
  - repeat constructor.
Defined.

(** The step is exact for the value 100 and the period 3 (k = 1/2): the
    series stays at 100. *)
Example constant_series_at_period_3 :
  F64.step_from 3 100 = 100
  /\ F64.calcEMA [100; 100; 100] 3 = [100; 100; 100].
Proof. split; reflexivity. Qed.

(** C9 as the specification words it fails: for the period 60 the series
    98, 98, 98 does not stay at 98; its second value is below 98 and its
    third is lower still. *)
Lemma constant_series_drifts_counterexample :
  let out := F64.calcEMA [98; 98; 98] 60 in
  (1 <=? 60) = true
  /\ List.length out = 3%nat
  /\ (nth 1 out 0 <? 98) = true
  /\ (nth 2 out 0 <? nth 1 out 0) = true
  /\ ~ Forall (fun x => x = 98) out.
Proof.
  repeat split; try reflexivity.
  intros H. rewrite Forall_forall in H.
  assert (Hin : In (nth 1 (F64.calcEMA [98; 98; 98] 60) 0)
                   (F64.calcEMA [98; 98; 98] 60))
    by (right; left; reflexivity).
  apply H in Hin.
  apply (f_equal (fun x => x <? 98)) in Hin.
  vm_compute in Hin. discriminate.
Qed.

End IndicatorSamples.

(* ------------------------------------------------------------------ *)
(** * The crossover scan *)
(* ------------------------------------------------------------------ *)

Section Scan.

Lemma increasing_below_nil (bound : nat) : increasing_below bound [].
Proof.
  split; [constructor |].
  intros front x y E. destruct front; discriminate.
Qed.

Lemma increasing_below_weaken (b b' : nat) (crosses : list CrossEvent.t) :
  (b <= b')%nat -> increasing_below b crosses -> increasing_below b' crosses.
Proof.
  intros Hb [Hall Hinc]. split; [| exact Hinc].
  eapply Forall_impl; [| exact Hall]. simpl. intros; lia.
Qed.

Lemma increasing_below_snoc (b : nat) (crosses : list CrossEvent.t)
    (e : CrossEvent.t) :
  increasing_below b crosses ->
  (b <= CrossEvent.index e)%nat ->
  increasing_below (S (CrossEvent.index e)) (crosses ++ [e]).
Proof.
  intros [Hall Hinc] Hb. split.
  - apply Forall_app. split.
    + eapply Forall_impl; [| exact Hall]. simpl. intros; lia.
    + constructor; [lia | constructor].
  - intros front x y E.
    change (front ++ [x; y])%list with (front ++ [x] ++ [y])%list in E.
    rewrite app_assoc in E. apply app_inj_tail in E. destruct E as [E ->].
    assert (Hx : In x crosses) by (rewrite E; apply in_or_app; right; now left).
    rewrite Forall_forall in Hall. specialize (Hall x Hx). lia.
Qed.

Lemma scan_step_increasing (c3m : list CandleData.t)
    (cl e15 e60 : list JS.number) (crosses : list CrossEvent.t) (i : nat) :
  increasing_below i crosses ->
  increasing_below (S i) (scan_step c3m cl e15 e60 crosses i).
Proof.
  intros H. unfold scan_step.
  repeat match goal with |- context [if ?b then _ else _] => destruct b end.
  - apply (increasing_below_snoc
             (CrossEvent.mk i GOLDEN (at_index cl i) (ts_at c3m i)) H).
    simpl; lia.
  - apply (increasing_below_snoc
             (CrossEvent.mk i DEAD (at_index cl i) (ts_at c3m i)) H).
    simpl; lia.
  - apply increasing_below_weaken with (b := i); [lia | exact H].
Qed.

Lemma scan_fold_increasing (c3m : list CandleData.t)
    (cl e15 e60 : list JS.number) (n start : nat)
    (crosses : list CrossEvent.t) :
  increasing_below start crosses ->
  increasing_below (start + n)
    (fold_left (scan_step c3m cl e15 e60) (seq start n) crosses).
Proof.
  revert start crosses. induction n as [| n IH]; intros start crosses H; simpl.
  - now rewrite Nat.add_0_r.
  - replace (start + S n)%nat with (S start + n)%nat by lia.
    apply IH. now apply scan_step_increasing.
Qed.

(** The events [scanCrosses] reports come in increasing index order and lie
    inside the series. *)
Lemma scanCrosses_increasing (c3m : list CandleData.t) :
  increasing_below (Nat.max 1 (List.length c3m)) (scanCrosses c3m).
Proof.
  unfold scanCrosses.
  set (start := Nat.max 1 (List.length c3m - 50)).
  apply increasing_below_weaken
    with (b := (start + (List.length c3m - start))%nat);
    [subst start; lia |].
  apply scan_fold_increasing, increasing_below_nil.
Qed.

End Scan.

(* ------------------------------------------------------------------ *)
(** * The stop of a long entry: lowest low of the span *)
(* ------------------------------------------------------------------ *)

Section LowestLow.

Lemma le_Fin (a b : Qc) : JS.le (JS.Fin a) (JS.Fin b) = true <-> (a <= b)%Qc.
Proof.
  unfold JS.le. rewrite orb_true_iff, JSFacts.lt_Fin, JSFacts.eq_Fin. split.
  - intros [H | ->]; [now apply Qclt_le_weak | apply Qcle_refl].
  - intros H. apply Qcle_lt_or_eq in H. tauto.
Qed.

Lemma finite_double_inv (x : JS.number) :
  finite_double x = true ->
  exists q, x = JS.Fin q /\ (q <= JS.MAX_VALUE_Qc)%Qc.
Proof.
  destruct x as [| | q |]; simpl; try discriminate.
  intros H. apply andb_true_iff in H. destruct H as [H _].
  exists q. split; [reflexivity |]. now apply le_Fin.
Qed.

(** Reading the indices [from, from + k) one by one gives the slice. *)
Lemma map_at_index_seq (xs : list JS.number) (k from : nat) :
  (from + k <= List.length xs)%nat ->
  map (at_index xs) (seq from k) = firstn k (skipn from xs).
Proof.
  revert xs from. induction k as [| k IH]; intros xs from Hlen; simpl.
  - reflexivity.
  - destruct (skipn from xs) as [| y ys] eqn:E.
    + assert (L : List.length (skipn from xs) = 0%nat) by now rewrite E.
      rewrite length_skipn in L. lia.
    + assert (Hy : at_index xs from = y).
      { unfold at_index.
        rewrite <- (firstn_skipn from xs) at 1. rewrite E.
        rewrite app_nth2; rewrite length_firstn; [| lia].
        replace (from - Nat.min from (List.length xs))%nat with 0%nat by lia.
        reflexivity. }
      rewrite Hy. f_equal.
      rewrite IH by lia.
      replace (S from) with (1 + from)%nat by lia.
      rewrite <- skipn_skipn, E. reflexivity.
Qed.

Lemma minLow_between_fold (lows3m : list JS.number) (from to : nat) :
  minLow_between lows3m from to
  = fold_left keep_lower (map (at_index lows3m) (seq from (to + 1 - from)))
              JS.Number_MAX_VALUE.
Proof.
  unfold minLow_between. generalize JS.Number_MAX_VALUE.
  induction (seq from (to + 1 - from)) as [| i idxs IH]; intros m; simpl.
  - reflexivity.
  - apply IH.
Qed.

Lemma keep_lower_min2 (xs : list JS.number) (m : Qc) :
  forallb finite_double xs = true ->
  fold_left keep_lower xs (JS.Fin m) = fold_left JS.min2 xs (JS.Fin m).
Proof.
  revert m. induction xs as [| x rest IH]; intros m H; simpl.
  - reflexivity.
  - simpl in H. apply andb_true_iff in H. destruct H as [Hx Hrest].
    destruct (finite_double_inv _ Hx) as (q & -> & _).
    unfold keep_lower at 2. simpl JS.min2.
    destruct (JS.lt (JS.Fin q) (JS.Fin m)); now apply IH.
Qed.

(** On numbers a double can hold, the loop started at [Number.MAX_VALUE]
    computes [Math.min] of the values it visits. *)
Lemma keep_lower_is_Math_min (xs : list JS.number) :
  xs <> [] ->
  forallb finite_double xs = true ->
  fold_left keep_lower xs JS.Number_MAX_VALUE = JS.Math_min xs.
Proof.
  intros Hne H. destruct xs as [| x rest]; [contradiction |].
  simpl in H. apply andb_true_iff in H. destruct H as [Hx Hrest].
  destruct (finite_double_inv _ Hx) as (q & -> & Hq).
  unfold JS.Math_min. simpl fold_left.
  assert (E : keep_lower JS.Number_MAX_VALUE (JS.Fin q) = JS.Fin q).
  { unfold keep_lower, JS.Number_MAX_VALUE.
    destruct (JS.lt (JS.Fin q) (JS.Fin JS.MAX_VALUE_Qc)) eqn:L;
      [reflexivity |].
    apply JSFacts.lt_Fin_false in L. f_equal. now apply Qcle_antisym. }
  rewrite E. now apply keep_lower_min2.
Qed.

Lemma minLow_between_is_Math_min (lows3m : list JS.number) (from to : nat) :
  (from <= to < List.length lows3m)%nat ->
  forallb finite_double (slice lows3m from (to + 1)) = true ->
  minLow_between lows3m from to = JS.Math_min (slice lows3m from (to + 1)).
Proof.
  intros Hrange Hfin. rewrite minLow_between_fold.
  rewrite map_at_index_seq by lia. fold (slice lows3m from (to + 1)).
  apply keep_lower_is_Math_min; [| exact Hfin].
  unfold slice. intros E.
  assert (L : List.length (firstn (to + 1 - from) (skipn from lows3m)) = 0%nat)
    by now rewrite E.
  rewrite length_firstn, length_skipn in L. lia.
Qed.

(** [Math.min] of numbers a double can hold is their least element. *)
Lemma fold_min2_least (xs : list JS.number) (m : Qc) :
  forallb finite_double xs = true ->
  exists r,
    fold_left JS.min2 xs (JS.Fin m) = JS.Fin r
    /\ (r <= m)%Qc
    /\ (forall q, In (JS.Fin q) xs -> (r <= q)%Qc)
    /\ (r = m \/ In (JS.Fin r) xs).
Proof.
  revert m. induction xs as [| x rest IH]; intros m H; simpl.
  - exists m. repeat split; [apply Qcle_refl | contradiction | now left].
  - simpl in H. apply andb_true_iff in H. destruct H as [Hx Hrest].
    destruct (finite_double_inv _ Hx) as (q & -> & _).
    simpl JS.min2. destruct (JS.lt (JS.Fin q) (JS.Fin m)) eqn:L.
    + apply JSFacts.lt_Fin in L.
      destruct (IH q Hrest) as (r & E & Hr & Hall & Hin).
      exists r. split; [exact E |]. split; [| split].
      * apply Qcle_trans with q; [exact Hr | now apply Qclt_le_weak].
      * intros q' [Hq' | Hq']; [injection Hq' as <-; exact Hr | now apply Hall].
      * right. destruct Hin as [-> | Hin]; [now left | now right].
    + apply JSFacts.lt_Fin_false in L.
      destruct (IH m Hrest) as (r & E & Hr & Hall & Hin).
      exists r. split; [exact E |]. split; [exact Hr | split].
      * intros q' [Hq' | Hq']; [injection Hq' as <- | now apply Hall].
        now apply Qcle_trans with m.
      * destruct Hin as [-> | Hin]; [now left | right; now right].
Qed.

Lemma Math_min_is_least (xs : list JS.number) :
  xs <> [] ->
  forallb finite_double xs = true ->
  In (JS.Math_min xs) xs
  /\ forall x, In x xs -> (JS.Math_min xs <=? x)%js = true.
Proof.
  intros Hne H. destruct xs as [| x rest]; [contradiction |].
  pose proof H as Hall.
  simpl in H. apply andb_true_iff in H. destruct H as [Hx Hrest].
  destruct (finite_double_inv _ Hx) as (q & -> & _).
  unfold JS.Math_min. simpl fold_left.
  destruct (@fold_min2_least rest q Hrest) as (r & E & Hr & Hleast & Hin).
  rewrite E. split.
  - destruct Hin as [-> | Hin]; [now left | now right].
  - intros y Hy. rewrite forallb_forall in Hall.
    destruct (finite_double_inv _ (Hall y Hy)) as (qy & -> & _).
    apply le_Fin. destruct Hy as [Hy | Hy];
      [injection Hy as <-; exact Hr | now apply Hleast].
Qed.

End LowestLow.

(* ------------------------------------------------------------------ *)
(** * The strategy *)
(* ------------------------------------------------------------------ *)

Section Strategy.

Variable INSTRUMENT_ID : string.

Lemma enough_candles (marketData : MarketDataCollection.t) :
  (60 <= List.length (MarketDataCollection.candles1H marketData))%nat ->
  (60 <= List.length (MarketDataCollection.candles3m marketData))%nat ->
  (List.length (MarketDataCollection.candles1H marketData) <? 60)%nat
  || (List.length (MarketDataCollection.candles3m marketData) <? 60)%nat
  = false.
Proof.
  intros H1 H3. apply orb_false_iff. split; apply Nat.ltb_ge; assumption.
Qed.

Lemma last_two_snoc2 (front : list CrossEvent.t) (x y : CrossEvent.t) :
  last_two (front ++ [x; y]) = Some (x, y).
Proof. unfold last_two. now rewrite rev_app_distr. Qed.

(** C5. With fewer than 60 candles on the 1H or on the 3m series the
    strategy returns [HOLD] with the data-accumulating rationale, whatever
    the candles contain and whatever the account holds. *)
Theorem insufficient_data_holds (marketData : MarketDataCollection.t)
    (accountData : AccountContext.t) :
  (List.length (MarketDataCollection.candles1H marketData) < 60
   \/ List.length (MarketDataCollection.candles3m marketData) < 60)%nat ->
  analyzeStrategy INSTRUMENT_ID marketData accountData
  = Analysis.mk HOLD "数据不足，正在积累K线..." (JS.num 0) false.
Proof.
  intros Hlen. unfold analyzeStrategy.
  assert (E : (List.length (MarketDataCollection.candles1H marketData) <? 60)%nat
              || (List.length (MarketDataCollection.candles3m marketData) <? 60)%nat
              = true).
  { apply orb_true_iff. destruct Hlen as [H | H]; [left | right];
      now apply Nat.ltb_lt. }
  now rewrite E.
Qed.

(** C2. With at least 60 candles on both series, a position on the tracked
    instrument whose side contradicts the 1H trend (long while EMA15 is
    not above EMA60 at the last index, short while it is above) makes the
    strategy return [CLOSE], whatever the 3m series shows. *)
Theorem trend_reversal_closes (marketData : MarketDataCollection.t)
    (accountData : AccountContext.t) (p : PositionData.t) :
  (60 <= List.length (MarketDataCollection.candles1H marketData))%nat ->
  (60 <= List.length (MarketDataCollection.candles3m marketData))%nat ->
  primaryPosition INSTRUMENT_ID accountData = Some p ->
  (PositionData.posSide p = long
   /\ trend1H (MarketDataCollection.candles1H marketData) = false)
  \/ (PositionData.posSide p = short
      /\ trend1H (MarketDataCollection.candles1H marketData) = true) ->
  Analysis.action (analyzeStrategy INSTRUMENT_ID marketData accountData)
  = CLOSE.
Proof.
  intros H1 H3 Hp Hside. unfold analyzeStrategy.
  rewrite (enough_candles _ H1 H3), Hp.
  destruct Hside as [[-> ->] | [-> ->]]; reflexivity.
Qed.

(** C1. With at least 60 candles on both series, no position on the
    tracked instrument, an up-trend on the 1H chart, a scan of the 3m chart
    whose last two events are a DEAD cross followed by a GOLDEN cross, the
    latter within 2 candles of the end of the series, the strategy returns
    [BUY] with the stop at the minimum of the 3m lows over the indices
    [prev.index .. last.index], times 0.9995.  The lows of that span are
    taken to be numbers a double can hold; [Math_min_is_least] shows that
    [JS.Math_min] then is their least element. *)
Theorem buy_on_dead_then_golden (marketData : MarketDataCollection.t)
    (accountData : AccountContext.t)
    (front : list CrossEvent.t) (prevCross lastCross : CrossEvent.t) :
  let c1h := MarketDataCollection.candles1H marketData in
  let c3m := MarketDataCollection.candles3m marketData in
  let span :=
    slice (lows c3m) (CrossEvent.index prevCross)
          (CrossEvent.index lastCross + 1) in
  (60 <= List.length c1h)%nat ->
  (60 <= List.length c3m)%nat ->
  primaryPosition INSTRUMENT_ID accountData = None ->
  trend1H c1h = true ->
  scanCrosses c3m = (front ++ [prevCross; lastCross])%list ->
  CrossEvent.type prevCross = DEAD ->
  CrossEvent.type lastCross = GOLDEN ->
  (Z.of_nat (List.length c3m) - 1 - Z.of_nat (CrossEvent.index lastCross)
   <= 2)%Z ->
  forallb finite_double span = true ->
  Analysis.action (analyzeStrategy INSTRUMENT_ID marketData accountData)
  = BUY
  /\ Analysis.sl (analyzeStrategy INSTRUMENT_ID marketData accountData)
     = (JS.Math_min span * JS.num 0.9995)%js.
Proof.
  intros c1h c3m span H1 H3 Hpos Hup Hscan Hprev Hlast Hfresh Hfin.
  subst c1h c3m span.
  assert (Hidx : (CrossEvent.index prevCross <= CrossEvent.index lastCross
                  < List.length
                      (lows (MarketDataCollection.candles3m marketData)))%nat).
  { destruct (scanCrosses_increasing
                (MarketDataCollection.candles3m marketData)) as [Hall Hinc].
    rewrite Hscan in Hall. specialize (Hinc _ _ _ Hscan).
    apply Forall_app in Hall. destruct Hall as [_ Hall].
    inversion Hall as [| ? ? _ Hl]; subst. inversion Hl as [| ? ? Hb _]; subst.
    unfold lows. rewrite length_map. lia. }
  unfold analyzeStrategy.
  rewrite (enough_candles _ H1 H3), Hpos, Hup, Hscan, last_two_snoc2.
  apply Z.leb_le in Hfresh. rewrite Hfresh, Hprev, Hlast. simpl.
  split; [reflexivity |].
  now rewrite (minLow_between_is_Math_min _ Hidx Hfin).
Qed.

End Strategy.

Lemma insufficient_data_holds_witness :
  analyzeStrategy Samples.instrument
    (Samples.market [] Samples.pullback_c3m) Samples.flat_account
  = Analysis.mk HOLD "数据不足，正在积累K线..." (JS.num 0) false.
Proof.
  apply (@insufficient_data_holds Samples.instrument
           (Samples.market [] Samples.pullback_c3m) Samples.flat_account).
  left. simpl. lia.
Defined.

Lemma trend_reversal_closes_witness :
  Analysis.action
    (analyzeStrategy Samples.instrument
       (Samples.market Samples.falling_c1h Samples.pullback_c3m)
       (Samples.account_with (Samples.position long "100" "0" None)))
  = CLOSE.
Proof.
  apply (@trend_reversal_closes Samples.instrument
           (Samples.market Samples.falling_c1h Samples.pullback_c3m)
           (Samples.account_with (Samples.position long "100" "0" None))
           (Samples.position long "100" "0" None)).
  - simpl. lia.
  - simpl. lia.
  - reflexivity.
  - left. split; [reflexivity | now vm_compute].
Defined.

(** The sample evaluated: the stop is 98 * 0.9995 = 97.951. *)
Example sample_buy_analysis :
  let r := analyzeStrategy Samples.instrument
             (Samples.market Samples.rising_c1h Samples.pullback_c3m)
             Samples.flat_account in
  Analysis.action r = BUY /\ Analysis.sl r = JS.num 97.951
  /\ map (fun e => (CrossEvent.index e, CrossEvent.type e))
         (scanCrosses Samples.pullback_c3m)
     = [(57, DEAD); (58, GOLDEN)]%nat.
Proof. split; [| split]; [now vm_compute | js_eq | now vm_compute]. Qed.

Lemma buy_on_dead_then_golden_witness :
  let r := analyzeStrategy Samples.instrument
             (Samples.market Samples.rising_c1h Samples.pullback_c3m)
             Samples.flat_account in
  Analysis.action r = BUY
  /\ Analysis.sl r
     = (JS.Math_min (slice (lows Samples.pullback_c3m) 57 59)
        * JS.num 0.9995)%js.
Proof.
  apply (@buy_on_dead_then_golden Samples.instrument
           (Samples.market Samples.rising_c1h Samples.pullback_c3m)
           Samples.flat_account [] Samples.dead_at_57 Samples.golden_at_58).
  - simpl. lia.
  - simpl. lia.
  - reflexivity.
  - now vm_compute.
  - now vm_compute.
  - reflexivity.
  - reflexivity.
  - simpl. lia.
  - now vm_compute.
Defined.

(* ------------------------------------------------------------------ *)
(** * The position manager *)
(* ------------------------------------------------------------------ *)

Section PositionManager.

Lemma absent_stop_is_zero (pos : PositionData.t) :
  PositionData.slTriggerPx pos = None ->
  (currentSL pos === JS.num 0)%js = true.
Proof. intros H. unfold currentSL. rewrite H. now vm_compute. Qed.

(** C6, as the code has it.  For a position with a positive entry price
    whose entry differs from the current stop (absent: 0) by more than
    0.05% of entry: a long whose estimated mark price exceeds entry by
    more than 0.5% of entry and whose current stop is below entry, or a
    short whose mark is below entry by more than 0.5% of entry and whose
    current stop is above entry or absent, is proposed the entry price
    written with two decimals ([toFixed(2)]) as its new stop, with the
    breakeven rationale. *)
Theorem breakeven_proposal (pos : PositionData.t) (c3m : list CandleData.t) :
  (entryPx pos >? JS.num 0)%js = true ->
  (JS.Math_abs (entryPx pos - currentSL pos) >? entryPx pos * JS.num 0.0005)%js
  = true ->
  (PositionData.posSide pos = long
   /\ (markPx pos >? entryPx pos + entryPx pos * JS.num 0.005)%js = true
   /\ (currentSL pos <? entryPx pos)%js = true)
  \/ (PositionData.posSide pos = short
      /\ (markPx pos <? entryPx pos - entryPx pos * JS.num 0.005)%js = true
      /\ ((currentSL pos >? entryPx pos)%js = true
          \/ PositionData.slTriggerPx pos = None)) ->
  calculateManagement (Some pos) c3m
  = Some (Management.mk (JS.toFixed (entryPx pos) 2) breakevenReason).
Proof.
  intros Hpos Hdiff Hside. unfold calculateManagement.
  destruct Hside as [(-> & Hmark & Hsl) | (-> & Hmark & Hsl)].
  - rewrite Hmark, Hsl. cbn [andb].
    now rewrite Hpos, Hdiff.
  - rewrite Hmark.
    assert (E : (currentSL pos >? entryPx pos)%js
                || (currentSL pos === JS.num 0)%js = true).
    { apply orb_true_iff. destruct Hsl as [H | H]; [now left | right].
      now apply absent_stop_is_zero. }
    rewrite E. cbn [andb].
    now rewrite Hpos, Hdiff.
Qed.

(** C7, as the code has it.  For a long position with entry price 100 and
    estimated mark price 100.1: when the lowest low of the last five 3m
    candles is 98 the manager proposes nothing, whatever the current stop;
    the trailing stop (lowest low times 0.9995, written with two decimals)
    is proposed whenever it exceeds the current stop, exceeds the entry
    price, lies below the mark price and differs from the current stop by
    more than 0.05% of entry. *)
Theorem trailing_stop_must_clear_entry (pos : PositionData.t)
    (c3m : list CandleData.t) :
  PositionData.posSide pos = long ->
  entryPx pos = JS.num 100 ->
  markPx pos = JS.num 100.1 ->
  (recentLow c3m = JS.num 98 -> calculateManagement (Some pos) c3m = None)
  /\ (let trailSL := (recentLow c3m * JS.num 0.9995)%js in
      (trailSL >? currentSL pos)%js = true ->
      (trailSL >? entryPx pos)%js = true ->
      (trailSL <? markPx pos)%js = true ->
      (JS.Math_abs (trailSL - currentSL pos)
         >? entryPx pos * JS.num 0.0005)%js = true ->
      calculateManagement (Some pos) c3m
      = Some (Management.mk (JS.toFixed trailSL 2) trailLowReason)).
Proof.
  intros Hside Hentry Hmark.
  assert (Hbe : (JS.num 100.1 >? JS.num 100 + JS.num 100 * JS.num 0.005)%js
                = false) by now vm_compute.
  split.
  - intros Hlow. unfold calculateManagement.
    rewrite Hside, Hentry, Hmark, Hlow, Hbe. cbn [andb].
    assert (Hlt : (JS.num 98 * JS.num 0.9995 >? JS.num 100)%js = false)
      by now vm_compute.
    rewrite Hlt, andb_false_r. cbn [andb].
    assert (H0 : (JS.num 0 >? JS.num 0)%js = false) by now vm_compute.
    now rewrite H0.
  - intros trailSL Hsl Hent Hmk Hdiff. unfold calculateManagement.
    rewrite Hentry, Hmark in *. rewrite Hside, Hbe. cbn [andb].
    fold trailSL. rewrite Hsl, Hent, Hmk. cbn [andb].
    assert (H0 : (trailSL >? JS.num 0)%js = true).
    { unfold JS.gt in *. apply JSFacts.lt_trans with (y := JS.num 100);
        [now vm_compute | exact Hent]. }
    now rewrite H0, Hdiff.
Qed.

End PositionManager.

Lemma breakeven_proposal_witness :
  calculateManagement (Some ManagementSamples.long_in_profit)
                      (ManagementSamples.recent "98")
  = Some (Management.mk
            (JS.toFixed (entryPx ManagementSamples.long_in_profit) 2)
            breakevenReason).
Proof.
  apply (@breakeven_proposal ManagementSamples.long_in_profit
           (ManagementSamples.recent "98")).
  - now vm_compute.
  - now vm_compute.
  - left. repeat split; now vm_compute.
Defined.

(** C6 as the specification words it fails: the stop proposed for an entry
    at 100.123 is 100.12, not the entry price. *)
Lemma breakeven_stop_is_rounded_counterexample :
  let pos := ManagementSamples.long_in_profit in
  PositionData.posSide pos = long
  /\ (markPx pos >? entryPx pos + entryPx pos * JS.num 0.005)%js = true
  /\ (currentSL pos <? entryPx pos)%js = true
  /\ (JS.Math_abs (entryPx pos - currentSL pos)
        >? entryPx pos * JS.num 0.0005)%js = true
  /\ calculateManagement (Some pos) (ManagementSamples.recent "98")
     = Some (Management.mk "100.12" breakevenReason)
  /\ JS.parseFloat "100.12" <> entryPx pos.
Proof.
  repeat split; now vm_compute.
Qed.

Lemma trailing_stop_must_clear_entry_witness :
  calculateManagement (Some ManagementSamples.long_small_gain)
                      (ManagementSamples.recent "98")
  = None.
Proof.
  apply (@trailing_stop_must_clear_entry ManagementSamples.long_small_gain
           (ManagementSamples.recent "98")).
  - reflexivity.
  - unfold entryPx. js_eq.
  - unfold markPx. js_eq.
  - unfold recentLow. js_eq.
Defined.

(** C7 as the specification words it fails: with entry 100, mark 100.1,
    lowest low 98 and current stop 90, the value 98 * 0.9995 exceeds the
    current stop, lies below the mark price and differs from the stop by
    more than 0.05% of entry, yet nothing is proposed. *)
Lemma trailing_stop_below_entry_counterexample :
  let pos := ManagementSamples.long_small_gain in
  let c3m := ManagementSamples.recent "98" in
  let trailSL := (JS.num 98 * JS.num 0.9995)%js in
  PositionData.posSide pos = long
  /\ entryPx pos = JS.num 100
  /\ markPx pos = JS.num 100.1
  /\ recentLow c3m = JS.num 98
  /\ currentSL pos = JS.num 90
  /\ (trailSL >? currentSL pos)%js = true
  /\ (trailSL <? markPx pos)%js = true
  /\ (JS.Math_abs (trailSL - currentSL pos)
        >? entryPx pos * JS.num 0.0005)%js = true
  /\ calculateManagement (Some pos) c3m = None.
Proof.
  repeat split; now vm_compute.
Qed.

(** With the same position and a lowest low of 100.1 the trailing stop
    100.1 * 0.9995 = 100.04995 lies between entry and mark and is proposed,
    written with two decimals. *)
Example trailing_stop_between_entry_and_mark :
  calculateManagement (Some ManagementSamples.long_small_gain)
                      (ManagementSamples.recent "100.1")
  = Some (Management.mk "100.05" trailLowReason).
Proof. now vm_compute. Qed.
(* ------------------------------------------------------------------ *)
(** * Whole numbers *)
(* ------------------------------------------------------------------ *)

Section WholeNumbers.

Lemma Z2Qc_le (a b : Z) : (JS.Z2Qc a <= JS.Z2Qc b)%Qc <-> (a <= b)%Z.
Proof.
  unfold Qcle.
  change (this (JS.Z2Qc a)) with (Qred (inject_Z a)).
  change (this (JS.Z2Qc b)) with (Qred (inject_Z b)).
  rewrite !Qred_correct, <- Zle_Qle. tauto.
Qed.

End WholeNumbers.
(* ------------------------------------------------------------------ *)
(** * Sizing and aggregation *)
(* ------------------------------------------------------------------ *)

Section Sizing.

Variable INSTRUMENT_ID : string.

Lemma Qc_div_nonneg (x y : Qc) :
  (JS.zeroQc <= x)%Qc -> (JS.zeroQc < y)%Qc -> (JS.zeroQc <= x / y)%Qc.
Proof.
  intros Hx Hy. apply Qcnot_lt_le. intros L.
  apply (Qcmult_lt_compat_r _ _ y Hy) in L.
  replace (x / y * y)%Qc with x in L
    by (field; intros E; rewrite E in Hy; now apply Qclt_not_eq in Hy).
  replace (JS.zeroQc * y)%Qc with JS.zeroQc in L by (unfold JS.zeroQc; ring).
  now apply Qcle_not_lt in Hx.
Qed.

Lemma Qc_mult_nonneg (x y : Qc) :
  (JS.zeroQc <= x)%Qc -> (JS.zeroQc <= y)%Qc -> (JS.zeroQc <= x * y)%Qc.
Proof.
  intros Hx Hy. apply (Qcmult_le_compat_r _ _ y Hx) in Hy.
  now replace (JS.zeroQc * y)%Qc with JS.zeroQc in Hy
    by (unfold JS.zeroQc; ring).
Qed.

Lemma floor_nonneg (q : Qc) : (JS.zeroQc <= q)%Qc -> (0 <= Qfloor q)%Z.
Proof.
  intros H. change 0%Z with (Qfloor JS.zeroQc). now apply Qfloor_resp_le.
Qed.

(** ** Signs

    The sign rules of the arithmetic: sums aside, an operation on numbers
    that are not below zero gives a number that is not below zero (it may
    be an infinity or [NaN]).  They hold whether or not the operation
    rounds. *)

Lemma not_negative_Fin (q : Qc) :
  not_negative (JS.Fin q) <-> (JS.zeroQc <= q)%Qc.
Proof.
  change (not_negative (JS.Fin q))
    with (JS.lt (JS.Fin q) (JS.Fin JS.zeroQc) = false).
  pose proof (@JSFacts.lt_Fin_false q JS.zeroQc) as H. exact H.
Qed.

Lemma sgn_not_Lt (q : Qc) : (JS.zeroQc <= q)%Qc -> JS.sgn q <> Lt.
Proof.
  intros H L. apply JSFacts.sgn_Lt in L. now apply Qcle_not_lt in H.
Qed.

Lemma mul_not_negative (a b : JS.number) :
  not_negative a -> not_negative b -> not_negative (a * b)%js.
Proof.
  intros Ha Hb.
  destruct a as [| | p |], b as [| | q |];
    try reflexivity; try discriminate Ha; try discriminate Hb.
  - apply not_negative_Fin, Qc_mult_nonneg; now apply not_negative_Fin.
  - apply not_negative_Fin, sgn_not_Lt in Ha. simpl.
    destruct (JS.sgn p); [reflexivity | now contradiction Ha | reflexivity].
  - apply not_negative_Fin, sgn_not_Lt in Hb. simpl.
    destruct (JS.sgn q); [reflexivity | now contradiction Hb | reflexivity].
Qed.

Lemma div_not_negative (a b : JS.number) :
  not_negative a -> not_negative b -> not_negative (a / b)%js.
Proof.
  intros Ha Hb.
  destruct a as [| | p |], b as [| | q |];
    try reflexivity; try discriminate Ha; try discriminate Hb.
  - apply not_negative_Fin in Ha, Hb. simpl.
    destruct (JS.sgn q) eqn:E.
    + pose proof (sgn_not_Lt Ha) as Hp.
      destruct (JS.sgn p); [reflexivity | now contradiction Hp | reflexivity].
    + now apply sgn_not_Lt in Hb.
    + apply JSFacts.sgn_Gt in E.
      now apply not_negative_Fin, Qc_div_nonneg.
  - apply not_negative_Fin, sgn_not_Lt in Hb. simpl.
    destruct (JS.sgn q); [reflexivity | now contradiction Hb | reflexivity].
Qed.

Lemma abs_not_negative (x : JS.number) : not_negative (JS.Math_abs x).
Proof.
  destruct x as [| | q |]; try reflexivity.
  rewrite JSFacts.abs_Fin. apply not_negative_Fin.
  destruct (Qclt_le_dec q JS.zeroQc) as [L | L]; [| exact L].
  apply Qclt_le_weak, Qcopp_le_compat in L.
  now replace (- JS.zeroQc)%Qc with JS.zeroQc in L by now vm_compute.
Qed.

Lemma floor_not_negative (x : JS.number) :
  not_negative x -> not_negative (JS.Math_floor x).
Proof.
  destruct x as [| | q |]; try (intros H; exact H).
  intros H. apply not_negative_Fin in H. simpl. apply not_negative_Fin.
  change JS.zeroQc with (JS.Z2Qc 0). apply Z2Qc_le. now apply floor_nonneg.
Qed.

Lemma floor_no_fraction (x : JS.number) : no_fraction (JS.Math_floor x).
Proof.
  destruct x as [| | q |]; simpl; try exact I. now exists (Qfloor q).
Qed.

Lemma ge_zero_not_negative (x : JS.number) :
  (x >=? JS.num 0)%js = true -> not_negative x.
Proof.
  destruct x as [| | q |]; try reflexivity; try discriminate.
  intros H. apply not_negative_Fin. apply le_Fin. exact H.
Qed.

Lemma gt_zero_not_negative (x : JS.number) :
  (x >? JS.num 0)%js = true -> not_negative x.
Proof.
  destruct x as [| | q |]; try reflexivity; try discriminate.
  intros H. apply JSFacts.gt_Fin in H.
  apply not_negative_Fin. now apply Qclt_le_weak.
Qed.

Lemma riskContracts_not_negative (avail entry stop : JS.number) :
  not_negative avail -> not_negative (riskContracts avail entry stop).
Proof.
  intros Ha. unfold riskContracts.
  apply div_not_negative; [| reflexivity].
  apply div_not_negative; [| apply abs_not_negative].
  apply mul_not_negative; [exact Ha | reflexivity].
Qed.

Lemma capContracts_not_negative (avail entry : JS.number) :
  not_negative avail -> not_negative entry ->
  not_negative (capContracts avail entry).
Proof.
  intros Ha He. unfold capContracts.
  apply div_not_negative.
  - apply mul_not_negative; [exact Ha | reflexivity].
  - apply mul_not_negative; [reflexivity | exact He].
Qed.

(** ** The size of an entry *)

(** An entry decision carries the size of step 4, taken at its own
    stop. *)
Lemma entry_decision_size (apiKey : string)
    (marketData : MarketDataCollection.t) (accountData : AccountContext.t) :
  let d := getTradingDecision INSTRUMENT_ID apiKey marketData accountData in
  AIDecision.action d = BUY \/ AIDecision.action d = SELL ->
  AIDecision.size d
  = entrySize marketData accountData
      (TradingDecision.stop_loss (AIDecision.trading_decision d))
  /\ TradingDecision.position_size (AIDecision.trading_decision d)
     = AIDecision.size d.
Proof.
  intros d. subst d. unfold getTradingDecision.
  destruct (match primaryPosition INSTRUMENT_ID accountData with
            | Some p => _
            | None => None
            end) as [m |]; cbn [AIDecision.action AIDecision.size
                                AIDecision.trading_decision
                                TradingDecision.stop_loss
                                TradingDecision.position_size];
    intros Hact.
  - destruct Hact; discriminate.
  - destruct (Analysis.action
                (analyzeStrategy INSTRUMENT_ID marketData accountData));
      try (destruct Hact; discriminate); now split.
Qed.

(** Step 4, case by case: the size before the cap is "1" (no stop
    distance, or a text that reads below 1) or the text of the floored
    count of the risk budget; the cap replaces it by the text of its own
    floored count. *)
Lemma entrySize_cases (marketData : MarketDataCollection.t)
    (accountData : AccountContext.t) (finalSL : string) :
  let avail :=
    JS.parseFloat
      (AccountBalance.availEq (AccountContext.balance accountData)) in
  let entry := JS.parseFloat (tickerLast marketData) in
  let stop := JS.parseFloat finalSL in
  let risk := JS.Math_floor (riskContracts avail entry stop) in
  let cap := JS.Math_floor (capContracts avail entry) in
  exists size0,
    ((size0 = "1"
      /\ ((JS.Math_abs (entry - stop) >? JS.num 0)%js = false
          \/ (JS.parseFloat (JS.toString risk) <? JS.num 1)%js = true))
     \/ (size0 = JS.toString risk
         /\ (JS.Math_abs (entry - stop) >? JS.num 0)%js = true
         /\ (JS.parseFloat size0 <? JS.num 1)%js = false))
    /\ entrySize marketData accountData finalSL
       = if (JS.parseFloat size0 * CONTRACT_VAL_ETH * entry
             >? avail * JS.num 20)%js
         then JS.toString cap else size0.
Proof.
  intros avail entry stop risk cap. unfold entrySize.
  fold avail entry stop.
  change (avail * JS.num 0.05 / JS.Math_abs (entry - stop)
          / CONTRACT_VAL_ETH)%js
    with (riskContracts avail entry stop).
  change (avail * JS.num 20 / (CONTRACT_VAL_ETH * entry))%js
    with (capContracts avail entry).
  fold risk cap.
  destruct (JS.Math_abs (entry - stop) >? JS.num 0)%js eqn:Hdist.
  - destruct (JS.parseFloat (JS.toString risk) <? JS.num 1)%js eqn:Hmin.
    + exists "1". split; [left; split; [reflexivity | now right] |].
      reflexivity.
    + exists (JS.toString risk). split; [right; now repeat split |].
      reflexivity.
  - exists "1". split; [left; split; [reflexivity | now left] |].
    reflexivity.
Qed.

(** C8, as the code has it.  For a [BUY] or [SELL] decision whose
    available equity parses to a number that is not negative, whose last
    traded price parses to a positive number and whose stop parses to a
    number, the size is "1" or the text of a floored count that is never
    negative and never fractional.  The count that the risk budget pays
    for (5% of the equity over the stop distance, over the contract
    value) is floored; "1" replaces its text when the stop distance is
    zero or when the text reads below 1; and when the notional value of
    that size exceeds 20 times the equity, the size is the text of the
    floored count that the cap leaves (20 times the equity over the
    contract value times the price).  A floored count is a whole number,
    an infinity or [NaN].  Every quantity is as the engine computes
    it. *)
Theorem entry_size_is_a_floored_count (apiKey : string)
    (marketData : MarketDataCollection.t) (accountData : AccountContext.t) :
  let d := getTradingDecision INSTRUMENT_ID apiKey marketData accountData in
  let avail :=
    JS.parseFloat
      (AccountBalance.availEq (AccountContext.balance accountData)) in
  let entry := JS.parseFloat (tickerLast marketData) in
  let stop :=
    JS.parseFloat
      (TradingDecision.stop_loss (AIDecision.trading_decision d)) in
  let risk := JS.Math_floor (riskContracts avail entry stop) in
  let cap := JS.Math_floor (capContracts avail entry) in
  AIDecision.action d = BUY \/ AIDecision.action d = SELL ->
  (avail >=? JS.num 0)%js = true ->
  (entry >? JS.num 0)%js = true ->
  JS.isNaN stop = false ->
  (exists size0,
     ((size0 = "1"
       /\ ((JS.Math_abs (entry - stop) >? JS.num 0)%js = false
           \/ (JS.parseFloat (JS.toString risk) <? JS.num 1)%js = true))
      \/ (size0 = JS.toString risk
          /\ (JS.Math_abs (entry - stop) >? JS.num 0)%js = true
          /\ (JS.parseFloat size0 <? JS.num 1)%js = false))
     /\ AIDecision.size d
        = if (JS.parseFloat size0 * CONTRACT_VAL_ETH * entry
              >? avail * JS.num 20)%js
          then JS.toString cap else size0)
  /\ not_negative risk /\ no_fraction risk
  /\ not_negative cap /\ no_fraction cap
  /\ TradingDecision.position_size (AIDecision.trading_decision d)
     = AIDecision.size d.
Proof.
  intros d avail entry stop risk cap Hact Ha He _.
  destruct (entry_decision_size apiKey marketData accountData Hact)
    as [Hsize Hpos].
  fold d in Hsize, Hpos.
  split; [| repeat split].
  - rewrite Hsize. apply entrySize_cases.
  - apply floor_not_negative, riskContracts_not_negative.
    now apply ge_zero_not_negative.
  - apply floor_no_fraction.
  - apply floor_not_negative, capContracts_not_negative.
    + now apply ge_zero_not_negative.
    + now apply gt_zero_not_negative.
  - apply floor_no_fraction.
  - exact Hpos.
Qed.

(** C10. Every decision carries leverage "10", in both places where it is
    recorded, and take-profit "0". *)
Theorem leverage_and_target_are_constant (apiKey : string)
    (marketData : MarketDataCollection.t) (accountData : AccountContext.t) :
  let d := getTradingDecision INSTRUMENT_ID apiKey marketData accountData in
  AIDecision.leverage d = "10"
  /\ TradingDecision.leverage (AIDecision.trading_decision d) = "10"
  /\ TradingDecision.profit_target (AIDecision.trading_decision d) = "0".
Proof.
  intros d. subst d. unfold getTradingDecision.
  destruct (match primaryPosition INSTRUMENT_ID accountData with
            | Some p => _
            | None => None
            end) as [m |]; auto.
Qed.

End Sizing.

Lemma entry_size_is_a_floored_count_witness :
  let risk :=
    JS.Math_floor
      (riskContracts (JS.parseFloat "1000.00") (JS.parseFloat "110")
                     (JS.parseFloat "97.95")) in
  JS.toString risk = "41" /\ not_negative risk /\ no_fraction risk.
Proof.
  split; [now vm_compute |].
  destruct (@entry_size_is_a_floored_count Samples.instrument "key"
              (Samples.market Samples.rising_c1h Samples.pullback_c3m)
              Samples.flat_account)
    as (_ & Hnn & Hnf & _).
  - left. now vm_compute.
  - now vm_compute.
  - now vm_compute.
  - now vm_compute.
  - split; [exact Hnn | exact Hnf].
Defined.

(** C8 as the specification words it fails: the available equity
    "Infinity" parses to a number that is not negative, and the size of
    the decision is "Infinity", which is not the numeral of a whole
    number. *)
Lemma size_of_unbounded_equity_counterexample :
  let md := Samples.market Samples.rising_c1h Samples.pullback_c3m in
  let acc := MoreSamples.account_of "Infinity" in
  let d := getTradingDecision Samples.instrument "key" md acc in
  AIDecision.action d = BUY
  /\ (JS.parseFloat
        (AccountBalance.availEq (AccountContext.balance acc))
      >=? JS.num 0)%js = true
  /\ (JS.parseFloat (tickerLast md) >? JS.num 0)%js = true
  /\ JS.isNaN
       (JS.parseFloat
          (TradingDecision.stop_loss (AIDecision.trading_decision d)))
     = false
  /\ AIDecision.size d = "Infinity"
  /\ forall n : N, AIDecision.size d <> JS.string_of_N n.
Proof.
  assert (Hsize : AIDecision.size
                    (getTradingDecision Samples.instrument "key"
                       (Samples.market Samples.rising_c1h
                                       Samples.pullback_c3m)
                       (MoreSamples.account_of "Infinity"))
                  = "Infinity") by now vm_compute.
  cbv zeta.
  split; [now vm_compute |]. split; [now vm_compute |].
  split; [now vm_compute |]. split; [now vm_compute |].
  split; [exact Hsize |].
  intros n Hn. rewrite Hsize in Hn. unfold JS.string_of_N in Hn.
  destruct (N.to_uint n); simpl in Hn; discriminate Hn.
Qed.

(** The same decision, evaluated: 41 contracts, stop at 97.95. *)
Example sample_buy_decision :
  let d := getTradingDecision Samples.instrument "key"
             (Samples.market Samples.rising_c1h Samples.pullback_c3m)
             Samples.flat_account in
  AIDecision.action d = BUY
  /\ AIDecision.size d = "41"
  /\ TradingDecision.stop_loss (AIDecision.trading_decision d) = "97.95".
Proof. now vm_compute. Qed.

(* ------------------------------------------------------------------ *)
(** * The execution client *)
(* ------------------------------------------------------------------ *)

Section ClientFacts.

Variable INSTRUMENT_ID : string.

Lemma string_app_assoc (a b c : string) :
  ((a ++ b) ++ c)%string = (a ++ b ++ c)%string.
Proof. induction a as [| x r IH]; simpl; [reflexivity | now rewrite IH]. Qed.

(** Catching an error only to throw it again changes nothing. *)
Lemma try_catch_rethrow (A : Type) (m : Async A) (w : World.t)
    (trace : list Request) :
  try_catch m (fun error => throw error) w trace = m w trace.
Proof.
  unfold try_catch, throw. destruct (m w trace) as [[a | e] trace']; reflexivity.
Qed.

(** The position-mode pre-step never fails the instruction. *)
Lemma pre_step_returns (config : AppConfig.t) (w : World.t)
    (trace : list Request) :
  try_catch (ensureLongShortMode config) (fun _ => ret tt) w trace
  = (Returned tt, after_pre_step config w trace).
Proof.
  unfold after_pre_step.
  destruct (try_catch (ensureLongShortMode config) (fun _ => ret tt) w trace)
    as [[[] | e] trace'] eqn:E; [reflexivity |].
  exfalso. unfold try_catch, ret in E.
  destruct (ensureLongShortMode config w trace) as [[[] | e'] t'];
    discriminate.
Qed.

(** A live [CLOSE] is the pre-step followed by the close branch. *)
Lemma executeOrder_close (order : AIDecision.t) (config : AppConfig.t)
    (w : World.t) (trace : list Request) :
  AppConfig.isSimulation config = false ->
  AIDecision.action order = CLOSE ->
  executeOrder INSTRUMENT_ID order config w trace
  = closeBothSides INSTRUMENT_ID w (after_pre_step config w trace).
Proof.
  intros Hlive Hact. unfold executeOrder. rewrite Hlive, try_catch_rethrow.
  unfold bind at 1. rewrite pre_step_returns, Hact. reflexivity.
Qed.

(** A live instruction other than [CLOSE] is the pre-step followed by the
    entry branch. *)
Lemma executeOrder_entry (order : AIDecision.t) (config : AppConfig.t)
    (w : World.t) (trace : list Request) :
  AppConfig.isSimulation config = false ->
  Action_eqb (AIDecision.action order) CLOSE = false ->
  executeOrder INSTRUMENT_ID order config w trace
  = placeEntry INSTRUMENT_ID order config w (after_pre_step config w trace).
Proof.
  intros Hlive Hact. unfold executeOrder. rewrite Hlive, try_catch_rethrow.
  unfold bind at 1. rewrite pre_step_returns, Hact. reflexivity.
Qed.

(** C3, as the code has it.  A live [CLOSE] first asks the exchange to
    close the long side.  When the exchange answers with code "0" that
    answer is the result and the short side is not asked for.  When it
    answers with another code the client asks to close the short side: an
    answer with code "0" is the result, and with another code the
    instruction fails with an error whose message contains the messages of
    both answers. *)
Theorem close_falls_back_to_short (order : AIDecision.t)
    (config : AppConfig.t) (w : World.t) (trace : list Request)
    (jsonLong : Json.t) :
  let trace1 := after_pre_step config w trace in
  let closeLong := closeRequest INSTRUMENT_ID "long" in
  let closeShort := closeRequest INSTRUMENT_ID "short" in
  AppConfig.isSimulation config = false ->
  AIDecision.action order = CLOSE ->
  World.exchange w trace1 closeLong = Resolved jsonLong ->
  (Json.code jsonLong = "0" ->
   executeOrder INSTRUMENT_ID order config w trace
   = (Returned jsonLong, trace1 ++ [closeLong])%list)
  /\ (Json.code jsonLong <> "0" ->
      forall jsonShort : Json.t,
        World.exchange w (trace1 ++ [closeLong])%list closeShort
        = Resolved jsonShort ->
        (Json.code jsonShort = "0" ->
         executeOrder INSTRUMENT_ID order config w trace
         = (Returned jsonShort, trace1 ++ [closeLong; closeShort])%list)
        /\ (Json.code jsonShort <> "0" ->
            exists message,
              executeOrder INSTRUMENT_ID order config w trace
              = (Thrown message, trace1 ++ [closeLong; closeShort])%list
              /\ contains message (Json.msg jsonLong)
              /\ contains message (Json.msg jsonShort))).
Proof.
  intros trace1 closeLong closeShort Hlive Hact Hlong.
  subst closeLong closeShort. unfold closeRequest in *.
  rewrite (@executeOrder_close order config w trace Hlive Hact). fold trace1.
  unfold closeBothSides, bind, fetch.
  rewrite Hlong. unfold is_ok. split.
  - intros Hc. now rewrite Hc.
  - intros Hc jsonShort Hshort.
    apply String.eqb_neq in Hc. rewrite Hc, Hshort.
    rewrite <- app_assoc. simpl app. split.
    + intros Hs. now rewrite Hs.
    + intros Hs. apply String.eqb_neq in Hs. rewrite Hs.
      eexists. split; [reflexivity |]. split.
      * exists "平仓失败 (多: ",
               (", 空: " ++ Json.msg jsonShort ++ ")")%string.
        reflexivity.
      * exists ("平仓失败 (多: " ++ Json.msg jsonLong ++ ", 空: ")%string,
               ")"%string.
        simpl. now rewrite string_app_assoc.
Qed.

(** The requests of the pre-step: the account configuration is read
    first, the position mode may be set, and no order is placed. *)
Lemma pre_step_requests (config : AppConfig.t) (w : World.t)
    (trace : list Request) :
  AppConfig.isSimulation config = false ->
  exists pre,
    after_pre_step config w trace = (trace ++ pre)%list
    /\ hd_error pre = Some (GET configPath)
    /\ forallb (fun r => negb (is_order_request r)) pre = true.
Proof.
  intros Hlive. unfold after_pre_step, try_catch, ensureLongShortMode.
  rewrite Hlive. unfold bind, fetch.
  destruct (World.exchange w trace (GET configPath)) as [e | json];
    [exists [GET configPath]; now repeat split |].
  destruct (is_ok json); [| exists [GET configPath]; now repeat split].
  destruct (Json.data json) as [| d0 rest];
    [exists [GET configPath]; now repeat split |].
  destruct (negb _); [| exists [GET configPath]; now repeat split].
  exists [GET configPath;
          POST setPositionModePath (SetPositionModeBody "long_short_mode")].
  destruct (World.exchange w _ _) as [e | setJson];
    [| destruct (negb (is_ok setJson))];
    (split; [simpl; now rewrite <- app_assoc | now split]).
Qed.

(** C4, as the code has it.  For a live [BUY] or [SELL] whose size parses
    to a number below 0.01: the client first runs the position-mode
    pre-step and asks the exchange to set the leverage; once that request
    is accepted it fails with the invalid-quantity error, and no order
    request is issued. *)
Theorem small_size_rejected_before_order (order : AIDecision.t)
    (config : AppConfig.t) (w : World.t) (trace : list Request)
    (jsonLev : Json.t) :
  let setLev := leverageRequest INSTRUMENT_ID order in
  AppConfig.isSimulation config = false ->
  AIDecision.action order = BUY \/ AIDecision.action order = SELL ->
  (JS.parseFloat (AIDecision.size order) <? JS.num 0.01)%js = true ->
  World.exchange w (after_pre_step config w trace) setLev
  = Resolved jsonLev ->
  Json.code jsonLev = "0" ->
  exists pre,
    executeOrder INSTRUMENT_ID order config w trace
    = (Thrown ("无效数量: " ++ AIDecision.size order),
       (trace ++ pre ++ [setLev])%list)
    /\ hd_error pre = Some (GET configPath)
    /\ forallb (fun r => negb (is_order_request r)) (pre ++ [setLev])%list
       = true.
Proof.
  intros setLev Hlive Hact Hsmall Hlev Hok.
  destruct (pre_step_requests config w trace Hlive) as (pre & Hpre & Hhd & Hno).
  exists pre. split; [| split; [exact Hhd |]].
  - rewrite executeOrder_entry;
      [| exact Hlive | destruct Hact as [-> | ->]; reflexivity].
    unfold placeEntry, bind at 1, try_catch at 1, setLeverage.
    rewrite Hlive. unfold bind at 1, fetch at 1.
    fold (leverageRequest INSTRUMENT_ID order). fold setLev.
    rewrite Hlev. unfold is_ok. rewrite Hok. simpl negb. cbv iota.
    unfold ret at 1. unfold bind at 1, try_catch at 1.
    rewrite Hsmall. unfold throw.
    now rewrite Hpre, <- app_assoc.
  - rewrite forallb_app, Hno. reflexivity.
Qed.

End ClientFacts.

Lemma close_falls_back_to_short_witness :
  executeOrder Samples.instrument (ClientSamples.decision CLOSE "0")
               ClientSamples.live ClientSamples.accepting []
  = (Returned (Json.mk "0" "" [DataItem.mk (Some "long_short_mode") None]),
     [GET configPath; closeRequest Samples.instrument "long"]).
Proof.
  apply (@close_falls_back_to_short Samples.instrument
           (ClientSamples.decision CLOSE "0") ClientSamples.live
           ClientSamples.accepting []
           (Json.mk "0" "" [DataItem.mk (Some "long_short_mode") None])).
  - reflexivity.
  - reflexivity.
  - reflexivity.
  - reflexivity.
Defined.

(** C3 as the specification words it fails: when the exchange accepts the
    request to close the long side, no request to close the short side is
    ever sent. *)
Lemma close_skips_short_counterexample :
  let run := executeOrder Samples.instrument (ClientSamples.decision CLOSE "0")
                          ClientSamples.live ClientSamples.accepting [] in
  snd run = [GET configPath; closeRequest Samples.instrument "long"]
  /\ ~ In (closeRequest Samples.instrument "short") (snd run).
Proof.
  split; [reflexivity |].
  simpl. intros [H | [H | []]]; discriminate.
Qed.

Lemma small_size_rejected_before_order_witness :
  exists pre,
    executeOrder Samples.instrument (ClientSamples.decision BUY "0.001")
                 ClientSamples.live ClientSamples.accepting []
    = (Thrown "无效数量: 0.001",
       ([] ++ pre
        ++ [leverageRequest Samples.instrument
              (ClientSamples.decision BUY "0.001")])%list)
    /\ hd_error pre = Some (GET configPath)
    /\ forallb (fun r => negb (is_order_request r))
               (pre ++ [leverageRequest Samples.instrument
                          (ClientSamples.decision BUY "0.001")])%list
       = true.
Proof.
  apply (@small_size_rejected_before_order Samples.instrument
           (ClientSamples.decision BUY "0.001") ClientSamples.live
           ClientSamples.accepting []
           (Json.mk "0" "" [DataItem.mk (Some "long_short_mode") None])).
  - reflexivity.
  - left. reflexivity.
  - now vm_compute.
  - reflexivity.
  - reflexivity.
Defined.

(** C4 as the specification words it fails: a size below the minimum is
    rejected only after two requests have gone to the exchange. *)
Lemma small_size_rejected_after_requests_counterexample :
  let order := ClientSamples.decision BUY "0.001" in
  let run := executeOrder Samples.instrument order ClientSamples.live
                          ClientSamples.accepting [] in
  (JS.parseFloat (AIDecision.size order) <? JS.num 0.01)%js = true
  /\ fst run = Thrown "无效数量: 0.001"
  /\ snd run = [GET configPath; leverageRequest Samples.instrument order].
Proof. repeat split; now vm_compute. Qed.

(** A size that does not parse passes the size test ([NaN < 0.01] is
    false) and the order is placed with the size [NaN]. *)
Example unparsable_size_reaches_the_exchange :
  let order := ClientSamples.decision BUY "abc" in
  let run := executeOrder Samples.instrument order ClientSamples.live
                          ClientSamples.accepting [] in
  JS.parseFloat (AIDecision.size order) = JS.NaN
  /\ snd run
     = [GET configPath; leverageRequest Samples.instrument order;
        POST orderPath
             (OrderBody Samples.instrument "isolated" "buy" "long" "market"
                        "NaN" (Some ("97.95", "-1")))].
Proof. repeat split; now vm_compute. Qed.

(* ------------------------------------------------------------------ *)
(** * More on the indicator *)
(* ------------------------------------------------------------------ *)

Section IndicatorMore.

Lemma calcEMA_loop_nth (k prev : JS.number) (prices : list JS.number)
    (i : nat) :
  (i < List.length prices)%nat ->
  at_index (calcEMA_loop k prev prices) i
  = (at_index prices i * k
     + match i with
       | O => prev
       | S j => at_index (calcEMA_loop k prev prices) j
       end * (JS.num 1 - k))%js.
Proof.
  revert prev i. induction prices as [| p rest IH]; intros prev i Hi; simpl in Hi.
  - lia.
  - destruct i as [| i]; [reflexivity |].
    unfold at_index in *. simpl.
    rewrite IH by lia. destruct i; reflexivity.
Qed.

(** X1. [calcEMA] keeps the length of the series (an empty series gives an
    empty one), starts from the first price, and from index 1 on follows
    the recurrence [out[i] = prices[i] * k + out[i-1] * (1 - k)] with
    [k = 2 / (period + 1)]. *)
Theorem calcEMA_seed_and_recurrence (prices : list JS.number)
    (period : JS.number) :
  let out := calcEMA prices period in
  let k := smoothing period in
  List.length out = List.length prices
  /\ at_index out 0 = at_index prices 0
  /\ forall i, (0 < i < List.length prices)%nat ->
       at_index out i
       = (at_index prices i * k + at_index out (i - 1) * (JS.num 1 - k))%js.
Proof.
  intros out k. subst out k. split; [apply calcEMA_length |].
  unfold calcEMA, smoothing. destruct prices as [| p0 rest]; simpl.
  - split; [reflexivity | intros i Hi; lia].
  - split; [reflexivity |]. intros i Hi.
    destruct i as [| i]; [lia |].
    set (k := (JS.num 2 / (period + JS.num 1))%js).
    replace (S i - 1)%nat with i by lia.
    change (at_index (calcEMA_loop k p0 rest) i
            = (at_index rest i * k
               + at_index (p0 :: calcEMA_loop k p0 rest) i
                 * (JS.num 1 - k))%js).
    rewrite calcEMA_loop_nth by lia.
    destruct i as [| j]; reflexivity.
Qed.

End IndicatorMore.

(* ------------------------------------------------------------------ *)
(** * More on the crossover scan *)
(* ------------------------------------------------------------------ *)

Section ScanMore.

Lemma lt_asym (x y : JS.number) : JS.lt x y = true -> JS.lt y x = false.
Proof.
  destruct x, y; simpl; try congruence. intros H.
  apply (proj1 (JSFacts.lt_Fin _ _)) in H.
  apply (proj2 (JSFacts.lt_Fin_false _ _)). now apply Qclt_le_weak.
Qed.

(** The two kinds of crossing exclude each other. *)
Lemma golden_not_dead (fast slow : list JS.number) (i : nat) :
  golden_at fast slow i = true -> dead_at fast slow i = false.
Proof.
  unfold golden_at, dead_at, JS.gt. intros H.
  apply andb_true_iff in H. destruct H as [_ H].
  now rewrite (lt_asym _ _ H), andb_false_r.
Qed.

(** The event the scan pushes at index [i]. *)
Lemma scan_step_spec (c3m : list CandleData.t)
    (cl fast slow : list JS.number) (crosses : list CrossEvent.t) (i : nat) :
  scan_step c3m cl fast slow crosses i
  = (crosses
     ++ if golden_at fast slow i
        then [CrossEvent.mk i GOLDEN (at_index cl i) (ts_at c3m i)]
        else if dead_at fast slow i
             then [CrossEvent.mk i DEAD (at_index cl i) (ts_at c3m i)]
             else [])%list.
Proof.
  unfold scan_step, golden_at, dead_at.
  destruct (_ && _); [reflexivity |].
  destruct (_ && _); [reflexivity | now rewrite app_nil_r].
Qed.

Lemma scan_fold_In (c3m : list CandleData.t) (cl fast slow : list JS.number)
    (n start : nat) (acc : list CrossEvent.t) (e : CrossEvent.t) :
  In e (fold_left (scan_step c3m cl fast slow) (seq start n) acc)
  <-> In e acc
      \/ exists i ty,
           (start <= i < start + n)%nat
           /\ e = CrossEvent.mk i ty (at_index cl i) (ts_at c3m i)
           /\ ((ty = GOLDEN /\ golden_at fast slow i = true)
               \/ (ty = DEAD /\ dead_at fast slow i = true)).
Proof.
  revert start acc. induction n as [| n IH]; intros start acc; simpl.
  - split; [now left | intros [H | (i & ty & Hi & _)]; [exact H | lia]].
  - rewrite IH, scan_step_spec, in_app_iff. split.
    + intros [[H | H] | (i & ty & Hi & He & Hty)].
      * now left.
      * right. exists start.
        destruct (golden_at fast slow start) eqn:G.
        -- exists GOLDEN. destruct H as [<- | []].
           repeat split; [lia | lia | now left].
        -- destruct (dead_at fast slow start) eqn:D; [| contradiction].
           exists DEAD. destruct H as [<- | []].
           repeat split; [lia | lia | now right].
      * right. exists i, ty. repeat split; [lia | lia | exact He | exact Hty].
    + intros [H | (i & ty & Hi & He & Hty)]; [now left; left |].
      destruct (Nat.eq_dec i start) as [-> | Hne].
      * left. right. subst e.
        destruct Hty as [[-> G] | [-> D]].
        -- rewrite G. now left.
        -- destruct (golden_at fast slow start) eqn:G.
           ++ apply golden_not_dead in G. congruence.
           ++ rewrite D. now left.
      * right. exists i, ty. repeat split; [lia | lia | exact He | exact Hty].
Qed.

(** X3. The scan reports exactly the crossings of the window: an event is
    listed if and only if its index lies among the last 50 candles (never
    index 0), it records the close and the time stamp of that candle, and
    the 15-period EMA of the 3m closes crosses the 60-period EMA there,
    upward for GOLDEN and downward for DEAD. *)
Theorem scan_reports_exactly_the_crossings (c3m : list CandleData.t)
    (e : CrossEvent.t) :
  In e (scanCrosses c3m)
  <-> (scanStart c3m <= CrossEvent.index e < List.length c3m)%nat
      /\ CrossEvent.price e = at_index (closes c3m) (CrossEvent.index e)
      /\ CrossEvent.ts e = ts_at c3m (CrossEvent.index e)
      /\ ((CrossEvent.type e = GOLDEN
           /\ golden_at (fast3m c3m) (slow3m c3m) (CrossEvent.index e) = true)
          \/ (CrossEvent.type e = DEAD
              /\ dead_at (fast3m c3m) (slow3m c3m) (CrossEvent.index e)
                 = true)).
Proof.
  unfold scanCrosses, scanStart, fast3m, slow3m. rewrite scan_fold_In.
  set (start := Nat.max 1 (List.length c3m - 50)). split.
  - intros [[] | (i & ty & Hi & -> & Hty)]. simpl.
    repeat split; try reflexivity; [lia | subst start; lia | exact Hty].
  - intros (Hi & Hp & Ht & Hty). right.
    exists (CrossEvent.index e), (CrossEvent.type e).
    split; [subst start; lia |]. split; [| exact Hty].
    destruct e as [i ty pr t]. simpl in *. now subst.
Qed.

Lemma scan_fold_length (c3m : list CandleData.t)
    (cl fast slow : list JS.number) (n start : nat)
    (acc : list CrossEvent.t) :
  (List.length (fold_left (scan_step c3m cl fast slow) (seq start n) acc)
   <= List.length acc + n)%nat.
Proof.
  revert start acc. induction n as [| n IH]; intros start acc; simpl.
  - lia.
  - eapply Nat.le_trans; [apply IH |].
    rewrite scan_step_spec, length_app.
    destruct (golden_at fast slow start); [simpl; lia |].
    destruct (dead_at fast slow start); simpl; lia.
Qed.

Lemma scan_fold_sorted (c3m : list CandleData.t)
    (cl fast slow : list JS.number) (n start : nat)
    (acc : list CrossEvent.t) :
  Forall (fun e => (CrossEvent.index e < start)%nat) acc ->
  StronglySorted (fun a b => (CrossEvent.index a < CrossEvent.index b)%nat)
                 acc ->
  StronglySorted (fun a b => (CrossEvent.index a < CrossEvent.index b)%nat)
    (fold_left (scan_step c3m cl fast slow) (seq start n) acc).
Proof.
  revert start acc. induction n as [| n IH]; intros start acc Hb Hs; simpl.
  - exact Hs.
  - assert (Snoc : forall e, CrossEvent.index e = start ->
               Forall (fun e' => (CrossEvent.index e' < S start)%nat)
                      (acc ++ [e])
               /\ StronglySorted
                    (fun a b => (CrossEvent.index a < CrossEvent.index b)%nat)
                    (acc ++ [e])).
    { intros e He. split.
      - apply Forall_app. split.
        + eapply Forall_impl; [| exact Hb]. simpl. intros; lia.
        + constructor; [lia | constructor].
      - clear IH. induction Hs as [| a l Hs IHs Ha]; simpl.
        + constructor; constructor.
        + inversion Hb; subst. constructor; [now apply IHs |].
          apply Forall_app. split; [exact Ha |].
          constructor; [lia | constructor]. }
    apply IH; rewrite scan_step_spec.
    + destruct (golden_at fast slow start); [now apply Snoc |].
      destruct (dead_at fast slow start); [now apply Snoc |].
      rewrite app_nil_r. eapply Forall_impl; [| exact Hb]. simpl. intros; lia.
    + destruct (golden_at fast slow start); [now apply Snoc |].
      destruct (dead_at fast slow start); [now apply Snoc |].
      now rewrite app_nil_r.
Qed.

(** X4. The scan lists its events in chronological order, each candle at
    most once, and never more than 50 of them (none for a series of fewer
    than 2 candles). *)
Theorem scan_is_chronological_and_bounded (c3m : list CandleData.t) :
  StronglySorted (fun a b => (CrossEvent.index a < CrossEvent.index b)%nat)
                 (scanCrosses c3m)
  /\ (List.length (scanCrosses c3m)
      <= Nat.min 50 (List.length c3m - 1))%nat.
Proof.
  unfold scanCrosses. split.
  - apply scan_fold_sorted; constructor.
  - eapply Nat.le_trans; [apply scan_fold_length |].
    change (List.length (@nil CrossEvent.t)) with 0%nat. lia.
Qed.

End ScanMore.

(* ------------------------------------------------------------------ *)
(** * The stop of a short entry: highest high of the span *)
(* ------------------------------------------------------------------ *)

Section HighestHigh.

Lemma positive_double_inv (x : JS.number) :
  positive_double x = true ->
  exists q, x = JS.Fin q /\ finite_double x = true
            /\ (this (Q2Qc (1 # Pos.pow 2 1074)) <= this q)%Q.
Proof.
  unfold positive_double. intros H. apply andb_true_iff in H.
  destruct H as [Hf Hp]. destruct (finite_double_inv _ Hf) as (q & -> & _).
  exists q. repeat split; [exact Hf |]. now apply le_Fin in Hp.
Qed.

Lemma maxHigh_between_fold (highs3m : list JS.number) (from to : nat) :
  maxHigh_between highs3m from to
  = fold_left keep_higher (map (at_index highs3m) (seq from (to + 1 - from)))
              JS.Number_MIN_VALUE.
Proof.
  unfold maxHigh_between. generalize JS.Number_MIN_VALUE.
  induction (seq from (to + 1 - from)) as [| i idxs IH]; intros m; simpl.
  - reflexivity.
  - apply IH.
Qed.

Lemma keep_higher_max2 (xs : list JS.number) (m : Qc) :
  forallb finite_double xs = true ->
  fold_left keep_higher xs (JS.Fin m) = fold_left JS.max2 xs (JS.Fin m).
Proof.
  revert m. induction xs as [| x rest IH]; intros m H; cbn [fold_left].
  - reflexivity.
  - simpl in H. apply andb_true_iff in H. destruct H as [Hx Hrest].
    destruct (finite_double_inv _ Hx) as (q & -> & _).
    unfold keep_higher at 2, JS.gt.
    change (JS.max2 (JS.Fin m) (JS.Fin q))
      with (if JS.lt (JS.Fin m) (JS.Fin q) then JS.Fin q else JS.Fin m).
    destruct (JS.lt (JS.Fin m) (JS.Fin q)); now apply IH.
Qed.

Lemma positive_all_finite (xs : list JS.number) :
  forallb positive_double xs = true -> forallb finite_double xs = true.
Proof.
  rewrite !forallb_forall. intros H x Hx. specialize (H x Hx).
  unfold positive_double in H. now apply andb_true_iff in H.
Qed.

(** On positive numbers a double can hold, the loop started at
    [Number.MIN_VALUE] computes [Math.max] of the values it visits. *)
Lemma keep_higher_is_Math_max (xs : list JS.number) :
  xs <> [] ->
  forallb positive_double xs = true ->
  fold_left keep_higher xs JS.Number_MIN_VALUE = JS.Math_max xs.
Proof.
  intros Hne H. pose proof (positive_all_finite _ H) as Hfin.
  destruct xs as [| x rest]; [contradiction |].
  simpl in H, Hfin. apply andb_true_iff in H. destruct H as [Hx _].
  apply andb_true_iff in Hfin. destruct Hfin as [_ Hrest].
  destruct (positive_double_inv _ Hx) as (q & -> & _ & Hq).
  unfold JS.Math_max. simpl fold_left.
  assert (E : keep_higher JS.Number_MIN_VALUE (JS.Fin q) = JS.Fin q).
  { unfold keep_higher, JS.Number_MIN_VALUE, JS.gt.
    destruct (JS.lt (JS.Fin (Q2Qc (1 # Pos.pow 2 1074))) (JS.Fin q)) eqn:L;
      [reflexivity |].
    apply JSFacts.lt_Fin_false in L. f_equal. now apply Qcle_antisym. }
  rewrite E. now apply keep_higher_max2.
Qed.

Lemma maxHigh_between_is_Math_max (highs3m : list JS.number) (from to : nat) :
  (from <= to < List.length highs3m)%nat ->
  forallb positive_double (slice highs3m from (to + 1)) = true ->
  maxHigh_between highs3m from to = JS.Math_max (slice highs3m from (to + 1)).
Proof.
  intros Hrange Hpos. rewrite maxHigh_between_fold.
  rewrite map_at_index_seq by lia. fold (slice highs3m from (to + 1)).
  apply keep_higher_is_Math_max; [| exact Hpos].
  unfold slice. intros E.
  assert (L : List.length (firstn (to + 1 - from) (skipn from highs3m)) = 0%nat)
    by now rewrite E.
  rewrite length_firstn, length_skipn in L. lia.
Qed.

End HighestHigh.

(* ------------------------------------------------------------------ *)
(** * More on the strategy *)
(* ------------------------------------------------------------------ *)

Section StrategyMore.

Variable INSTRUMENT_ID : string.

Lemma last_two_inv (crosses : list CrossEvent.t) (x y : CrossEvent.t) :
  last_two crosses = Some (x, y) ->
  exists front, crosses = (front ++ [x; y])%list.
Proof.
  unfold last_two. intros H.
  destruct (rev crosses) as [| l [| p t]] eqn:E; try discriminate.
  injection H as <- <-. exists (rev t).
  rewrite <- (rev_involutive crosses), E. simpl.
  now rewrite <- app_assoc.
Qed.

Lemma scan_pair_in_range (c3m : list CandleData.t)
    (front : list CrossEvent.t) (x y : CrossEvent.t) :
  (60 <= List.length c3m)%nat ->
  scanCrosses c3m = (front ++ [x; y])%list ->
  (CrossEvent.index x <= CrossEvent.index y < List.length c3m)%nat.
Proof.
  intros Hlen Hscan.
  destruct (scanCrosses_increasing c3m) as [Hall Hinc].
  rewrite Hscan in Hall. specialize (Hinc _ _ _ Hscan).
  apply Forall_app in Hall. destruct Hall as [_ Hall].
  inversion Hall as [| ? ? _ Hl]; subst. inversion Hl as [| ? ? Hb _]; subst.
  lia.
Qed.

(** X5. With at least 60 candles on both series, no position on the
    tracked instrument, a down-trend on the 1H chart and a scan of the 3m
    chart whose last two events are a GOLDEN cross followed by a DEAD
    cross, the latter within 2 candles of the end, the strategy returns
    [SELL] with the stop at the maximum of the 3m highs over the indices
    [prev.index .. last.index], times 1.0005.  The highs of that span are
    taken to be positive numbers a double can hold. *)
Theorem sell_on_golden_then_dead (marketData : MarketDataCollection.t)
    (accountData : AccountContext.t)
    (front : list CrossEvent.t) (prevCross lastCross : CrossEvent.t) :
  let c1h := MarketDataCollection.candles1H marketData in
  let c3m := MarketDataCollection.candles3m marketData in
  let span :=
    slice (highs c3m) (CrossEvent.index prevCross)
          (CrossEvent.index lastCross + 1) in
  (60 <= List.length c1h)%nat ->
  (60 <= List.length c3m)%nat ->
  primaryPosition INSTRUMENT_ID accountData = None ->
  trend1H c1h = false ->
  scanCrosses c3m = (front ++ [prevCross; lastCross])%list ->
  CrossEvent.type prevCross = GOLDEN ->
  CrossEvent.type lastCross = DEAD ->
  fresh c3m lastCross ->
  forallb positive_double span = true ->
  Analysis.action (analyzeStrategy INSTRUMENT_ID marketData accountData)
  = SELL
  /\ Analysis.sl (analyzeStrategy INSTRUMENT_ID marketData accountData)
     = (JS.Math_max span * JS.num 1.0005)%js.
Proof.
  intros c1h c3m span H1 H3 Hpos Hdown Hscan Hprev Hlast Hfresh Hfin.
  subst c1h c3m span.
  pose proof (@scan_pair_in_range _ _ _ _ H3 Hscan) as Hidx.
  unfold analyzeStrategy.
  rewrite (enough_candles _ H1 H3), Hpos, Hdown, Hscan, last_two_snoc2.
  apply Z.leb_le in Hfresh. rewrite Hfresh, Hprev, Hlast. simpl.
  split; [reflexivity |].
  rewrite (@maxHigh_between_is_Math_max
             (highs (MarketDataCollection.candles3m marketData))
             (CrossEvent.index prevCross) (CrossEvent.index lastCross));
    [reflexivity | unfold highs; rewrite length_map; exact Hidx | exact Hfin].
Qed.

(** X6. The strategy enters only on a fresh two-event pattern with the
    trend: a [BUY] or [SELL] result means that both series have at least
    60 candles, that no position on the tracked instrument is open, that
    the scan ends with two events of which the last is within 2 candles of
    the end, and that either the trend is up, the events are DEAD then
    GOLDEN and the stop is the loop's lowest low times 0.9995 ([BUY]), or
    the trend is down, the events are GOLDEN then DEAD and the stop is the
    loop's highest high times 1.0005 ([SELL]). *)
Theorem entry_only_on_fresh_pattern (marketData : MarketDataCollection.t)
    (accountData : AccountContext.t) :
  let c1h := MarketDataCollection.candles1H marketData in
  let c3m := MarketDataCollection.candles3m marketData in
  let r := analyzeStrategy INSTRUMENT_ID marketData accountData in
  Analysis.action r = BUY \/ Analysis.action r = SELL ->
  (60 <= List.length c1h)%nat
  /\ (60 <= List.length c3m)%nat
  /\ primaryPosition INSTRUMENT_ID accountData = None
  /\ exists front prevCross lastCross,
       scanCrosses c3m = (front ++ [prevCross; lastCross])%list
       /\ fresh c3m lastCross
       /\ ((Analysis.action r = BUY
            /\ trend1H c1h = true
            /\ CrossEvent.type prevCross = DEAD
            /\ CrossEvent.type lastCross = GOLDEN
            /\ Analysis.sl r
               = (minLow_between (lows c3m) (CrossEvent.index prevCross)
                                 (CrossEvent.index lastCross)
                  * JS.num 0.9995)%js)
           \/ (Analysis.action r = SELL
               /\ trend1H c1h = false
               /\ CrossEvent.type prevCross = GOLDEN
               /\ CrossEvent.type lastCross = DEAD
               /\ Analysis.sl r
                  = (maxHigh_between (highs c3m) (CrossEvent.index prevCross)
                                     (CrossEvent.index lastCross)
                     * JS.num 1.0005)%js)).
Proof.
  intros c1h c3m r. subst c1h c3m r. unfold analyzeStrategy, fresh.
  destruct (_ || _) eqn:Hlen; [intros [H | H]; discriminate |].
  apply orb_false_iff in Hlen. destruct Hlen as [H1 H3].
  apply Nat.ltb_ge in H1. apply Nat.ltb_ge in H3.
  destruct (primaryPosition INSTRUMENT_ID accountData) as [p |] eqn:Hp.
  - destruct (trend1H _), (PositionData.posSide p);
      intros [H | H]; discriminate.
  - destruct (last_two _) as [[prevCross lastCross] |] eqn:Hl;
      [| intros [H | H]; discriminate].
    destruct (@last_two_inv _ _ _ Hl) as [front Hscan].
    destruct (_ <=? 2)%Z eqn:Hf; [| intros [H | H]; discriminate].
    apply Z.leb_le in Hf.
    destruct (trend1H _) eqn:Ht;
      destruct (CrossEvent.type prevCross) eqn:Tp;
      destruct (CrossEvent.type lastCross) eqn:Tl;
      intros [H | H]; try discriminate;
      (repeat split; [exact H1 | exact H3 |]);
      exists front, prevCross, lastCross;
      (split; [exact Hscan |]); (split; [exact Hf |]).
    + left. now repeat split.
    + right. now repeat split.
Qed.

(** X7. The strategy returns [CLOSE] exactly on a trend reversal: both
    series have at least 60 candles and the position found for the
    tracked instrument is short in an up-trend or long in a down-trend. *)
Theorem close_exactly_on_reversal (marketData : MarketDataCollection.t)
    (accountData : AccountContext.t) :
  let c1h := MarketDataCollection.candles1H marketData in
  let c3m := MarketDataCollection.candles3m marketData in
  Analysis.action (analyzeStrategy INSTRUMENT_ID marketData accountData)
  = CLOSE
  <-> (60 <= List.length c1h)%nat
      /\ (60 <= List.length c3m)%nat
      /\ exists p, primaryPosition INSTRUMENT_ID accountData = Some p
                   /\ contradicts (PositionData.posSide p) (trend1H c1h).
Proof.
  intros c1h c3m. subst c1h c3m. unfold analyzeStrategy, contradicts. split.
  - destruct (_ || _) eqn:Hlen; [discriminate |].
    apply orb_false_iff in Hlen. destruct Hlen as [H1 H3].
    apply Nat.ltb_ge in H1. apply Nat.ltb_ge in H3.
    destruct (primaryPosition INSTRUMENT_ID accountData) as [p |] eqn:Hp.
    + destruct (trend1H _) eqn:Ht, (PositionData.posSide p) eqn:Hs;
        intros H; try discriminate;
        (repeat split; [exact H1 | exact H3 |]); exists p; rewrite Hs; tauto.
    + destruct (last_two _) as [[prevCross lastCross] |];
        [| discriminate].
      destruct (_ <=? 2)%Z; [| discriminate].
      destruct (trend1H _), (CrossEvent.type prevCross),
        (CrossEvent.type lastCross); discriminate.
  - intros (H1 & H3 & p & Hp & Hc).
    rewrite (enough_candles _ H1 H3), Hp.
    destruct Hc as [[-> ->] | [-> ->]]; reflexivity.
Qed.

(** X8. While a position on the tracked instrument is open the strategy
    never enters: it answers [HOLD] or [CLOSE], with stop 0. *)
Theorem open_position_blocks_entry (marketData : MarketDataCollection.t)
    (accountData : AccountContext.t) (p : PositionData.t) :
  primaryPosition INSTRUMENT_ID accountData = Some p ->
  let r := analyzeStrategy INSTRUMENT_ID marketData accountData in
  (Analysis.action r = HOLD \/ Analysis.action r = CLOSE)
  /\ Analysis.sl r = JS.num 0.
Proof.
  intros Hp r. subst r. unfold analyzeStrategy. rewrite Hp.
  destruct (_ || _); [split; [now left | reflexivity] |].
  destruct (trend1H _), (PositionData.posSide p); simpl;
    (split; [tauto | reflexivity]).
Qed.

End StrategyMore.

Lemma sell_on_golden_then_dead_witness :
  let r := analyzeStrategy Samples.instrument
             (Samples.market Samples.falling_c1h MoreSamples.rebound_c3m)
             Samples.flat_account in
  Analysis.action r = SELL
  /\ Analysis.sl r
     = (JS.Math_max (slice (highs MoreSamples.rebound_c3m) 57 59)
        * JS.num 1.0005)%js.
Proof.
  apply (@sell_on_golden_then_dead Samples.instrument
           (Samples.market Samples.falling_c1h MoreSamples.rebound_c3m)
           Samples.flat_account [] MoreSamples.golden_at_57
           MoreSamples.dead_at_58).
  - simpl. lia.
  - simpl. lia.
  - reflexivity.
  - now vm_compute.
  - now vm_compute.
  - reflexivity.
  - reflexivity.
  - unfold fresh. simpl. lia.
  - now vm_compute.
Defined.

(** The sample evaluated: the stop is 101 * 1.0005 = 101.0505. *)
Example sample_sell_analysis :
  let r := analyzeStrategy Samples.instrument
             (Samples.market Samples.falling_c1h MoreSamples.rebound_c3m)
             Samples.flat_account in
  Analysis.action r = SELL /\ Analysis.sl r = JS.num 101.0505.
Proof. split; [now vm_compute | js_eq]. Qed.

Lemma entry_only_on_fresh_pattern_witness :
  primaryPosition Samples.instrument Samples.flat_account = None
  /\ exists front prevCross lastCross,
       scanCrosses
         (MarketDataCollection.candles3m
            (Samples.market Samples.rising_c1h Samples.pullback_c3m))
       = (front ++ [prevCross; lastCross])%list
       /\ fresh (MarketDataCollection.candles3m
                   (Samples.market Samples.rising_c1h Samples.pullback_c3m))
                lastCross.
Proof.
  destruct (@entry_only_on_fresh_pattern Samples.instrument
              (Samples.market Samples.rising_c1h Samples.pullback_c3m)
              Samples.flat_account)
    as (_ & _ & Hflat & front & p & l & Hscan & Hfresh & _).
  - left. now vm_compute.
  - split; [exact Hflat |]. exists front, p, l. split; [exact Hscan | exact Hfresh].
Defined.

Lemma open_position_blocks_entry_witness :
  let r := analyzeStrategy Samples.instrument
             (Samples.market Samples.rising_c1h Samples.pullback_c3m)
             (Samples.account_with (Samples.position long "100" "0" None)) in
  (Analysis.action r = HOLD \/ Analysis.action r = CLOSE)
  /\ Analysis.sl r = JS.num 0.
Proof.
  apply (@open_position_blocks_entry Samples.instrument
           (Samples.market Samples.rising_c1h Samples.pullback_c3m)
           (Samples.account_with (Samples.position long "100" "0" None))
           (Samples.position long "100" "0" None)).
  reflexivity.
Defined.

(* ------------------------------------------------------------------ *)
(** * More on the position manager *)
(* ------------------------------------------------------------------ *)

Section PositionManagerMore.

(** X9. What a proposal is, before rounding.  Whatever the manager
    proposes is the two-decimal text of a positive number [newSL] that
    differs from the current stop by more than 0.05% of entry.  For a
    long position [newSL] is above the current stop and is either the
    entry price (breakeven) or the trailing stop strictly between entry
    and mark; for a short position it is below the current stop (or there
    is none) and is either the entry price or the trailing stop strictly
    between mark and entry.  A position of side [net] gets no proposal.
    The comparisons are those of the code, and they are made on [newSL]:
    nothing is said of the text that is emitted, which is [newSL]
    rounded to two decimals and can lie on the other side of the current
    stop. *)
Theorem proposal_before_rounding (pos : PositionData.t)
    (c3m : list CandleData.t) (m : Management.t) :
  calculateManagement (Some pos) c3m = Some m ->
  exists newSL,
    Management.sl m = JS.toFixed newSL 2
    /\ (newSL >? JS.num 0)%js = true
    /\ (JS.Math_abs (newSL - currentSL pos)
          >? entryPx pos * JS.num 0.0005)%js = true
    /\ ((PositionData.posSide pos = long
         /\ (currentSL pos <? newSL)%js = true
         /\ ((newSL = entryPx pos /\ Management.reason m = breakevenReason)
             \/ (newSL = (recentLow c3m * JS.num 0.9995)%js
                 /\ Management.reason m = trailLowReason
                 /\ (entryPx pos <? newSL)%js = true
                 /\ (newSL <? markPx pos)%js = true)))
        \/ (PositionData.posSide pos = short
            /\ ((newSL <? currentSL pos)%js = true
                \/ (currentSL pos === JS.num 0)%js = true)
            /\ ((newSL = entryPx pos /\ Management.reason m = breakevenReason)
                \/ (newSL = (recentHigh c3m * JS.num 1.0005)%js
                    /\ Management.reason m = trailHighReason
                    /\ (newSL <? entryPx pos)%js = true
                    /\ (markPx pos <? newSL)%js = true)))).
Proof.
  unfold calculateManagement.
  destruct (PositionData.posSide pos) eqn:Hside.
  - (* long *)
    destruct ((markPx pos >? entryPx pos + entryPx pos * JS.num 0.005)%js
              && (currentSL pos <? entryPx pos)%js) eqn:B.
    + apply andb_true_iff in B. destruct B as [_ Hsl].
      destruct ((_ >? JS.num 0)%js && _) eqn:F; [| intros H; discriminate].
      apply andb_true_iff in F. destruct F as [F1 F2].
      intros H. injection H as <-. exists (entryPx pos). simpl.
      repeat split; try assumption. left. repeat split; try assumption.
      now left.
    + destruct ((recentLow c3m * JS.num 0.9995 >? currentSL pos)%js
                && (recentLow c3m * JS.num 0.9995 >? entryPx pos)%js
                && (recentLow c3m * JS.num 0.9995 <? markPx pos)%js) eqn:T.
      * apply andb_true_iff in T. destruct T as [T T3].
        apply andb_true_iff in T. destruct T as [T1 T2].
        destruct ((_ >? JS.num 0)%js && _) eqn:F; [| intros H; discriminate].
        apply andb_true_iff in F. destruct F as [F1 F2].
        intros H. injection H as <-.
        exists (recentLow c3m * JS.num 0.9995)%js. simpl.
        repeat split; try assumption. left. repeat split; try assumption.
        right. now repeat split.
      * assert (H0 : (JS.num 0 >? JS.num 0)%js = false) by now vm_compute.
        rewrite H0. intros H; discriminate.
  - (* short *)
    destruct ((markPx pos <? entryPx pos - entryPx pos * JS.num 0.005)%js
              && ((currentSL pos >? entryPx pos)%js
                  || (currentSL pos === JS.num 0)%js)) eqn:B.
    + apply andb_true_iff in B. destruct B as [_ Hsl].
      apply orb_true_iff in Hsl.
      destruct ((_ >? JS.num 0)%js && _) eqn:F; [| intros H; discriminate].
      apply andb_true_iff in F. destruct F as [F1 F2].
      intros H. injection H as <-. exists (entryPx pos). simpl.
      repeat split; try assumption. right. repeat split; try assumption.
      now left.
    + destruct (((recentHigh c3m * JS.num 1.0005 <? currentSL pos)%js
                 || (currentSL pos === JS.num 0)%js)
                && (recentHigh c3m * JS.num 1.0005 <? entryPx pos)%js
                && (recentHigh c3m * JS.num 1.0005 >? markPx pos)%js) eqn:T.
      * apply andb_true_iff in T. destruct T as [T T3].
        apply andb_true_iff in T. destruct T as [T1 T2].
        apply orb_true_iff in T1.
        destruct ((_ >? JS.num 0)%js && _) eqn:F; [| intros H; discriminate].
        apply andb_true_iff in F. destruct F as [F1 F2].
        intros H. injection H as <-.
        exists (recentHigh c3m * JS.num 1.0005)%js. simpl.
        repeat split; try assumption. right. repeat split; try assumption.
        right. now repeat split.
      * assert (H0 : (JS.num 0 >? JS.num 0)%js = false) by now vm_compute.
        rewrite H0. intros H; discriminate.
  - (* net *)
    assert (H0 : (JS.num 0 >? JS.num 0)%js = false) by now vm_compute.
    rewrite H0. intros H; discriminate.
Qed.

Lemma lt_PosInf_l (y : JS.number) : JS.lt JS.PosInf y = false.
Proof. now destruct y. Qed.

Lemma gt_NegInf_l (y : JS.number) : JS.gt JS.NegInf y = false.
Proof. now destruct y. Qed.

(** X10. Without any 3m candle there is nothing to trail: [Math.min()] is
    [Infinity] and [Math.max()] is [-Infinity], so the only proposal the
    manager can make is the breakeven stop at the entry price. *)
Theorem no_candles_only_breakeven (pos : PositionData.t) (m : Management.t) :
  calculateManagement (Some pos) [] = Some m ->
  m = Management.mk (JS.toFixed (entryPx pos) 2) breakevenReason.
Proof.
  unfold calculateManagement.
  assert (Hlow : (recentLow [] * JS.num 0.9995)%js = JS.PosInf)
    by now vm_compute.
  assert (Hhigh : (recentHigh [] * JS.num 1.0005)%js = JS.NegInf)
    by now vm_compute.
  assert (H0 : (JS.num 0 >? JS.num 0)%js = false) by now vm_compute.
  rewrite Hlow, Hhigh.
  destruct (PositionData.posSide pos).
  - rewrite lt_PosInf_l, andb_false_r.
    destruct (_ && _).
    + destruct ((_ >? JS.num 0)%js && _); [| intros H; discriminate].
      now intros H; injection H as <-.
    + rewrite H0. intros H; discriminate.
  - rewrite gt_NegInf_l, andb_false_r.
    destruct (_ && _).
    + destruct ((_ >? JS.num 0)%js && _); [| intros H; discriminate].
      now intros H; injection H as <-.
    + rewrite H0. intros H; discriminate.
  - rewrite H0. intros H; discriminate.
Qed.

End PositionManagerMore.

Lemma proposal_before_rounding_witness :
  exists newSL,
    Management.sl (Management.mk "100.05" trailLowReason)
    = JS.toFixed newSL 2
    /\ (newSL >? JS.num 0)%js = true.
Proof.
  destruct (@proposal_before_rounding ManagementSamples.long_small_gain
              (ManagementSamples.recent "100.1")
              (Management.mk "100.05" trailLowReason))
    as (newSL & Hsl & Hpos & _).
  - now vm_compute.
  - exists newSL. split; [exact Hsl | exact Hpos].
Defined.

(** Rounding can undo the comparison: long from 1.0 with the stop at
    1.004 and the mark at 1.01; the trailing stop 1.0054 * 0.9995 is
    above the current stop, and the text proposed for it, "1.00", is
    below. *)
Example rounded_proposal_below_the_current_stop :
  let pos := Samples.position long "1.0" "0.01" (Some "1.004") in
  let c3m := ManagementSamples.recent "1.0054" in
  calculateManagement (Some pos) c3m
  = Some (Management.mk "1.00" trailLowReason)
  /\ (currentSL pos <? recentLow c3m * JS.num 0.9995)%js = true
  /\ (JS.parseFloat "1.00" <? currentSL pos)%js = true.
Proof. repeat split; now vm_compute. Qed.

Lemma no_candles_only_breakeven_witness :
  Management.mk "100.12" breakevenReason
  = Management.mk (JS.toFixed (entryPx ManagementSamples.long_in_profit) 2)
                  breakevenReason.
Proof.
  apply (@no_candles_only_breakeven ManagementSamples.long_in_profit
           (Management.mk "100.12" breakevenReason)).
  now vm_compute.
Defined.

(* ------------------------------------------------------------------ *)
(** * More on the aggregation *)
(* ------------------------------------------------------------------ *)

Section AggregationMore.

Variable INSTRUMENT_ID : string.

(** The strategy itself never answers [UPDATE_TPSL]. *)
Lemma analysis_never_updates (marketData : MarketDataCollection.t)
    (accountData : AccountContext.t) :
  Analysis.action (analyzeStrategy INSTRUMENT_ID marketData accountData)
  <> UPDATE_TPSL.
Proof.
  unfold analyzeStrategy.
  destruct (_ || _); [discriminate |].
  destruct (primaryPosition INSTRUMENT_ID accountData) as [p |].
  - destruct (trend1H _), (PositionData.posSide p); discriminate.
  - destruct (last_two _) as [[prevCross lastCross] |]; [| discriminate].
    destruct (_ <=? 2)%Z; [| discriminate].
    destruct (trend1H _), (CrossEvent.type prevCross),
      (CrossEvent.type lastCross); discriminate.
Qed.

(** X11. How the two engines are merged.  The decision is [UPDATE_TPSL]
    exactly when a position on the tracked instrument is open, the
    strategy answers [HOLD] and the position manager makes a proposal; the
    decision then carries the proposed stop and its rationale, with size
    "0".  In every other case the action and the rationale of the strategy
    pass through, and the stop is the strategy's stop written with two
    decimals when it is positive, "0" otherwise. *)
Theorem management_overrides_hold (apiKey : string)
    (marketData : MarketDataCollection.t) (accountData : AccountContext.t) :
  let a := analyzeStrategy INSTRUMENT_ID marketData accountData in
  let d := getTradingDecision INSTRUMENT_ID apiKey marketData accountData in
  let c3m := MarketDataCollection.candles3m marketData in
  (AIDecision.action d = UPDATE_TPSL
   <-> exists p m,
         primaryPosition INSTRUMENT_ID accountData = Some p
         /\ Analysis.action a = HOLD
         /\ calculateManagement (Some p) c3m = Some m)
  /\ (forall p m,
        primaryPosition INSTRUMENT_ID accountData = Some p ->
        Analysis.action a = HOLD ->
        calculateManagement (Some p) c3m = Some m ->
        TradingDecision.stop_loss (AIDecision.trading_decision d)
        = Management.sl m
        /\ AIDecision.reasoning d = Management.reason m
        /\ AIDecision.size d = "0")
  /\ (AIDecision.action d <> UPDATE_TPSL ->
      AIDecision.action d = Analysis.action a
      /\ AIDecision.reasoning d = Analysis.reason a
      /\ TradingDecision.stop_loss (AIDecision.trading_decision d)
         = if (Analysis.sl a >? JS.num 0)%js
           then JS.toFixed (Analysis.sl a) 2 else "0").
Proof.
  intros a d c3m. subst d c3m.
  pose proof (analysis_never_updates marketData accountData) as Hnever.
  fold a in Hnever. unfold getTradingDecision. fold a.
  destruct (primaryPosition INSTRUMENT_ID accountData) as [p |].
  - destruct (Action_eqb (Analysis.action a) HOLD) eqn:Hh.
    + assert (Ha : Analysis.action a = HOLD)
        by (destruct (Analysis.action a); (reflexivity || discriminate)).
      destruct (calculateManagement (Some p)
                  (MarketDataCollection.candles3m marketData)) as [m |] eqn:Hm.
      * split; [split | split].
        -- intros _. now exists p, m.
        -- reflexivity.
        -- intros p' m' Hp' _ Hm'. injection Hp' as <-.
           rewrite Hm in Hm'. injection Hm' as <-. now repeat split.
        -- intros H. now contradiction H.
      * split; [split | split].
        -- cbn. intros H. now contradiction Hnever.
        -- intros (p' & m' & Hp' & _ & Hm'). injection Hp' as <-.
           rewrite Hm in Hm'. discriminate.
        -- intros p' m' Hp' _ Hm'. injection Hp' as <-.
           rewrite Hm in Hm'. discriminate.
        -- intros _. now repeat split.
    + split; [split | split].
      * cbn. intros H. now contradiction Hnever.
      * intros (p' & m' & _ & Ha & _). rewrite Ha in Hh. discriminate.
      * intros p' m' _ Ha. rewrite Ha in Hh. discriminate.
      * intros _. now repeat split.
  - split; [split | split].
    + cbn. intros H. now contradiction Hnever.
    + intros (p' & m' & Hp' & _). discriminate.
    + intros p' m' Hp'. discriminate.
    + intros _. now repeat split.
Qed.

End AggregationMore.

(* ------------------------------------------------------------------ *)
(** * More on the sizer *)
(* ------------------------------------------------------------------ *)

Section SizingMore.

Variable INSTRUMENT_ID : string.


End SizingMore.


(** The decision of that witness: a [BUY] of size "0", which the
    execution client rejects as too small. *)
Example sample_zero_size_decision :
  let d := getTradingDecision Samples.instrument "key"
             (Samples.market Samples.rising_c1h Samples.pullback_c3m)
             (MoreSamples.account_of "0.50") in
  AIDecision.action d = BUY /\ AIDecision.size d = "0".
Proof. now vm_compute. Qed.

Section NoPyramiding.

Variable INSTRUMENT_ID : string.

(** X30. No entry on top of a position.  While a position on the tracked
    instrument is open, the decision is [HOLD], [CLOSE] or [UPDATE_TPSL],
    never [BUY] or [SELL], and the size it carries is "0" in both places
    where it is recorded. *)
Theorem decision_never_adds_to_a_position (apiKey : string)
    (marketData : MarketDataCollection.t) (accountData : AccountContext.t)
    (p : PositionData.t) :
  primaryPosition INSTRUMENT_ID accountData = Some p ->
  let d := getTradingDecision INSTRUMENT_ID apiKey marketData accountData in
  (AIDecision.action d = HOLD \/ AIDecision.action d = CLOSE
   \/ AIDecision.action d = UPDATE_TPSL)
  /\ AIDecision.size d = "0"
  /\ TradingDecision.position_size (AIDecision.trading_decision d) = "0".
Proof.
  intros Hp d. subst d.
  assert (Ha : Analysis.action
                 (analyzeStrategy INSTRUMENT_ID marketData accountData) = HOLD
               \/ Analysis.action
                    (analyzeStrategy INSTRUMENT_ID marketData accountData)
                  = CLOSE).
  { unfold analyzeStrategy. rewrite Hp.
    destruct (_ || _); [now left |].
    destruct (trend1H _), (PositionData.posSide p); simpl; tauto. }
  unfold getTradingDecision. rewrite Hp.
  destruct Ha as [Ha | Ha]; rewrite Ha; cbn [Action_eqb]; cbv iota.
  - destruct (calculateManagement (Some p) _) as [m |];
      cbn; tauto.
  - cbn. tauto.
Qed.

End NoPyramiding.

Lemma decision_never_adds_to_a_position_witness :
  let d := getTradingDecision Samples.instrument "key"
             (Samples.market Samples.rising_c1h Samples.pullback_c3m)
             (Samples.account_with ManagementSamples.long_in_profit) in
  (AIDecision.action d = HOLD \/ AIDecision.action d = CLOSE
   \/ AIDecision.action d = UPDATE_TPSL)
  /\ AIDecision.size d = "0"
  /\ TradingDecision.position_size (AIDecision.trading_decision d) = "0".
Proof.
  apply (@decision_never_adds_to_a_position Samples.instrument "key"
           (Samples.market Samples.rising_c1h Samples.pullback_c3m)
           (Samples.account_with ManagementSamples.long_in_profit)
           ManagementSamples.long_in_profit).
  reflexivity.
Defined.

(* ------------------------------------------------------------------ *)
(** * More on the execution client *)
(* ------------------------------------------------------------------ *)

Section ClientMore.

Variable INSTRUMENT_ID : string.

(** The three tests of [cleanPrice] come to one: the text parses to a
    number above zero. *)
Lemma cleanPrice_positive (p : string) :
  cleanPrice p
  = if (JS.parseFloat p >? JS.num 0)%js then Some p else None.
Proof.
  destruct p as [| c p]; [now vm_compute |].
  unfold cleanPrice.
  destruct (JS.parseFloat (String c p)); reflexivity.
Qed.

(** The entry branch up to the leverage request. *)
Lemma placeEntry_leverage (order : AIDecision.t) (config : AppConfig.t)
    (w : World.t) (trace : list Request) :
  AppConfig.isSimulation config = false ->
  let setLev := leverageRequest INSTRUMENT_ID order in
  failed (World.exchange w trace setLev) = true ->
  placeEntry INSTRUMENT_ID order config w trace
  = (Thrown ("无法设置杠杆: "
             ++ failure_text (leverageRefusal order)
                             (World.exchange w trace setLev)),
     (trace ++ [setLev])%list).
Proof.
  intros Hlive setLev Hfail.
  unfold placeEntry, bind at 1, try_catch at 1, setLeverage.
  rewrite Hlive. unfold bind at 1, fetch at 1.
  fold (leverageRequest INSTRUMENT_ID order). fold setLev.
  destruct (World.exchange w trace setLev) as [e | json]; [reflexivity |].
  simpl in Hfail. rewrite Hfail. reflexivity.
Qed.

Lemma placeEntry_order (order : AIDecision.t) (config : AppConfig.t)
    (w : World.t) (trace : list Request) :
  AppConfig.isSimulation config = false ->
  let setLev := leverageRequest INSTRUMENT_ID order in
  let req := entryOrderRequest INSTRUMENT_ID order in
  let sent := (trace ++ [setLev])%list in
  failed (World.exchange w trace setLev) = false ->
  (JS.parseFloat (AIDecision.size order) <? JS.num 0.01)%js = false ->
  placeEntry INSTRUMENT_ID order config w trace
  = (match World.exchange w sent req with
     | Rejected e => Thrown e
     | Resolved json =>
         if is_ok json then Returned json else Thrown (orderRefusal json)
     end, (sent ++ [req])%list).
Proof.
  intros Hlive setLev req sent Hok Hsize.
  unfold placeEntry, bind at 1, try_catch at 1, setLeverage.
  rewrite Hlive. unfold bind at 1, fetch at 1.
  fold (leverageRequest INSTRUMENT_ID order). fold setLev.
  destruct (World.exchange w trace setLev) as [e | jsonLev];
    [discriminate |].
  simpl in Hok. apply negb_false_iff in Hok. rewrite Hok.
  cbn [negb]. cbv iota. unfold ret at 1. fold sent.
  unfold bind at 1, try_catch at 1.
  rewrite Hsize. unfold ret at 1.
  rewrite cleanPrice_positive.
  unfold bind, fetch.
  replace (POST orderPath _) with req.
  - destruct (World.exchange w sent req) as [e | json]; [reflexivity |].
    destruct (is_ok json); reflexivity.
  - unfold req, entryOrderRequest.
    destruct (JS.gt _ _); reflexivity.
Qed.

(** X15. The order of an entry.  A live instruction other than [CLOSE]
    whose leverage request is accepted and whose size is not below 0.01
    sends, after the leverage request, exactly one order: a market order
    in isolated mode, buy/long for [BUY] and sell/short for every other
    action, the size written with two decimals, the stop attached exactly
    when it parses to a number above zero.  The result is the reply of the
    exchange when its code is "0"; a reply with another code is an error
    quoting its message and code, and a transport failure is thrown on. *)
Theorem entry_sends_one_order (order : AIDecision.t) (config : AppConfig.t)
    (w : World.t) (trace : list Request) :
  let setLev := leverageRequest INSTRUMENT_ID order in
  let req := entryOrderRequest INSTRUMENT_ID order in
  let sent := (after_pre_step config w trace ++ [setLev])%list in
  AppConfig.isSimulation config = false ->
  Action_eqb (AIDecision.action order) CLOSE = false ->
  failed (World.exchange w (after_pre_step config w trace) setLev) = false ->
  (JS.parseFloat (AIDecision.size order) <? JS.num 0.01)%js = false ->
  executeOrder INSTRUMENT_ID order config w trace
  = (match World.exchange w sent req with
     | Rejected e => Thrown e
     | Resolved json =>
         if is_ok json then Returned json else Thrown (orderRefusal json)
     end, (sent ++ [req])%list).
Proof.
  intros setLev req sent Hlive Hact Hok Hsize.
  rewrite (@executeOrder_entry INSTRUMENT_ID order config w trace Hlive Hact).
  now apply placeEntry_order.
Qed.

(** X16. A leverage that cannot be set stops the entry.  When the
    leverage request of a live instruction other than [CLOSE] fails (no
    reply, or a reply whose code is not "0"), the instruction fails with
    the leverage error and the leverage request is the last one sent: no
    order is placed. *)
Theorem leverage_failure_is_fatal (order : AIDecision.t)
    (config : AppConfig.t) (w : World.t) (trace : list Request) :
  let setLev := leverageRequest INSTRUMENT_ID order in
  let reply := World.exchange w (after_pre_step config w trace) setLev in
  AppConfig.isSimulation config = false ->
  Action_eqb (AIDecision.action order) CLOSE = false ->
  failed reply = true ->
  executeOrder INSTRUMENT_ID order config w trace
  = (Thrown ("无法设置杠杆: " ++ failure_text (leverageRefusal order) reply),
     (after_pre_step config w trace ++ [setLev])%list).
Proof.
  intros setLev reply Hlive Hact Hfail.
  rewrite (@executeOrder_entry INSTRUMENT_ID order config w trace Hlive Hact).
  now apply placeEntry_leverage.
Qed.

(** X17. A position mode that cannot be set does not stop the
    instruction.  When the pre-step of a live instruction throws, the
    error is dropped and the instruction goes on from the requests the
    pre-step has sent: with the close branch for [CLOSE], with the entry
    branch otherwise. *)
Theorem position_mode_failure_is_not_fatal (order : AIDecision.t)
    (config : AppConfig.t) (w : World.t) (trace trace' : list Request)
    (e : string) :
  AppConfig.isSimulation config = false ->
  ensureLongShortMode config w trace = (Thrown e, trace') ->
  executeOrder INSTRUMENT_ID order config w trace
  = if Action_eqb (AIDecision.action order) CLOSE
    then closeBothSides INSTRUMENT_ID w trace'
    else placeEntry INSTRUMENT_ID order config w trace'.
Proof.
  intros Hlive Hpre.
  assert (Hafter : after_pre_step config w trace = trace').
  { unfold after_pre_step, try_catch. now rewrite Hpre. }
  destruct (Action_eqb (AIDecision.action order) CLOSE) eqn:Hact.
  - rewrite executeOrder_close, Hafter; [reflexivity | exact Hlive |].
    destruct (AIDecision.action order); (reflexivity || discriminate).
  - now rewrite (@executeOrder_entry INSTRUMENT_ID order config w trace Hlive Hact),
      Hafter.
Qed.

(** X18. A [CLOSE] whose first request gets no reply gives up.  When the
    request to close the long side of a live [CLOSE] fails in transport,
    the instruction fails with that error and the short side is not
    asked for. *)
Theorem close_transport_failure_aborts (order : AIDecision.t)
    (config : AppConfig.t) (w : World.t) (trace : list Request)
    (e : string) :
  let closeLong := closeRequest INSTRUMENT_ID "long" in
  AppConfig.isSimulation config = false ->
  AIDecision.action order = CLOSE ->
  World.exchange w (after_pre_step config w trace) closeLong = Rejected e ->
  executeOrder INSTRUMENT_ID order config w trace
  = (Thrown e, (after_pre_step config w trace ++ [closeLong])%list).
Proof.
  intros closeLong Hlive Hact Hrej.
  rewrite (@executeOrder_close INSTRUMENT_ID order config w trace Hlive Hact).
  unfold closeBothSides, bind, fetch.
  fold (closeRequest INSTRUMENT_ID "long"). fold closeLong.
  now rewrite Hrej.
Qed.

Lemma is_ok_code (json : Json.t) : is_ok json = true -> Json.code json = "0".
Proof. unfold is_ok. apply String.eqb_eq. Qed.

(** The entry branch when the size is below the minimum. *)
Lemma placeEntry_small (order : AIDecision.t) (config : AppConfig.t)
    (w : World.t) (trace : list Request) :
  AppConfig.isSimulation config = false ->
  let setLev := leverageRequest INSTRUMENT_ID order in
  failed (World.exchange w trace setLev) = false ->
  (JS.parseFloat (AIDecision.size order) <? JS.num 0.01)%js = true ->
  placeEntry INSTRUMENT_ID order config w trace
  = (Thrown ("无效数量: " ++ AIDecision.size order),
     (trace ++ [setLev])%list).
Proof.
  intros Hlive setLev Hok Hsize.
  unfold placeEntry, bind at 1, try_catch at 1, setLeverage.
  rewrite Hlive. unfold bind at 1, fetch at 1.
  fold (leverageRequest INSTRUMENT_ID order). fold setLev.
  destruct (World.exchange w trace setLev) as [e | jsonLev];
    [discriminate |].
  simpl in Hok. apply negb_false_iff in Hok. rewrite Hok.
  cbn [negb]. cbv iota. unfold ret at 1.
  unfold bind at 1, try_catch at 1.
  rewrite Hsize. reflexivity.
Qed.

(** What the pre-step sends. *)
Lemma pre_step_shape (config : AppConfig.t) (w : World.t)
    (trace : list Request) :
  AppConfig.isSimulation config = false ->
  exists pre,
    after_pre_step config w trace = (trace ++ pre)%list
    /\ (pre = [GET configPath]
        \/ pre = [GET configPath;
                  POST setPositionModePath
                       (SetPositionModeBody "long_short_mode")]).
Proof.
  intros Hlive. unfold after_pre_step, try_catch, ensureLongShortMode.
  rewrite Hlive. unfold bind, fetch.
  destruct (World.exchange w trace (GET configPath)) as [e | json];
    [exists [GET configPath]; split; [reflexivity | now left] |].
  destruct (is_ok json);
    [| exists [GET configPath]; split; [reflexivity | now left]].
  destruct (Json.data json) as [| d0 rest];
    [exists [GET configPath]; split; [reflexivity | now left] |].
  destruct (negb _);
    [| exists [GET configPath]; split; [reflexivity | now left]].
  exists [GET configPath;
          POST setPositionModePath (SetPositionModeBody "long_short_mode")].
  destruct (World.exchange w _ _) as [e | setJson];
    [| destruct (negb (is_ok setJson))];
    (split; [simpl; now rewrite <- app_assoc | now right]).
Qed.

(** What the close branch sends, and what it returns. *)
Lemma closeBothSides_run (w : World.t) (trace : list Request) :
  let run := closeBothSides INSTRUMENT_ID w trace in
  (snd run = (trace ++ [closeRequest INSTRUMENT_ID "long"])%list
   \/ snd run = (trace ++ [closeRequest INSTRUMENT_ID "long";
                           closeRequest INSTRUMENT_ID "short"])%list)
  /\ (forall json, fst run = Returned json -> Json.code json = "0").
Proof.
  unfold closeBothSides, bind, fetch.
  fold (closeRequest INSTRUMENT_ID "long").
  fold (closeRequest INSTRUMENT_ID "short").
  destruct (World.exchange w trace _) as [e | jsonLong];
    [split; [now left | intros json H; discriminate] |].
  destruct (is_ok jsonLong) eqn:HL.
  - split; [now left |]. intros json H. injection H as <-.
    now apply is_ok_code.
  - destruct (World.exchange w _ _) as [e | jsonShort].
    + split; [right; simpl; now rewrite <- app_assoc |].
      intros json H; discriminate.
    + destruct (is_ok jsonShort) eqn:HS.
      * split; [right; simpl; now rewrite <- app_assoc |].
        intros json H. injection H as <-. now apply is_ok_code.
      * split; [right; simpl; now rewrite <- app_assoc |].
        intros json H; discriminate.
Qed.

(** What the entry branch sends, and what it returns. *)
Lemma placeEntry_run (order : AIDecision.t) (config : AppConfig.t)
    (w : World.t) (trace : list Request) :
  AppConfig.isSimulation config = false ->
  let run := placeEntry INSTRUMENT_ID order config w trace in
  (snd run = (trace ++ [leverageRequest INSTRUMENT_ID order])%list
   \/ snd run = (trace ++ [leverageRequest INSTRUMENT_ID order;
                           entryOrderRequest INSTRUMENT_ID order])%list)
  /\ (forall json, fst run = Returned json -> Json.code json = "0").
Proof.
  intros Hlive run. subst run.
  destruct (failed (World.exchange w trace
                      (leverageRequest INSTRUMENT_ID order))) eqn:Hlev.
  - rewrite (@placeEntry_leverage order config w trace Hlive Hlev).
    split; [now left | intros json H; discriminate].
  - destruct (JS.parseFloat (AIDecision.size order) <? JS.num 0.01)%js
      eqn:Hsize.
    + rewrite (@placeEntry_small order config w trace Hlive Hlev Hsize).
      split; [now left | intros json H; discriminate].
    + rewrite (@placeEntry_order order config w trace Hlive Hlev Hsize).
      split; [right; simpl; now rewrite <- app_assoc |].
      simpl fst.
      destruct (World.exchange w (_ ++ _)%list _) as [e | json'];
        [intros json H; discriminate |].
      destruct (is_ok json') eqn:Hok; intros json H; [| discriminate].
      injection H as <-. now apply is_ok_code.
Qed.

(** X19. What [executeOrder] returns.  Whatever the instruction, the
    configuration and the exchange, a run that returns (and does not
    throw) returns a reply whose code is "0". *)
Theorem executeOrder_returns_only_accepted (order : AIDecision.t)
    (config : AppConfig.t) (w : World.t) (trace trace' : list Request)
    (json : Json.t) :
  executeOrder INSTRUMENT_ID order config w trace = (Returned json, trace') ->
  Json.code json = "0".
Proof.
  destruct (AppConfig.isSimulation config) eqn:Hsim.
  - unfold executeOrder. rewrite Hsim. unfold bind, Date_now, ret.
    intros H. inversion H. reflexivity.
  - destruct (Action_eqb (AIDecision.action order) CLOSE) eqn:Hact.
    + rewrite executeOrder_close;
        [| exact Hsim
         | destruct (AIDecision.action order);
           (reflexivity || discriminate)].
      intros H.
      apply (proj2 (closeBothSides_run w (after_pre_step config w trace))).
      now rewrite H.
    + rewrite (@executeOrder_entry INSTRUMENT_ID order config w trace
                 Hsim Hact).
      intros H.
      apply (proj2 (@placeEntry_run order config w
                      (after_pre_step config w trace) Hsim)).
      now rewrite H.
Qed.

(** X20. The requests of a run.  In simulation nothing is sent.  A live
    run first reads the account configuration; a [CLOSE] then sends
    requests to close a position, never a leverage request or an order;
    every other instruction sends no request to close a position and at
    most one order. *)
Theorem requests_follow_the_action (order : AIDecision.t)
    (config : AppConfig.t) (w : World.t) (trace : list Request) :
  exists sent,
    snd (executeOrder INSTRUMENT_ID order config w trace)
    = (trace ++ sent)%list
    /\ if AppConfig.isSimulation config then sent = []
       else
         hd_error sent = Some (GET configPath)
         /\ if Action_eqb (AIDecision.action order) CLOSE
            then forallb (fun r => negb (is_leverage_request r)
                                   && negb (is_order_request r)) sent
                 = true
            else forallb (fun r => negb (is_close_request r)) sent = true
                 /\ (List.length (filter is_order_request sent) <= 1)%nat.
Proof.
  destruct (AppConfig.isSimulation config) eqn:Hsim.
  - exists []. unfold executeOrder. rewrite Hsim.
    split; [simpl; now rewrite app_nil_r | reflexivity].
  - destruct (pre_step_shape config w trace Hsim) as (pre & Hpre & Hshape).
    destruct (Action_eqb (AIDecision.action order) CLOSE) eqn:Hact.
    + rewrite executeOrder_close;
        [| exact Hsim
         | destruct (AIDecision.action order);
           (reflexivity || discriminate)].
      destruct (proj1 (closeBothSides_run w (after_pre_step config w trace)))
        as [H | H]; rewrite H, Hpre, <- app_assoc;
        eexists; (split; [reflexivity |]);
        destruct Hshape as [-> | ->]; now split.
    + rewrite (@executeOrder_entry INSTRUMENT_ID order config w trace
                 Hsim Hact).
      destruct (proj1 (@placeEntry_run order config w
                         (after_pre_step config w trace) Hsim))
        as [H | H]; rewrite H, Hpre, <- app_assoc;
        eexists; (split; [reflexivity |]);
        destruct Hshape as [-> | ->];
        (split; [reflexivity | split; [reflexivity | simpl; lia]]).
Qed.

End ClientMore.

Lemma entry_sends_one_order_witness :
  let order := ClientSamples.decision BUY "41" in
  executeOrder Samples.instrument order ClientSamples.live
               ClientSamples.accepting []
  = (Returned MoreClientSamples.ok,
     [GET configPath; leverageRequest Samples.instrument order;
      POST orderPath
           (OrderBody Samples.instrument "isolated" "buy" "long" "market"
                      "41.00" (Some ("97.95", "-1")))]).
Proof.
  apply (@entry_sends_one_order Samples.instrument
           (ClientSamples.decision BUY "41") ClientSamples.live
           ClientSamples.accepting []).
  - reflexivity.
  - reflexivity.
  - reflexivity.
  - now vm_compute.
Defined.

(** An action that is neither [BUY] nor [CLOSE] is sent as a sell on the
    short side: [HOLD] as well. *)
Example hold_is_sent_as_a_short_sell :
  let order := ClientSamples.decision HOLD "1" in
  snd (executeOrder Samples.instrument order ClientSamples.live
                    ClientSamples.accepting [])
  = [GET configPath; leverageRequest Samples.instrument order;
     POST orderPath
          (OrderBody Samples.instrument "isolated" "sell" "short" "market"
                     "1.00" (Some ("97.95", "-1")))].
Proof. now vm_compute. Qed.

Lemma leverage_failure_is_fatal_witness :
  let order := ClientSamples.decision BUY "41" in
  executeOrder Samples.instrument order ClientSamples.live
               MoreClientSamples.refusing_leverage []
  = (Thrown "无法设置杠杆: 设置杠杆失败 (10x): Setting failed (Code: 59000)",
     [GET configPath; leverageRequest Samples.instrument order]).
Proof.
  apply (@leverage_failure_is_fatal Samples.instrument
           (ClientSamples.decision BUY "41") ClientSamples.live
           MoreClientSamples.refusing_leverage []).
  - reflexivity.
  - reflexivity.
  - reflexivity.
Defined.

Lemma position_mode_failure_is_not_fatal_witness :
  executeOrder Samples.instrument (ClientSamples.decision CLOSE "0")
               ClientSamples.live MoreClientSamples.refusing_mode []
  = (Returned MoreClientSamples.ok,
     [GET configPath;
      POST setPositionModePath (SetPositionModeBody "long_short_mode");
      closeRequest Samples.instrument "long"]).
Proof.
  apply (@position_mode_failure_is_not_fatal Samples.instrument
           (ClientSamples.decision CLOSE "0") ClientSamples.live
           MoreClientSamples.refusing_mode []
           [GET configPath;
            POST setPositionModePath (SetPositionModeBody "long_short_mode")]
           "无法切换持仓模式为双向持仓: Positions are open").
  - reflexivity.
  - reflexivity.
Defined.

Lemma close_transport_failure_aborts_witness :
  executeOrder Samples.instrument (ClientSamples.decision CLOSE "0")
               ClientSamples.live MoreClientSamples.dropping_close []
  = (Thrown "Failed to fetch",
     [GET configPath; closeRequest Samples.instrument "long"]).
Proof.
  apply (@close_transport_failure_aborts Samples.instrument
           (ClientSamples.decision CLOSE "0") ClientSamples.live
           MoreClientSamples.dropping_close [] "Failed to fetch").
  - reflexivity.
  - reflexivity.
  - reflexivity.
Defined.

Lemma executeOrder_returns_only_accepted_witness :
  fst (executeOrder Samples.instrument (ClientSamples.decision BUY "41")
                    ClientSamples.live ClientSamples.accepting [])
  = Returned MoreClientSamples.ok
  /\ Json.code MoreClientSamples.ok = "0".
Proof.
  split; [now vm_compute |].
  apply (@executeOrder_returns_only_accepted Samples.instrument
           (ClientSamples.decision BUY "41") ClientSamples.live
           ClientSamples.accepting []
           [GET configPath;
            leverageRequest Samples.instrument
              (ClientSamples.decision BUY "41");
            entryOrderRequest Samples.instrument
              (ClientSamples.decision BUY "41")]
           MoreClientSamples.ok).
  now vm_compute.
Defined.

(* ------------------------------------------------------------------ *)
(** * The algo-order client *)
(* ------------------------------------------------------------------ *)

Section AlgoClientFacts.

Variable INSTRUMENT_ID : string.

(** X21. [fetchAlgoOrders] never throws.  It returns a list whatever the
    venue does; in simulation nothing is sent, otherwise exactly one
    request, the one for the pending orders; and a list that is not empty
    is the data of a reply whose code is "0". *)
Theorem fetchAlgoOrders_never_throws (config : AppConfig.t) (v : Venue.t)
    (trace : list AlgoRequest) :
  let req := GetPendingAlgos (pendingAlgosPath INSTRUMENT_ID) in
  exists orders,
    fetchAlgoOrders INSTRUMENT_ID config v trace
    = (Returned orders,
       if AppConfig.isSimulation config then trace
       else (trace ++ [req])%list)
    /\ (orders <> [] ->
        AppConfig.isSimulation config = false
        /\ exists msg, Venue.answer v trace req = Answered "0" msg orders).
Proof.
  intros req. unfold fetchAlgoOrders.
  destruct (AppConfig.isSimulation config).
  - exists []. split; [reflexivity | intros H; now contradiction H].
  - unfold acatch, abind, afetch. fold req.
    destruct (Venue.answer v trace req) as [e | code msg data].
    + exists []. split; [reflexivity | intros H; now contradiction H].
    + destruct (String.eqb code "0") eqn:Hc.
      * exists data. split; [reflexivity |]. intros _.
        apply String.eqb_eq in Hc. subst code. split; [reflexivity |].
        now exists msg.
      * exists []. split; [reflexivity | intros H; now contradiction H].
Qed.

(** A live [updatePositionTPSL], step by step. *)
Lemma updatePositionTPSL_live (instId : string) (posSide : PosSide)
    (size : string) (slPrice tpPrice : option string) (config : AppConfig.t)
    (v : Venue.t) (trace trace1 : list AlgoRequest)
    (pendingAlgos : list AlgoOrder.t) :
  AppConfig.isSimulation config = false ->
  fetchAlgoOrders INSTRUMENT_ID config v trace
  = (Returned pendingAlgos, trace1) ->
  let cancel := cancellation instId posSide pendingAlgos in
  let place := PlaceAlgo (protection instId posSide size slPrice tpPrice) in
  let trace2 := (trace1 ++ cancel)%list in
  updatePositionTPSL INSTRUMENT_ID instId posSide size slPrice tpPrice
                     config v trace
  = match cancelFailure v trace1 cancel with
    | Some e => (Thrown ("更新失败: " ++ e), trace2)
    | None =>
        if negb (supplied slPrice) && negb (supplied tpPrice)
        then (Returned (Ack.mk "0" "无新的止盈止损"), trace2)
        else
          match Venue.answer v trace2 place with
          | Failed e =>
              (Thrown ("更新失败: " ++ e), (trace2 ++ [place])%list)
          | Answered code msg _ =>
              if String.eqb code "0"
              then (Returned (Ack.mk "0" "止盈止损更新成功"),
                    (trace2 ++ [place])%list)
              else (Thrown ("更新失败: 更新TPSL失败: " ++ msg),
                    (trace2 ++ [place])%list)
          end
    end.
Proof.
  intros Hlive Hfetch cancel place trace2.
  unfold updatePositionTPSL. rewrite Hlive.
  unfold acatch, abind at 1. rewrite Hfetch.
  fold (cancelList instId posSide pendingAlgos).
  fold (protection instId posSide size slPrice tpPrice). fold place.
  subst trace2 cancel. unfold cancellation, cancelFailure.
  destruct (cancelList instId posSide pendingAlgos) as [| c0 rest] eqn:Hc.
  - cbn [List.length Nat.ltb Nat.leb]. unfold abind at 1, aret at 1.
    rewrite app_nil_r.
    destruct (negb (supplied slPrice) && negb (supplied tpPrice));
      [reflexivity |].
    unfold abind, afetch.
    destruct (Venue.answer v trace1 place) as [e | code msg data];
      [reflexivity |].
    destruct (String.eqb code "0"); reflexivity.
  - change (0 <? List.length (c0 :: rest))%nat with true. cbv iota.
    unfold abind at 1, abind at 1, afetch at 1.
    destruct (Venue.answer v trace1 (CancelAlgos (c0 :: rest)))
      as [e | code0 msg0 data0]; [reflexivity |].
    unfold aret at 1.
    destruct (negb (supplied slPrice) && negb (supplied tpPrice));
      [reflexivity |].
    unfold abind, afetch.
    destruct (Venue.answer v _ place) as [e | code msg data];
      [reflexivity |].
    destruct (String.eqb code "0"); reflexivity.
Qed.

(** [fetchAlgoOrders] returns. *)
Lemma fetchAlgoOrders_returns (config : AppConfig.t) (v : Venue.t)
    (trace : list AlgoRequest) :
  exists orders trace1,
    fetchAlgoOrders INSTRUMENT_ID config v trace = (Returned orders, trace1).
Proof.
  unfold fetchAlgoOrders. destruct (AppConfig.isSimulation config);
    [now exists [], trace |].
  unfold acatch, abind, afetch.
  destruct (Venue.answer v trace _) as [e | code msg data];
    now eexists _, _.
Qed.

(** X22. The requests of [updatePositionTPSL].  After the pending orders
    have been read, a live call sends the cancellation of the pending
    orders of the instrument and side when there are any, and then at
    most one new conditional order: the protection of the position, sent
    only when a stop or a take-profit price was supplied. *)
Theorem tpsl_cancels_before_placing (instId : string) (posSide : PosSide)
    (size : string) (slPrice tpPrice : option string) (config : AppConfig.t)
    (v : Venue.t) (trace trace1 : list AlgoRequest)
    (pendingAlgos : list AlgoOrder.t) :
  AppConfig.isSimulation config = false ->
  fetchAlgoOrders INSTRUMENT_ID config v trace
  = (Returned pendingAlgos, trace1) ->
  exists placed,
    snd (updatePositionTPSL INSTRUMENT_ID instId posSide size slPrice
                            tpPrice config v trace)
    = (trace1 ++ cancellation instId posSide pendingAlgos ++ placed)%list
    /\ (placed = []
        \/ placed
           = [PlaceAlgo (protection instId posSide size slPrice tpPrice)]
           /\ supplied slPrice || supplied tpPrice = true).
Proof.
  intros Hlive Hfetch.
  rewrite (@updatePositionTPSL_live instId posSide size slPrice tpPrice
             config v trace trace1 pendingAlgos Hlive Hfetch).
  destruct (cancelFailure v trace1 _) as [e |].
  - exists []. rewrite app_nil_r. split; [reflexivity | now left].
  - destruct (negb (supplied slPrice) && negb (supplied tpPrice)) eqn:Hp.
    + exists []. rewrite app_nil_r. split; [reflexivity | now left].
    + eexists [_]. split.
      * destruct (Venue.answer v _ _) as [e | code msg data];
          [| destruct (String.eqb code "0")];
          simpl; now rewrite <- app_assoc.
      * right. split; [reflexivity |].
        destruct (supplied slPrice), (supplied tpPrice);
          (reflexivity || discriminate).
Qed.

(** X23. The outcome of [updatePositionTPSL].  Whatever the venue does,
    a call that returns gives an acknowledgement whose code is "0", and a
    call that throws gives an error that starts with "更新失败: ". *)
Theorem tpsl_outcome (instId : string) (posSide : PosSide)
    (size : string) (slPrice tpPrice : option string) (config : AppConfig.t)
    (v : Venue.t) (trace : list AlgoRequest) :
  match fst (updatePositionTPSL INSTRUMENT_ID instId posSide size slPrice
                                tpPrice config v trace) with
  | Returned ack => Ack.code ack = "0"
  | Thrown message => starts_with "更新失败: " message
  end.
Proof.
  destruct (AppConfig.isSimulation config) eqn:Hsim.
  - unfold updatePositionTPSL. rewrite Hsim. reflexivity.
  - destruct (fetchAlgoOrders_returns config v trace)
      as (pendingAlgos & trace1 & Hfetch).
    rewrite (@updatePositionTPSL_live instId posSide size slPrice tpPrice
               config v trace trace1 pendingAlgos Hsim Hfetch).
    destruct (cancelFailure v trace1 _) as [e |];
      [now exists e |].
    destruct (negb (supplied slPrice) && negb (supplied tpPrice));
      [reflexivity |].
    destruct (Venue.answer v _ _) as [e | code msg data];
      [now exists e |].
    destruct (String.eqb code "0"); [reflexivity |].
    now exists ("更新TPSL失败: " ++ msg)%string.
Qed.

(** X24. A call without prices only cancels.  When neither a stop nor a
    take-profit price is supplied, a live call cancels the pending orders
    of the instrument and side and places nothing.  It answers
    "无新的止盈止损" whatever the venue replied to the cancellation; only a
    cancellation that got no reply makes it fail. *)
Theorem tpsl_without_prices_only_cancels (instId : string)
    (posSide : PosSide) (size : string) (slPrice tpPrice : option string)
    (config : AppConfig.t) (v : Venue.t) (trace trace1 : list AlgoRequest)
    (pendingAlgos : list AlgoOrder.t) :
  let cancel := cancellation instId posSide pendingAlgos in
  AppConfig.isSimulation config = false ->
  fetchAlgoOrders INSTRUMENT_ID config v trace
  = (Returned pendingAlgos, trace1) ->
  supplied slPrice = false ->
  supplied tpPrice = false ->
  updatePositionTPSL INSTRUMENT_ID instId posSide size slPrice tpPrice
                     config v trace
  = (match cancelFailure v trace1 cancel with
     | Some e => Thrown ("更新失败: " ++ e)
     | None => Returned (Ack.mk "0" "无新的止盈止损")
     end, (trace1 ++ cancel)%list).
Proof.
  intros cancel Hlive Hfetch Hsl Htp.
  rewrite (@updatePositionTPSL_live instId posSide size slPrice tpPrice
             config v trace trace1 pendingAlgos Hlive Hfetch).
  fold cancel. rewrite Hsl, Htp.
  destruct (cancelFailure v trace1 cancel); reflexivity.
Qed.

(** X25. Cancelling and placing are two steps.  When a price is supplied
    and the venue refuses the new conditional order (a reply whose code
    is not "0"), a live call fails with the message of the venue, after
    the cancellation of the pending orders has been sent. *)
Theorem refused_protection_comes_after_cancel (instId : string)
    (posSide : PosSide) (size : string) (slPrice tpPrice : option string)
    (config : AppConfig.t) (v : Venue.t) (trace trace1 : list AlgoRequest)
    (pendingAlgos : list AlgoOrder.t) (code msg : string)
    (data : list AlgoOrder.t) :
  let cancel := cancellation instId posSide pendingAlgos in
  let place := PlaceAlgo (protection instId posSide size slPrice tpPrice) in
  AppConfig.isSimulation config = false ->
  fetchAlgoOrders INSTRUMENT_ID config v trace
  = (Returned pendingAlgos, trace1) ->
  cancelFailure v trace1 cancel = None ->
  supplied slPrice || supplied tpPrice = true ->
  Venue.answer v (trace1 ++ cancel)%list place = Answered code msg data ->
  code <> "0" ->
  updatePositionTPSL INSTRUMENT_ID instId posSide size slPrice tpPrice
                     config v trace
  = (Thrown ("更新失败: 更新TPSL失败: " ++ msg),
     (trace1 ++ cancel ++ [place])%list).
Proof.
  intros cancel place Hlive Hfetch Hcancel Hprice Hplace Hcode.
  rewrite (@updatePositionTPSL_live instId posSide size slPrice tpPrice
             config v trace trace1 pendingAlgos Hlive Hfetch).
  fold cancel place. rewrite Hcancel, Hplace.
  replace (negb (supplied slPrice) && negb (supplied tpPrice)) with false
    by (destruct (supplied slPrice), (supplied tpPrice);
        (reflexivity || discriminate)).
  apply String.eqb_neq in Hcode. rewrite Hcode.
  now rewrite <- app_assoc.
Qed.

(** X26. The outcome of [addMargin].  In simulation nothing is sent; a
    live call sends exactly one request.  A call that returns gives an
    acknowledgement whose code is "0", and a call that throws gives an
    error that starts with "追加保证金错误: ". *)
Theorem addMargin_outcome (instId posSide type amt : string)
    (config : AppConfig.t) (v : Venue.t) (trace : list AlgoRequest) :
  let run := addMargin instId posSide type amt config v trace in
  snd run
  = (if AppConfig.isSimulation config then trace
     else (trace ++ [MarginBalance instId posSide type amt])%list)
  /\ match fst run with
     | Returned ack => Ack.code ack = "0"
     | Thrown message => starts_with "追加保证金错误: " message
     end.
Proof.
  unfold addMargin. destruct (AppConfig.isSimulation config);
    [now split |].
  unfold acatch, abind, afetch.
  destruct (Venue.answer v trace _) as [e | code msg data];
    [split; [reflexivity | now exists e] |].
  destruct (String.eqb code "0") eqn:Hc.
  - apply String.eqb_eq in Hc. now split.
  - split; [reflexivity |]. now exists ("追加失败: " ++ msg)%string.
Qed.

End AlgoClientFacts.

Lemma tpsl_cancels_before_placing_witness :
  exists placed,
    snd (updatePositionTPSL Samples.instrument Samples.instrument long "10"
           (Some "99") None ClientSamples.live AlgoSamples.accepting [])
    = ([GetPendingAlgos (pendingAlgosPath Samples.instrument)]
       ++ cancellation Samples.instrument long
            [AlgoSamples.stop_95; AlgoSamples.short_stop;
             AlgoSamples.target_150]
       ++ placed)%list
    /\ (placed = []
        \/ placed
           = [PlaceAlgo (protection Samples.instrument long "10"
                                    (Some "99") None)]
           /\ supplied (Some "99") || supplied None = true).
Proof.
  apply (@tpsl_cancels_before_placing Samples.instrument
           Samples.instrument long "10" (Some "99") None
           ClientSamples.live AlgoSamples.accepting []
           [GetPendingAlgos (pendingAlgosPath Samples.instrument)]
           [AlgoSamples.stop_95; AlgoSamples.short_stop;
            AlgoSamples.target_150]).
  - reflexivity.
  - reflexivity.
Defined.

(** The same call, evaluated: the stop and the take-profit of the long
    side are cancelled, the stop of the short side is left alone, and the
    new stop is placed. *)
Example sample_tpsl_update :
  updatePositionTPSL Samples.instrument Samples.instrument long "10"
    (Some "99") None ClientSamples.live AlgoSamples.accepting []
  = (Returned (Ack.mk "0" "止盈止损更新成功"),
     [GetPendingAlgos (pendingAlgosPath Samples.instrument);
      CancelAlgos [("algo-1", Samples.instrument);
                   ("algo-2", Samples.instrument)];
      PlaceAlgo (AlgoBody.mk Samples.instrument "long" "isolated" "sell"
                   "conditional" "10" true (Some "99") (Some "-1")
                   None None)]).
Proof. reflexivity. Qed.

Lemma tpsl_without_prices_only_cancels_witness :
  updatePositionTPSL Samples.instrument Samples.instrument long "10"
    None (Some "") ClientSamples.live AlgoSamples.accepting []
  = (Returned (Ack.mk "0" "无新的止盈止损"),
     [GetPendingAlgos (pendingAlgosPath Samples.instrument);
      CancelAlgos [("algo-1", Samples.instrument);
                   ("algo-2", Samples.instrument)]]).
Proof.
  apply (@tpsl_without_prices_only_cancels Samples.instrument
           Samples.instrument long "10" None (Some "")
           ClientSamples.live AlgoSamples.accepting []
           [GetPendingAlgos (pendingAlgosPath Samples.instrument)]
           [AlgoSamples.stop_95; AlgoSamples.short_stop;
            AlgoSamples.target_150]).
  - reflexivity.
  - reflexivity.
  - reflexivity.
  - reflexivity.
Defined.

Lemma refused_protection_comes_after_cancel_witness :
  updatePositionTPSL Samples.instrument Samples.instrument long "10"
    (Some "99") None ClientSamples.live AlgoSamples.refusing_placement []
  = (Thrown "更新失败: 更新TPSL失败: Parameter error",
     [GetPendingAlgos (pendingAlgosPath Samples.instrument);
      CancelAlgos [("algo-1", Samples.instrument);
                   ("algo-2", Samples.instrument)];
      PlaceAlgo (protection Samples.instrument long "10" (Some "99") None)]).
Proof.
  apply (@refused_protection_comes_after_cancel Samples.instrument
           Samples.instrument long "10" (Some "99") None
           ClientSamples.live AlgoSamples.refusing_placement []
           [GetPendingAlgos (pendingAlgosPath Samples.instrument)]
           [AlgoSamples.stop_95; AlgoSamples.short_stop;
            AlgoSamples.target_150]
           "51000" "Parameter error" []).
  - reflexivity.
  - reflexivity.
  - reflexivity.
  - reflexivity.
  - reflexivity.
  - discriminate.
Defined.

(* ------------------------------------------------------------------ *)
(** * Positions and candles as the service builds them *)
(* ------------------------------------------------------------------ *)

Lemma PosSide_eqb_eq (a b : PosSide) : PosSide_eqb a b = true -> a = b.
Proof. destruct a, b; (reflexivity || discriminate). Qed.

Lemma positive_price_inv (p : option string) :
  positive_price p = true ->
  exists s, p = Some s /\ s <> ""
            /\ (JS.parseFloat s >? JS.num 0)%js = true.
Proof.
  destruct p as [[| c s] |]; try discriminate.
  intros H. exists (String c s). now repeat split.
Qed.

(** X27. The stop attached to a position.  A position built by
    [toPosition] carries a stop only when it is the stop trigger of a
    pending order of the same instrument and side, and that trigger
    parses to a number above zero. *)
Theorem attached_stop_comes_from_an_order (algoOrders : list AlgoOrder.t)
    (rawPos : PositionData.t) (s : string) :
  PositionData.slTriggerPx (toPosition algoOrders rawPos) = Some s ->
  (exists o,
     In o algoOrders
     /\ AlgoOrder.instId o = PositionData.instId rawPos
     /\ AlgoOrder.posSide o = PositionData.posSide rawPos
     /\ AlgoOrder.slTriggerPx o = Some s)
  /\ (JS.parseFloat s >? JS.num 0)%js = true.
Proof.
  unfold toPosition. cbn [PositionData.slTriggerPx].
  destruct (find _ algoOrders) as [o |] eqn:F; [| discriminate].
  intros Hs. apply find_some in F. destruct F as [Hin Hp].
  apply andb_prop in Hp. destruct Hp as [Hsame Hpos].
  apply andb_prop in Hsame. destruct Hsame as [Hinst Hside].
  apply String.eqb_eq in Hinst. apply PosSide_eqb_eq in Hside.
  destruct (positive_price_inv _ Hpos) as (s' & Hs' & _ & Hgt).
  rewrite Hs in Hs'. injection Hs' as <-.
  split; [now exists o | exact Hgt].
Qed.

(** X28. The stop the position manager reads.  For a position built by
    [toPosition], the current stop of [calculateManagement] is the number
    0 (no stop attached) or a number above zero: it is never [NaN] and
    never negative. *)
Theorem managed_stop_is_zero_or_positive (algoOrders : list AlgoOrder.t)
    (rawPos : PositionData.t) :
  let pos := toPosition algoOrders rawPos in
  currentSL pos = JS.num 0 \/ (currentSL pos >? JS.num 0)%js = true.
Proof.
  intros pos. subst pos. unfold currentSL, toPosition.
  cbn [PositionData.slTriggerPx].
  destruct (find _ algoOrders) as [o |] eqn:F.
  - apply find_some in F. destruct F as [_ Hp].
    apply andb_prop in Hp. destruct Hp as [_ Hpos].
    destruct (positive_price_inv _ Hpos) as (s & Hs & Hne & Hgt).
    rewrite Hs. right.
    destruct s as [| c s]; [now contradiction Hne | exact Hgt].
  - left. js_eq.
Qed.

(** X29. From the candle endpoint to the series of the strategy.
    [formatCandles] keeps every row and reverses their order: the closes,
    highs and lows that the strategy reads are columns 4, 2 and 3 of the
    rows, last row first. *)
Theorem formatCandles_feeds_the_series (rows : list (list string)) :
  let cs := formatCandles (Some rows) in
  List.length cs = List.length rows
  /\ closes cs = rev (map (fun c => JS.parseFloat (cell c 4)) rows)
  /\ highs cs = rev (map (fun c => JS.parseFloat (cell c 2)) rows)
  /\ lows cs = rev (map (fun c => JS.parseFloat (cell c 3)) rows).
Proof.
  intros cs. subst cs. unfold formatCandles, closes, highs, lows.
  rewrite length_rev, length_map, <- !map_rev, !map_map.
  now repeat split.
Qed.

Lemma attached_stop_comes_from_an_order_witness :
  PositionData.slTriggerPx
    (toPosition [AlgoSamples.short_stop; AlgoSamples.target_150;
                 AlgoSamples.stop_95] AlgoSamples.raw_long)
  = Some "95"
  /\ (JS.parseFloat "95" >? JS.num 0)%js = true.
Proof.
  split; [reflexivity |].
  apply (@attached_stop_comes_from_an_order
           [AlgoSamples.short_stop; AlgoSamples.target_150;
            AlgoSamples.stop_95] AlgoSamples.raw_long "95").
  reflexivity.
Defined.
